(** * Rodchenko art auction: ledger, credential store, URL guard, settings
      codec and artwork import

    A shallow embedding of [src/db.py], [src/security.py] and the request
    handlers of [src/app.py] that create, edit and import artworks, together
    with the properties of the specification that concern them.

    Conventions of the embedding.
    - A Python [str] is a list of Unicode code points ([pystr]); literals
      are written [py "..."].
    - A Python [int] is a [Z].  SQLite stores 64-bit integers; the places
      where the Python driver refuses a larger integer are written out
      ([bind_int], [sqlite_bind]), and so is the limit that the interpreter
      puts on the digits of an [int] read from a text
      ([INT_MAX_STR_DIGITS]).  SQL arithmetic ([balance - ?]) is taken in
      [Z]: a result outside 64 bits, which SQLite turns into a floating
      point number, is outside this model, and the statements about
      amounts assume the sums within the 64 bits ([purchase_in_int64]).
    - A table keyed by its [INTEGER PRIMARY KEY] is a [gmap Z row]; the
      tables that are only appended to or scanned are lists.
    - A function that can raise returns a [result]; [try ... except] is
      [catch].
    - Functions of Python libraries (werkzeug, hashlib, urllib, socket,
      ipaddress, requests) are fields of interface classes. *)

From Stdlib Require Import ZArith NArith Lia Bool String Ascii DecimalPos DecimalFacts.
From stdpp Require Import base option list gmap sorting.

Set Warnings "-register-all".
Local Open Scope Z_scope.

(** ** Python values *)

(** A Python string: its code points. *)
Definition pystr : Type := list N.

Definition py (s : string) : pystr :=
  map (fun c => N.of_nat (nat_of_ascii c)) (list_ascii_of_string s).

(** A literal that holds double quotes, written with single ones. *)
Definition pyq (s : string) : pystr :=
  map (fun c => if (c =? 39)%N then 34%N else c) (py s).

Definition pystr_eqb (a b : pystr) : bool := bool_decide (a = b).

(** Exceptions are kept by class name only. *)
Inductive exn : Type :=
  | ValueError
  | TypeError
  | KeyError
  | RecursionError
  | OverflowError
  | UnicodeEncodeError
  | IntegrityError
  | ProgrammingError
  | OSError (msg : pystr).

Inductive result (A : Type) : Type :=
  | Ok (a : A)
  | Raise (e : exn).
Arguments Ok {A} a.
Arguments Raise {A} e.

Definition bind {A B} (r : result A) (k : A -> result B) : result B :=
  match r with
  | Ok a => k a
  | Raise e => Raise e
  end.

(** [try: body except Exception: handler] *)
Definition catch {A} (body : result A) (handler : exn -> A) : A :=
  match body with
  | Ok a => a
  | Raise e => handler e
  end.

Notation "'let!' x ':=' r 'in' k" := (bind r (fun x => k))
  (at level 10, x pattern, r at level 100, k at level 200).

(** ** The store ([init_db]) *)

Definition timestamp : Type := Z.

(** A value bound to a statement parameter, as SQLite receives it. *)
Inductive sqlval : Type :=
  | SqlNull
  | SqlInt (n : Z)
  | SqlReal (lexeme : pystr)
  | SqlText (s : pystr).

Record user := User {
  u_username : pystr;
  u_password : pystr;
  u_balance : Z;
  u_created_at : timestamp
}.

Record artwork := Artwork {
  a_title : sqlval;
  a_data : pystr;
  a_price : Z;
  a_owner_id : Z;
  a_is_private : Z;
  a_signature : pystr;
  a_created_at : timestamp
}.

Record transaction := Transaction {
  t_buyer_id : Z;
  t_seller_id : Z;
  t_artwork_id : Z;
  t_amount : Z;
  t_created_at : timestamp
}.

Record settings_row := SettingsRow {
  s_artwork_id : Z;
  s_settings_data : pystr;
  s_created_at : timestamp
}.

(** The tables [users], [artworks], [transactions], [artwork_settings] and
    the next keys that AUTOINCREMENT gives. *)
Record database := Database {
  users : gmap Z user;
  artworks : gmap Z artwork;
  transactions : list transaction;
  settings_rows : list settings_row;
  next_user_id : Z;
  next_artwork_id : Z
}.

Definition set_users (f : gmap Z user -> gmap Z user) (d : database) : database :=
  Database (f (users d)) (artworks d) (transactions d) (settings_rows d)
           (next_user_id d) (next_artwork_id d).

Definition set_artworks (f : gmap Z artwork -> gmap Z artwork) (d : database) : database :=
  Database (users d) (f (artworks d)) (transactions d) (settings_rows d)
           (next_user_id d) (next_artwork_id d).

Definition set_transactions (f : list transaction -> list transaction) (d : database) : database :=
  Database (users d) (artworks d) (f (transactions d)) (settings_rows d)
           (next_user_id d) (next_artwork_id d).

Definition set_settings_rows (f : list settings_row -> list settings_row) (d : database) : database :=
  Database (users d) (artworks d) (transactions d) (f (settings_rows d))
           (next_user_id d) (next_artwork_id d).

(** ** Integers of a statement

    An SQLite integer has 64 bits; the sqlite3 driver refuses a Python
    [int] outside them with [OverflowError]. *)
Definition in_int64 (n : Z) : bool :=
  (-9223372036854775808 <=? n) && (n <=? 9223372036854775807).

Definition bind_int (n : Z) : result Z :=
  if in_int64 n then Ok n else Raise OverflowError.

(** ** Ledger ([purchase_artwork]) *)

(** [UPDATE users SET balance = balance + ? WHERE id = ?]; no row, no change. *)
Definition add_balance (delta : Z) (u : user) : user :=
  User (u_username u) (u_password u) (u_balance u + delta) (u_created_at u).

(** [UPDATE artworks SET owner_id = ? WHERE id = ?] *)
Definition with_owner (owner : Z) (a : artwork) : artwork :=
  Artwork (a_title a) (a_data a) (a_price a) owner (a_is_private a)
          (a_signature a) (a_created_at a).

(** [purchase_artwork].  Each of the two SELECT statements binds its key
    first, and a key outside 64 bits raises there, before anything is
    written.  The two sums are SQLite's while they fit the 64 bits (see
    [purchase_in_int64]). *)
Definition purchase_artwork (now : timestamp) (buyer_id artwork_id : Z) (d : database)
  : result ((bool * string) * database) :=
  let! artwork_v := bind_int artwork_id in
  match artworks d !! artwork_v with
  | None => Ok ((false, "Artwork not found"%string), d)
  | Some art =>
      let seller_id := a_owner_id art in
      let price := a_price art in
      if seller_id =? buyer_id then
        Ok ((false, "You cannot buy your own artwork"%string), d)
      else
        let! buyer_v := bind_int buyer_id in
        match users d !! buyer_v with
        | None => Ok ((false, "Insufficient balance"%string), d)
        | Some buyer =>
            if u_balance buyer <? price then
              Ok ((false, "Insufficient balance"%string), d)
            else
              let d1 := set_users (alter (add_balance (- price)) buyer_v) d in
              let d2 := set_users (alter (add_balance price) seller_id) d1 in
              let d3 := set_artworks (alter (with_owner buyer_v) artwork_v) d2 in
              let d4 := set_transactions
                          (fun l => l ++ [Transaction buyer_v seller_id artwork_v price now]) d3 in
              Ok ((true, "Purchase successful"%string), d4)
        end
  end.


(** The store after a purchase: the call's, or the store as it was when
    the call raised, nothing being committed then. *)
Definition purchased (now : timestamp) (buyer_id artwork_id : Z) (d : database) : database :=
  match purchase_artwork now buyer_id artwork_id d with
  | Ok (_, d') => d'
  | Raise _ => d
  end.

(** [get_user_balance] *)
Definition get_user_balance (user_id : Z) (d : database) : Z :=
  match users d !! user_id with
  | Some u => u_balance u
  | None => 0
  end.

(** ** Text *)

(** [str.isspace] on one character (the table of [Py_UNICODE_ISSPACE]). *)
Definition isspace (c : N) : bool :=
  ((9 <=? c) && (c <=? 13) || (28 <=? c) && (c <=? 32) || (c =? 133) || (c =? 160)
   || (c =? 5760) || (8192 <=? c) && (c <=? 8202) || (c =? 8232) || (c =? 8233)
   || (c =? 8239) || (c =? 8287) || (c =? 12288))%N.

Fixpoint lstrip (s : pystr) : pystr :=
  match s with
  | c :: r => if isspace c then lstrip r else s
  | [] => []
  end.

(** [s.strip()] *)
Definition strip (s : pystr) : pystr := rev (lstrip (rev (lstrip s))).

(** [s.lower()].  Only A-Z are mapped.  The one use, in [is_safe_url],
    compares the result with two ASCII words; the characters outside ASCII
    that Python's full case mapping sends into ASCII letters are U+212A, to
    [k], and U+0130, to [i] followed by U+0307, and neither result can make
    one of the two words. *)
Definition lower_char (c : N) : N :=
  (if (65 <=? c) && (c <=? 90) then c + 32 else c)%N.

Definition lower (s : pystr) : pystr := map lower_char s.

(** Comparison of two strings by code points, as [sorted] does. *)
Fixpoint pystr_ltb (a b : pystr) : bool :=
  match a, b with
  | [], [] => false
  | [], _ :: _ => true
  | _ :: _, [] => false
  | x :: a', y :: b' => (x <? y)%N || (x =? y)%N && pystr_ltb a' b'
  end.

(** [sorted(l)[0]] for a list that is not empty. *)
Fixpoint smallest (x : pystr) (l : list pystr) : pystr :=
  match l with
  | [] => x
  | y :: l' => if pystr_ltb y x then smallest y l' else smallest x l'
  end.

Definition is_surrogate (c : N) : bool := ((55296 <=? c) && (c <=? 57343))%N.

(** A string as the decoding of a request leaves it: Unicode scalar values. *)
Definition is_scalar_value (c : N) : bool := (c <? 1114112)%N && negb (is_surrogate c).

Definition well_formed (s : pystr) : bool := forallb is_scalar_value s.

(** [s.encode()]: UTF-8, which refuses surrogates. *)
Definition byte_of_N (n : N) : Byte.byte :=
  match Byte.of_N (n mod 256) with
  | Some b => b
  | None => Byte.x00
  end.

Definition encode_char (c : N) : list Byte.byte :=
  (if c <? 128 then [byte_of_N c]
   else if c <? 2048 then [byte_of_N (192 + c / 64); byte_of_N (128 + c mod 64)]
   else if c <? 65536 then
     [byte_of_N (224 + c / 4096); byte_of_N (128 + (c / 64) mod 64);
      byte_of_N (128 + c mod 64)]
   else
     [byte_of_N (240 + c / 262144); byte_of_N (128 + (c / 4096) mod 64);
      byte_of_N (128 + (c / 64) mod 64); byte_of_N (128 + c mod 64)])%N.

Definition encode (s : pystr) : result (list Byte.byte) :=
  if forallb (fun c => negb (is_surrogate c)) s
  then Ok (concat (map encode_char s))
  else Raise UnicodeEncodeError.

(** Lower-case hexadecimal digit of a value below 16. *)
Definition hexdigit (d : N) : N := (if d <? 10 then 48 + d else 87 + d)%N.

(** [digest.hex()] *)
Definition hex_of_bytes (bs : list Byte.byte) : pystr :=
  concat (map (fun b => let n := Byte.to_N b in [hexdigit (n / 16); hexdigit (n mod 16)]) bs).

Definition is_ascii (s : pystr) : bool := forallb (fun c => (c <? 128)%N) s.

(** ** Library interfaces *)

(** werkzeug.security: the salt that [generate_password_hash] draws is an
    argument. *)
Class Werkzeug := {
  generate_password_hash : pystr -> pystr -> pystr;
  check_password_hash : pystr -> pystr -> bool
}.

(** hashlib: [md5(data).digest()]. *)
Class Hashlib := {
  md5 : list Byte.byte -> list Byte.byte
}.

(** ** Credential store ([authenticate_user]) *)

(** [SELECT ... FROM users WHERE username = ?]: the column is UNIQUE, so
    that at most one row bears the name. *)
Definition select_user_by_name (name : pystr) (d : database) : option (Z * user) :=
  snd <$> list_find (fun r : Z * user => u_username (snd r) = name) (map_to_list (users d)).

(** [stored and ":" in stored] *)
Definition has_scheme_marker (stored : pystr) : bool :=
  match stored with
  | [] => false
  | _ => bool_decide (58%N ∈ stored)
  end.

Definition with_password (pw : pystr) (u : user) : user :=
  User (u_username u) pw (u_balance u) (u_created_at u).

(** The dictionary that a successful login returns. *)
Record login := Login {
  l_id : Z;
  l_username : pystr;
  l_balance : Z
}.

Definition authenticate_user `{Werkzeug} `{Hashlib}
    (salt : pystr) (username password : pystr) (d : database)
  : result (option login * database) :=
  match select_user_by_name username d with
  | None => Ok (None, d)
  | Some (user_id, row) =>
      let stored := u_password row in
      let found := Some (Login user_id (u_username row) (u_balance row)) in
      if has_scheme_marker stored then
        Ok (if check_password_hash stored password then found else None, d)
      else
        let! data := encode password in
        let legacy := hex_of_bytes (md5 data) in
        if pystr_eqb stored legacy then
          let new_hash := generate_password_hash password salt in
          Ok (found, set_users (alter (with_password new_hash) user_id) d)
        else Ok (None, d)
  end.

(** The column [username] is UNIQUE: no other row bears the name of row
    [uid]. *)
Definition unique_username (name : pystr) (uid : Z) (d : database) : Prop :=
  forall uid' row', users d !! uid' = Some row' -> u_username row' = name -> uid' = uid.

(** [user_exists] *)
Definition user_exists (username : pystr) (d : database) : bool :=
  match select_user_by_name username d with
  | Some _ => true
  | None => false
  end.

(** ** URL guard ([is_safe_url]) *)

Inductive ipaddr : Type :=
  | IPv4Address (n : N)
  | IPv6Address (n : N).

Inductive address_family : Type :=
  | AF_INET
  | AF_INET6
  | AF_OTHER.

(** What [urlparse(url)] gives: [scheme] and [hostname]. *)
Record parse_result := ParseResult {
  scheme : pystr;
  hostname : option pystr
}.

(** urllib.parse *)
Class Urllib := {
  urlparse : pystr -> result parse_result;
  urljoin : pystr -> pystr -> result pystr
}.

(** ipaddress: [ip_address] raises [ValueError] on a string that is not an
    address; the six properties are the module's classification tables. *)
Class Ipaddress := {
  ip_address : pystr -> result ipaddr;
  ip_str : ipaddr -> pystr;
  is_loopback : ipaddr -> bool;
  is_private : ipaddr -> bool;
  is_link_local : ipaddr -> bool;
  is_unspecified : ipaddr -> bool;
  is_multicast : ipaddr -> bool;
  is_reserved : ipaddr -> bool
}.

(** socket: [getaddrinfo(host, None)], reduced to the family and
    [sockaddr[0]] of each entry.  The first argument is the moment of the
    query: two queries for one name may be answered differently. *)
Class Socket := {
  getaddrinfo : nat -> pystr -> result (list (address_family * pystr))
}.

Definition _is_public_ip `{Ipaddress} (ip : ipaddr) : bool :=
  negb (is_loopback ip || is_private ip || is_link_local ip
        || is_unspecified ip || is_multicast ip || is_reserved ip).

Definition denied : bool * pystr := (false, py "403").

(** [addrs = set(); for family, _, _, _, sockaddr in ...: addrs.add(sockaddr[0])] *)
Definition collect_addrs (answers : list (address_family * pystr)) : list pystr :=
  remove_dups
    (omap (fun e : address_family * pystr =>
             match fst e with
             | AF_INET | AF_INET6 => Some (snd e)
             | AF_OTHER => None
             end) answers).

(** [for ip_str in addrs: ... if not _is_public_ip(ip): return False, "403"] *)
Fixpoint check_addrs `{Ipaddress} (addrs : list pystr) : result bool :=
  match addrs with
  | [] => Ok true
  | a :: rest =>
      let! ip := ip_address a in
      if negb (_is_public_ip ip) then Ok false else check_addrs rest
  end.

Definition is_safe_url `{Urllib} `{Ipaddress} `{Socket} (t : nat) (url : pystr)
  : bool * pystr :=
  catch
    (let! parsed := urlparse url in
     if negb (bool_decide (scheme parsed ∈ [py "http"; py "https"])) then Ok denied
     else
       match hostname parsed with
       | None | Some [] => Ok denied
       | Some host =>
           let hn := lower host in
           if bool_decide (hn ∈ [py "localhost"; py "localhost.localdomain"]) then Ok denied
           else
             match ip_address host with
             | Ok ip =>
                 if negb (_is_public_ip ip) then Ok denied else Ok (true, ip_str ip)
             | Raise ValueError =>
                 let! answers := getaddrinfo t host in
                 match collect_addrs answers with
                 | [] => Ok denied
                 | a :: rest =>
                     let! all_public := check_addrs (a :: rest) in
                     if all_public then Ok (true, smallest a rest) else Ok denied
                 end
             | Raise e => Raise e
             end
       end)
    (fun _ => denied).

(** ** The interpreter

    What the model takes from CPython itself: the depth of nesting that the
    JSON scanner may still enter before [RecursionError], the text and the
    truth value of a float given by its literal, and the Unicode database
    outside ASCII ([str.isdigit], and the decimal value that [int] reads). *)
Class Cpython := {
  recursion_limit : nat;
  float_repr : pystr -> pystr;
  float_is_zero : pystr -> bool;
  nonascii_isdigit : N -> bool;
  nonascii_decimal : N -> option N
}.

(** ** JSON values, [json.loads] and [json.dumps]

    The value of a JSON document as Python holds it; the model uses the
    same type for the Python values that the handlers pass around ([None],
    [bool], [int], [float], [str], [list], [dict] with string keys).  A
    [dict] keeps its keys in insertion order, without repetition. *)
Inductive json : Type :=
  | JNull
  | JBool (b : bool)
  | JInt (n : Z)
  | JFloat (lexeme : pystr)
  | JStr (s : pystr)
  | JArr (items : list json)
  | JObj (members : list (pystr * json)).

(** [d[k] = v] *)
Fixpoint dict_set (k : pystr) (v : json) (d : list (pystr * json)) : list (pystr * json) :=
  match d with
  | [] => [(k, v)]
  | (k', v') :: d' =>
      if pystr_eqb k k' then (k', v) :: d' else (k', v') :: dict_set k v d'
  end.

(** [d.get(k)] *)
Fixpoint dict_get (k : pystr) (d : list (pystr * json)) : option json :=
  match d with
  | [] => None
  | (k', v') :: d' => if pystr_eqb k k' then Some v' else dict_get k d'
  end.

Definition make_dict (pairs : list (pystr * json)) : list (pystr * json) :=
  fold_left (fun d kv => dict_set (fst kv) (snd kv) d) pairs [].

Definition is_ws (c : N) : bool := ((c =? 32) || (c =? 9) || (c =? 10) || (c =? 13))%N.

Fixpoint skip_ws (s : pystr) : pystr :=
  match s with
  | c :: r => if is_ws c then skip_ws r else s
  | [] => []
  end.

Definition is_ascii_digit (c : N) : bool := ((48 <=? c) && (c <=? 57))%N.

Definition hexval (c : N) : option N :=
  (if (48 <=? c) && (c <=? 57) then Some (c - 48)
   else if (97 <=? c) && (c <=? 102) then Some (c - 87)
   else if (65 <=? c) && (c <=? 70) then Some (c - 55)
   else None)%N.

Definition hex4 (a b c d : N) : option N :=
  match hexval a, hexval b, hexval c, hexval d with
  | Some a, Some b, Some c, Some d => Some (((a * 16 + b) * 16 + c) * 16 + d)%N
  | _, _, _, _ => None
  end.

(** The character after a backslash, other than [u]. *)
Definition unescape (e : N) : option N :=
  (if e =? 34 then Some 34
   else if e =? 92 then Some 92
   else if e =? 47 then Some 47
   else if e =? 98 then Some 8
   else if e =? 102 then Some 12
   else if e =? 110 then Some 10
   else if e =? 114 then Some 13
   else if e =? 116 then Some 9
   else None)%N.

Definition is_high_surrogate (c : N) : bool := ((55296 <=? c) && (c <=? 56319))%N.
Definition is_low_surrogate (c : N) : bool := ((56320 <=? c) && (c <=? 57343))%N.

Definition join_surrogates (high low : N) : N :=
  (N.lor (N.shiftl (N.land high 1023) 10) (N.land low 1023) + 65536)%N.

Definition push (c : N) (r : result (pystr * pystr)) : result (pystr * pystr) :=
  match r with
  | Ok (s, rest) => Ok (c :: s, rest)
  | Raise e => Raise e
  end.

(** The scanner of a string literal, from the character after the opening
    quote, in strict mode: the text and what follows the closing quote. *)
Fixpoint scanstring (s : pystr) : result (pystr * pystr) :=
  match s with
  | [] => Raise ValueError
  | c :: r =>
      if (c =? 34)%N then Ok ([], r)
      else if (c =? 92)%N then
        match r with
        | [] => Raise ValueError
        | e :: r1 =>
            if (e =? 117)%N then
              match r1 with
              | h1 :: h2 :: h3 :: h4 :: r2 =>
                  match hex4 h1 h2 h3 h4 with
                  | None => Raise ValueError
                  | Some u =>
                      if is_high_surrogate u then
                        match r2 with
                        | b1 :: b2 :: l1 :: l2 :: l3 :: l4 :: r3 =>
                            if ((b1 =? 92) && (b2 =? 117))%N then
                              match hex4 l1 l2 l3 l4 with
                              | None => Raise ValueError
                              | Some u2 =>
                                  if is_low_surrogate u2
                                  then push (join_surrogates u u2) (scanstring r3)
                                  else push u (scanstring r2)
                              end
                            else push u (scanstring r2)
                        | _ => push u (scanstring r2)
                        end
                      else push u (scanstring r2)
                  end
              | _ => Raise ValueError
              end
            else
              match unescape e with
              | Some ch => push ch (scanstring r1)
              | None => Raise ValueError
              end
        end
      else if (c <? 32)%N then Raise ValueError
      else push c (scanstring r)
  end.

Fixpoint span_digits (s : pystr) : pystr * pystr :=
  match s with
  | c :: r =>
      if is_ascii_digit c then let (ds, rest) := span_digits r in (c :: ds, rest)
      else ([], s)
  | [] => ([], [])
  end.

Definition digits_value (ds : pystr) : Z :=
  fold_left (fun acc c => acc * 10 + (Z.of_N c - 48)) ds 0.

(** [sys.get_int_max_str_digits()] as the interpreter starts: the most
    digits of an [int] that is read from a text or written to one;
    [int], [json.loads] and [json.dumps] raise [ValueError] beyond it. *)
Definition INT_MAX_STR_DIGITS : nat := 4300.

(** The number at the head of [s]: an optional minus sign, then a zero or a
    run of digits that does not start with zero, then optionally a point
    with digits, then optionally [e] or [E] with an optional sign and
    digits.  With a fraction or an exponent it is a float, kept by its
    literal; without, it is an [int], within the limit on its digits. *)
Definition number_sign (s : pystr) : bool * pystr :=
  match s with
  | c :: r => if (c =? 45)%N then (true, r) else (false, s)
  | [] => (false, s)
  end.

Definition number_int (s : pystr) : option (pystr * pystr) :=
  match s with
  | [] => None
  | c :: r =>
      if ((49 <=? c) && (c <=? 57))%N then
        let (ds, rest) := span_digits r in Some (c :: ds, rest)
      else if (c =? 48)%N then Some ([c], r)
      else None
  end.

Definition number_frac (rest : pystr) : pystr * pystr :=
  match rest with
  | d :: f :: _ =>
      if (d =? 46)%N && is_ascii_digit f then
        let (fs, rr) := span_digits (tail rest) in (d :: fs, rr)
      else ([], rest)
  | _ => ([], rest)
  end.

Definition number_exp (rest : pystr) : pystr * pystr :=
  match rest with
  | e :: r1 =>
      if ((e =? 101) || (e =? 69))%N then
        let (sign, r2) :=
          match r1 with
          | sg :: r3 => if ((sg =? 45) || (sg =? 43))%N then ([sg], r3) else ([], r1)
          | [] => ([], r1)
          end in
        let (es, rr) := span_digits r2 in
        match es with
        | [] => ([], rest)
        | _ => (e :: sign ++ es, rr)
        end
      else ([], rest)
  | [] => ([], rest)
  end.

Definition match_number (s : pystr) : result (json * pystr) :=
  let (neg, s1) := number_sign s in
  match number_int s1 with
  | None => Raise ValueError
  | Some (ip, rest) =>
      let (frac, rest1) := number_frac rest in
      let (exp, rest2) := number_exp rest1 in
      match frac, exp with
      | [], [] =>
          if (INT_MAX_STR_DIGITS <? length ip)%nat then Raise ValueError
          else Ok (JInt (if neg then - digits_value ip else digits_value ip), rest2)
      | _, _ => Ok (JFloat ((if neg then [45%N] else []) ++ ip ++ frac ++ exp), rest2)
      end
  end.

Fixpoint strip_prefix (p s : pystr) : option pystr :=
  match p, s with
  | [], _ => Some s
  | x :: p', y :: s' => if (x =? y)%N then strip_prefix p' s' else None
  | _ :: _, [] => None
  end.

(** The members of an object, from the quote of the first key; [n] bounds
    the number of members and is never the limit when it is the length of
    [s]. *)
Fixpoint object_members (n : nat) (value : pystr -> result (json * pystr)) (s : pystr)
  : result (list (pystr * json) * pystr) :=
  match n with
  | O => Raise RecursionError
  | S n' =>
      match s with
      | [] => Raise ValueError
      | c :: r =>
          if negb (c =? 34)%N then Raise ValueError
          else
            let! (key, r1) := scanstring r in
            match skip_ws r1 with
            | [] => Raise ValueError
            | c2 :: r2 =>
                if negb (c2 =? 58)%N then Raise ValueError
                else
                  let! (v, r3) := value (skip_ws r2) in
                  match skip_ws r3 with
                  | [] => Raise ValueError
                  | c4 :: r4 =>
                      if (c4 =? 125)%N then Ok ([(key, v)], r4)
                      else if (c4 =? 44)%N then
                        let! (ms, r5) := object_members n' value (skip_ws r4) in
                        Ok ((key, v) :: ms, r5)
                      else Raise ValueError
                  end
            end
      end
  end.

(** The items of an array, from the first item. *)
Fixpoint array_items (n : nat) (value : pystr -> result (json * pystr)) (s : pystr)
  : result (list json * pystr) :=
  match n with
  | O => Raise RecursionError
  | S n' =>
      let! (v, r1) := value s in
      match skip_ws r1 with
      | [] => Raise ValueError
      | c :: r2 =>
          if (c =? 93)%N then Ok ([v], r2)
          else if (c =? 44)%N then
            let! (vs, r3) := array_items n' value (skip_ws r2) in
            Ok (v :: vs, r3)
          else Raise ValueError
      end
  end.

Definition constant (word : string) (v : json) (s : pystr) : option (json * pystr) :=
  match strip_prefix (py word) s with
  | Some rest => Some (v, rest)
  | None => None
  end.

(** [scan_once]: the value at the head of [s]; [depth] is how many objects
    and arrays may still be entered. *)
Fixpoint scan_once (depth : nat) (s : pystr) : result (json * pystr) :=
  match s with
  | [] => Raise ValueError
  | c :: r =>
      if (c =? 34)%N then
        let! (str, rest) := scanstring r in Ok (JStr str, rest)
      else if (c =? 123)%N then
        match depth with
        | O => Raise RecursionError
        | S depth' =>
            match skip_ws r with
            | [] => Raise ValueError
            | c1 :: r1 =>
                if (c1 =? 125)%N then Ok (JObj [], r1)
                else
                  let! (ms, rest) :=
                    object_members (length (c1 :: r1)) (scan_once depth') (c1 :: r1) in
                  Ok (JObj (make_dict ms), rest)
            end
        end
      else if (c =? 91)%N then
        match depth with
        | O => Raise RecursionError
        | S depth' =>
            match skip_ws r with
            | [] => Raise ValueError
            | c1 :: r1 =>
                if (c1 =? 93)%N then Ok (JArr [], r1)
                else
                  let! (vs, rest) :=
                    array_items (length (c1 :: r1)) (scan_once depth') (c1 :: r1) in
                  Ok (JArr vs, rest)
            end
        end
      else
        let named :=
          if (c =? 110)%N then constant "null" JNull s
          else if (c =? 116)%N then constant "true" (JBool true) s
          else if (c =? 102)%N then constant "false" (JBool false) s
          else if (c =? 78)%N then constant "NaN" (JFloat (py "NaN")) s
          else if (c =? 73)%N then constant "Infinity" (JFloat (py "Infinity")) s
          else if (c =? 45)%N then constant "-Infinity" (JFloat (py "-Infinity")) s
          else None in
        match named with
        | Some found => Ok found
        | None => match_number s
        end
  end.

(** A scanner that leaves less than it was given. *)
Definition shrinks {A} (value : pystr -> result (A * pystr)) : Prop :=
  forall s v r, value s = Ok (v, r) -> (length r < length s)%nat.

(** [json.loads(s)] for a [str]: [JSONDecodeError] is a [ValueError]. *)
Definition json_loads `{Cpython} (s : pystr) : result json :=
  match s with
  | 65279%N :: _ => Raise ValueError
  | _ =>
      let! (v, rest) := scan_once recursion_limit (skip_ws s) in
      match skip_ws rest with
      | [] => Ok v
      | _ :: _ => Raise ValueError
      end
  end.

(** [repr] of an [int] within the limit on its digits.  Beyond the limit
    [repr] raises; every [int] that the handlers write was read by
    [json.loads], which keeps the limit. *)
Fixpoint uint_digits (u : Decimal.uint) : pystr :=
  match u with
  | Decimal.Nil => []
  | Decimal.D0 u' => 48%N :: uint_digits u'
  | Decimal.D1 u' => 49%N :: uint_digits u'
  | Decimal.D2 u' => 50%N :: uint_digits u'
  | Decimal.D3 u' => 51%N :: uint_digits u'
  | Decimal.D4 u' => 52%N :: uint_digits u'
  | Decimal.D5 u' => 53%N :: uint_digits u'
  | Decimal.D6 u' => 54%N :: uint_digits u'
  | Decimal.D7 u' => 55%N :: uint_digits u'
  | Decimal.D8 u' => 56%N :: uint_digits u'
  | Decimal.D9 u' => 57%N :: uint_digits u'
  end.

Definition repr_int (n : Z) : pystr :=
  match n with
  | Z0 => [48%N]
  | Zpos p => uint_digits (Pos.to_uint p)
  | Zneg p => 45%N :: uint_digits (Pos.to_uint p)
  end.

Definition hex4_digits (n : N) : pystr :=
  [hexdigit ((n / 4096) mod 16); hexdigit ((n / 256) mod 16);
   hexdigit ((n / 16) mod 16); hexdigit (n mod 16)]%N.

Definition u_escape (n : N) : pystr := 92%N :: 117%N :: hex4_digits n.

(** One character of a string literal under [ensure_ascii]. *)
Definition escape_char (c : N) : pystr :=
  (if c =? 92 then [92; 92]
   else if c =? 34 then [92; 34]
   else if c =? 8 then [92; 98]
   else if c =? 12 then [92; 102]
   else if c =? 10 then [92; 110]
   else if c =? 13 then [92; 114]
   else if c =? 9 then [92; 116]
   else if (32 <=? c) && (c <=? 126) then [c]
   else if c <? 65536 then u_escape c
   else
     let n := c - 65536 in
     u_escape (N.lor 55296 (N.land (N.shiftr n 10) 1023))
       ++ u_escape (N.lor 56320 (N.land n 1023)))%N.

Definition encode_basestring_ascii (s : pystr) : pystr :=
  34%N :: concat (map escape_char s) ++ [34%N].

(** [sep.join(parts)] *)
Fixpoint join (sep : pystr) (parts : list pystr) : pystr :=
  match parts with
  | [] => []
  | [x] => x
  | x :: rest => x ++ sep ++ join sep rest
  end.

(** [json.dumps(v)] with the default separators and [ensure_ascii]. *)
Fixpoint json_dumps `{Cpython} (v : json) : pystr :=
  match v with
  | JNull => py "null"
  | JBool true => py "true"
  | JBool false => py "false"
  | JInt n => repr_int n
  | JFloat lexeme => float_repr lexeme
  | JStr s => encode_basestring_ascii s
  | JArr items => 91%N :: join (py ", ") (map json_dumps items) ++ [93%N]
  | JObj members =>
      123%N :: join (py ", ")
                 (map (fun kv : pystr * json =>
                         let (k, x) := kv in
                         encode_basestring_ascii k ++ py ": " ++ json_dumps x) members)
        ++ [125%N]
  end.

(** ** [str], [bool], [str.isdigit] and [int] *)

Definition isdigit_char `{Cpython} (c : N) : bool :=
  if (c <? 128)%N then is_ascii_digit c else nonascii_isdigit c.

(** [s.isdigit()] *)
Definition isdigit `{Cpython} (s : pystr) : bool :=
  match s with
  | [] => false
  | _ => forallb isdigit_char s
  end.

Definition todecimal `{Cpython} (c : N) : option N :=
  if (c <? 128)%N then (if is_ascii_digit c then Some (c - 48)%N else None)
  else nonascii_decimal c.

(** White space as [int] skips it around the digits: outside ASCII any
    [isspace] character, inside ASCII the six of C. *)
Definition int_space `{Cpython} (c : N) : bool :=
  if (c <=? 127)%N then ((c =? 32) || (9 <=? c) && (c <=? 13))%N else isspace c.

Fixpoint int_lstrip `{Cpython} (s : pystr) : pystr :=
  match s with
  | c :: r => if int_space c then int_lstrip r else s
  | [] => []
  end.

(** The digits of an [int] literal with its underscores, most significant
    first; [prev_digit] tells whether an underscore may come next. *)
Fixpoint int_digits `{Cpython} (prev_digit : bool) (acc : Z) (s : pystr) : result Z :=
  match s with
  | [] => if prev_digit then Ok acc else Raise ValueError
  | c :: r =>
      if (c =? 95)%N then
        if prev_digit then int_digits false acc r else Raise ValueError
      else
        match todecimal c with
        | Some d => int_digits true (acc * 10 + Z.of_N d) r
        | None => Raise ValueError
        end
  end.

(** The digits of a literal, without its underscores, are counted against
    the limit. *)
Definition digit_count (s : pystr) : nat :=
  length (filter (fun c => c <> 95%N) s).

Definition int_literal `{Cpython} (s : pystr) : result Z :=
  if (INT_MAX_STR_DIGITS <? digit_count s)%nat then Raise ValueError
  else int_digits false 0 s.

(** [int(s)] for a [str], in base ten. *)
Definition int_of_str `{Cpython} (s : pystr) : result Z :=
  let body := rev (int_lstrip (rev (int_lstrip s))) in
  match body with
  | [] => Raise ValueError
  | c :: r =>
      if (c =? 45)%N then let! n := int_literal r in Ok (- n)
      else if (c =? 43)%N then int_literal r
      else int_literal body
  end.

(** [str(v)] where the handlers take it: of a scalar.  (The text of a list
    or of a dict is never needed: see [str_isdigit].) *)
Definition py_str `{Cpython} (v : json) : pystr :=
  match v with
  | JNull => py "None"
  | JBool true => py "True"
  | JBool false => py "False"
  | JInt n => repr_int n
  | JFloat lexeme => float_repr lexeme
  | JStr s => s
  | JArr _ | JObj _ => []
  end.

(** [str(v).isdigit()].  The text of [None], of a [bool], of a list or of a
    dict starts with a letter or a bracket, and the text of a float holds a
    point, an exponent, [inf] or [nan]. *)
Definition str_isdigit `{Cpython} (v : json) : bool :=
  match v with
  | JStr s => isdigit s
  | JInt n => isdigit (repr_int n)
  | JNull | JBool _ | JFloat _ | JArr _ | JObj _ => false
  end.

(** [int(v)] where [str(v).isdigit()] let it through. *)
Definition py_int `{Cpython} (v : json) : result Z :=
  match v with
  | JStr s => int_of_str s
  | JInt n => Ok n
  | JBool b => Ok (if b then 1 else 0)
  | JNull | JFloat _ | JArr _ | JObj _ => Raise TypeError
  end.

(** [bool(v)] *)
Definition truthy `{Cpython} (v : json) : bool :=
  match v with
  | JNull => false
  | JBool b => b
  | JInt n => negb (n =? 0)
  | JFloat lexeme => negb (float_is_zero lexeme)
  | JStr s => negb (bool_decide (s = []))
  | JArr items => negb (bool_decide (items = []))
  | JObj members => match members with [] => false | _ => true end
  end.

(** ** Settings codec ([load_artwork_settings], [save_artwork_description]) *)

Definition MAX_DESCRIPTION_LEN : nat := 2000.

(** [json.loads(v)] for any value: only a [str] is a document. *)
Definition loads_value `{Cpython} (v : json) : result json :=
  match v with
  | JStr s => json_loads s
  | _ => Raise TypeError
  end.

Definition load_artwork_settings `{Cpython} (settings_data : json) : result json :=
  if negb (truthy settings_data) then Ok JNull
  else
    match settings_data with
    | JArr _ | JObj _ => Ok settings_data
    | _ =>
        (* every value that [json.loads] returns passes the [isinstance] test *)
        match catch (let! obj := loads_value settings_data in Ok (Some obj))
                    (fun _ => None) with
        | Some obj => Ok obj
        | None =>
            Ok (JObj [(py "description",
                       JStr (take MAX_DESCRIPTION_LEN (py_str settings_data)))])
        end
    end.

Definition save_artwork_description (description : pystr) : option pystr :=
  match description with
  | [] => None
  | _ => Some (take MAX_DESCRIPTION_LEN description)
  end.

(** The dictionary that the settings form saves. *)
Definition settings_to_save (colors : pystr) (animation public : bool) : json :=
  JObj [(py "colors", JStr colors); (py "animation", JBool animation);
        (py "public", JBool public)].

(** [true] and [false] as [json.dumps] writes them. *)
Definition bool_word (b : bool) : pystr := if b then py "true" else py "false".

(** ** Rows ([create_artwork_record], [update_artwork], settings rows) *)

(** What the sqlite3 driver does with a parameter: a [str] is encoded, an
    [int] must fit 64 bits, a list or a dict is refused.  A float that is
    not a number, which [json.loads] reads from the word [NaN] and from
    nothing else, is bound as NULL. *)
Definition sqlite_bind (v : json) : result sqlval :=
  match v with
  | JNull => Ok SqlNull
  | JBool b => Ok (SqlInt (if b then 1 else 0))
  | JInt n => if in_int64 n then Ok (SqlInt n) else Raise OverflowError
  | JFloat lexeme => Ok (if pystr_eqb lexeme (py "NaN") then SqlNull else SqlReal lexeme)
  | JStr s =>
      if forallb (fun c => negb (is_surrogate c)) s then Ok (SqlText s)
      else Raise UnicodeEncodeError
  | JArr _ | JObj _ => Raise ProgrammingError
  end.

Definition bind_text (s : pystr) : result pystr :=
  if forallb (fun c => negb (is_surrogate c)) s then Ok s else Raise UnicodeEncodeError.

(** A column declared [NOT NULL]. *)
Definition not_null (v : sqlval) : result sqlval :=
  match v with
  | SqlNull => Raise IntegrityError
  | _ => Ok v
  end.

(** [create_artwork_record]: the new row's id and the store.  The title is
    kept as it was bound (the column's TEXT affinity stores a number by its
    text).  Nothing is written unless every statement went through. *)
Definition create_artwork_record (now : timestamp)
    (owner_id : Z) (title : json) (data : pystr) (price : Z) (is_private : Z)
    (signature : pystr) (settings_data : option pystr) (created_at : option timestamp)
    (d : database) : result (Z * database) :=
  let! title_v := sqlite_bind title in
  let! data_v := bind_text data in
  let! price_v := bind_int price in
  let! owner_v := bind_int owner_id in
  let! private_v := bind_int is_private in
  let! signature_v := bind_text signature in
  let! title_v := not_null title_v in
  let artwork_id := next_artwork_id d in
  let row := Artwork title_v data_v price_v owner_v private_v signature_v
                     (match created_at with Some ts => ts | None => now end) in
  let d1 := Database (users d) (<[artwork_id := row]> (artworks d)) (transactions d)
                     (settings_rows d) (next_user_id d) (artwork_id + 1) in
  match settings_data with
  | None => Ok (artwork_id, d1)
  | Some text =>
      let! text_v := bind_text text in
      Ok (artwork_id,
          set_settings_rows (fun l => l ++ [SettingsRow artwork_id text_v now]) d1)
  end.

(** The row that [fetch_artwork_by_id] returns: the artwork joined with its
    owner's name. *)
Definition fetch_artwork_by_id (artwork_id : Z) (d : database) : option (artwork * pystr) :=
  match artworks d !! artwork_id with
  | None => None
  | Some a =>
      match users d !! a_owner_id a with
      | None => None
      | Some u => Some (a, u_username u)
      end
  end.

Definition with_fields (title : sqlval) (data : pystr) (price is_private : Z)
    (signature : pystr) (a : artwork) : artwork :=
  Artwork title data price (a_owner_id a) is_private signature (a_created_at a).

(** [update_artwork] *)
Definition update_artwork (artwork_id : Z) (title : json) (data : pystr) (price : Z)
    (is_private : Z) (signature : pystr) (d : database) : result (bool * database) :=
  let! title_v := sqlite_bind title in
  let! data_v := bind_text data in
  let! price_v := bind_int price in
  let! private_v := bind_int is_private in
  let! signature_v := bind_text signature in
  let! id_v := bind_int artwork_id in
  match artworks d !! artwork_id with
  | None => Ok (false, d)
  | Some _ =>
      let! title_v := not_null title_v in
      Ok (true, set_artworks
                  (alter (with_fields title_v data_v price_v private_v signature_v) artwork_id) d)
  end.

(** [save_artwork_settings]: delete, then insert.  The key is a parameter
    of both statements; it is taken within 64 bits, as the key of a row of
    [artworks] is. *)
Definition save_artwork_settings (now : timestamp) (artwork_id : Z) (settings_data : pystr)
    (d : database) : result (bool * database) :=
  let! text_v := bind_text settings_data in
  Ok (true,
      set_settings_rows
        (fun l => filter (fun r => s_artwork_id r ≠ artwork_id) l
                    ++ [SettingsRow artwork_id text_v now]) d).

(** [get_artwork_settings] *)
Definition get_artwork_settings (artwork_id : Z) (d : database) : option pystr :=
  match list_find (fun r => s_artwork_id r = artwork_id) (settings_rows d) with
  | Some (_, r) => Some (s_settings_data r)
  | None => None
  end.

(** ** Request handlers ([create_artwork], [edit_artwork],
       [artwork_settings], [import_artwork]) *)

Inductive http_method : Type := GET | POST.

Record request := Request {
  method : http_method;
  form : list (pystr * pystr)
}.

(** The session cookie: [session['username']] and [session['user_id']]. *)
Record session := Session {
  sess_username : option pystr;
  sess_user_id : option Z
}.

(** [request.form.get(key)] *)
Fixpoint form_get (key : pystr) (f : list (pystr * pystr)) : option pystr :=
  match f with
  | [] => None
  | (k, v) :: f' => if pystr_eqb k key then Some v else form_get key f'
  end.

(** [request.form.get(key, default).strip()] *)
Definition field (key : string) (default : pystr) (req : request) : pystr :=
  strip (match form_get (py key) (form req) with
         | Some v => v
         | None => default
         end).

(** [1 if request.form.get(key) == 'on' else 0] *)
Definition checkbox (key : string) (req : request) : Z :=
  match form_get (py key) (form req) with
  | Some v => if pystr_eqb v (py "on") then 1 else 0
  | None => 0
  end.

(** [session['user_id']] *)
Definition session_user_id (sess : session) : result Z :=
  match sess_user_id sess with
  | Some uid => Ok uid
  | None => Raise KeyError
  end.

(** The texts shown to the user, by what they say. *)
Inductive message : Type :=
  | PriceMustBeNumber
  | FillAllFields
  | UnsafeUrl
  | BadRedirect
  | UnsafeRedirect
  | RedirectsForbidden
  | DownloadError (status : Z)
  | UnsafeResponseUrl
  | BadJsonFormat
  | NotJson
  | RequestError (e : exn)
  | Imported (import_id : Z).

(** The arguments of [render_template] that the handlers compute (the user
    name, the balance and the artwork shown are left out). *)
Record page := Page {
  template : string;
  error : option message;
  preview_content : option pystr;
  success : option message;
  fetched_url : option pystr;
  description : option json;
  settings : option json
}.

Inductive response : Type :=
  | Redirect (endpoint : string)
  | Render (p : page).

Definition error_page (template : string) (m : message) : response :=
  Render (Page template (Some m) None None None None None).

Definition plain_page (template : string) : response :=
  Render (Page template None None None None None None).

Definition import_page (preview : option pystr) (err success : option message)
    (url : option pystr) : response :=
  Render (Page "import_artwork.html" err preview success url None None).

(** The two checks that open every handler. *)
Definition logged_in (sess : session) (d : database) : bool :=
  match sess_username sess with
  | None => false
  | Some name => user_exists name d
  end.

Definition create_artwork `{Cpython} (now : timestamp) (sess : session) (req : request)
    (d : database) : result (response * database) :=
  if negb (logged_in sess d) then Ok (Redirect "login", d)
  else
    let! uid := session_user_id sess in
    match method req with
    | GET => Ok (plain_page "create_artwork.html", d)
    | POST =>
        let title := field "title" [] req in
        let data := field "data" [] req in
        let price := field "price" (py "0") req in
        let is_private := checkbox "is_private" req in
        let signature := field "signature" [] req in
        let description := field "description" [] req in
        match int_of_str price with
        | Raise ValueError => Ok (error_page "create_artwork.html" PriceMustBeNumber, d)
        | Raise e => Raise e
        | Ok price_int =>
            match title, data with
            | [], _ | _, [] => Ok (error_page "create_artwork.html" FillAllFields, d)
            | _, _ =>
                let settings_data := save_artwork_description description in
                let! (_, d') :=
                  create_artwork_record now uid (JStr title) data price_int is_private
                                        signature settings_data None d in
                Ok (Redirect "index", d')
            end
        end
    end.

Definition edit_artwork `{Cpython} (sess : session) (req : request) (artwork_id : Z)
    (d : database) : result (response * database) :=
  if negb (logged_in sess d) then Ok (Redirect "login", d)
  else
    match fetch_artwork_by_id artwork_id d with
    | None => Ok (Redirect "index", d)
    | Some (art, _) =>
        let! uid := session_user_id sess in
        if negb (a_owner_id art =? uid) then Ok (Redirect "index", d)
        else
          match method req with
          | POST =>
              let title := field "title" [] req in
              let data := field "data" [] req in
              let price := field "price" (py "0") req in
              let is_private := checkbox "is_private" req in
              let signature := field "signature" [] req in
              match int_of_str price with
              | Raise ValueError => Ok (error_page "edit_artwork.html" PriceMustBeNumber, d)
              | Raise e => Raise e
              | Ok price_int =>
                  match title, data with
                  | [], _ | _, [] => Ok (error_page "edit_artwork.html" FillAllFields, d)
                  | _, _ =>
                      let! (_, d') :=
                        update_artwork artwork_id (JStr title) data price_int is_private
                                       signature d in
                      Ok (Redirect "index", d')
                  end
              end
          | GET =>
              let! settings_obj :=
                match get_artwork_settings artwork_id d with
                | None | Some [] => Ok JNull
                | Some raw => load_artwork_settings (JStr raw)
                end in
              let description :=
                match settings_obj with
                | JObj members =>
                    match dict_get (py "description") members with
                    | Some v => v
                    | None => JStr []
                    end
                | _ => JStr []
                end in
              Ok (Render (Page "edit_artwork.html" None None None None
                               (Some description) None), d)
          end
    end.

Definition artwork_settings `{Cpython} (now : timestamp) (sess : session)
    (req : request) (artwork_id : Z) (d : database) : result (response * database) :=
  if negb (logged_in sess d) then Ok (Redirect "login", d)
  else
    match fetch_artwork_by_id artwork_id d with
    | None => Ok (Redirect "index", d)
    | Some (art, _) =>
        let! uid := session_user_id sess in
        if negb (a_owner_id art =? uid) then Ok (Redirect "index", d)
        else
          let! settings_obj :=
            match get_artwork_settings artwork_id d with
            | None | Some [] => Ok (JObj [])
            | Some raw => load_artwork_settings (JStr raw)
            end in
          match method req with
          | POST =>
              let colors := field "colors" [] req in
              let animation := checkbox "animation" req in
              let public := checkbox "public" req in
              let to_save :=
                settings_to_save colors (negb (animation =? 0)) (negb (public =? 0)) in
              let! (_, d') := save_artwork_settings now artwork_id (json_dumps to_save) d in
              Ok (Redirect "index", d')
          | GET =>
              Ok (Render (Page "settings.html" None None None None None
                               (Some settings_obj)), d)
          end
    end.

(** requests: the response to [requests.get(url, timeout=5,
    allow_redirects=False, headers=...)], or the exception it raises.
    [location] is the [Location] header; [resp.json()] is taken to be
    [json.loads(resp.text)]. *)
Record http_response := HttpResponse {
  status_code : Z;
  location : option pystr;
  resp_url : pystr;
  text : pystr
}.

Class Requests := {
  requests_get : pystr -> result http_response
}.

(** The title of an import that brings none. *)
Definition default_title : pystr :=
  [1048; 1084; 1087; 1086; 1088; 1090; 1080; 1088; 1086; 1074; 1072; 1085; 1085;
   1072; 1103; 32; 1082; 1086; 1084; 1087; 1086; 1079; 1080; 1094; 1080; 1103]%N.

Definition PREVIEW_LEN : nat := N.to_nat 10000.

(** [int(price) if str(price).isdigit() else 100] *)
Definition import_price `{Cpython} (price : json) : result Z :=
  if str_isdigit price then py_int price else Ok 100.

(** The inner [try] of [import_artwork]: from the body of the response to
    the message shown, with the store. *)
Definition import_body `{Cpython} (now : timestamp) (uid : Z) (resp : http_response)
    (d : database) : (option message * option message) * database :=
  catch
    (let! data := json_loads (text resp) in
     match data with
     | JObj members =>
         match dict_get (py "shapes") members with
         | Some shapes =>
             let title :=
               match dict_get (py "title") members with
               | Some v => v
               | None => JStr default_title
               end in
             let shapes_json := json_dumps shapes in
             let price :=
               match dict_get (py "price") members with
               | Some v => v
               | None => JInt 100
               end in
             let! price_int := import_price price in
             let! (import_id, d') :=
               create_artwork_record now uid title shapes_json price_int 0
                                     (py "imported") None None d in
             Ok ((None, Some (Imported import_id)), d')
         | None => Ok ((Some BadJsonFormat, None), d)
         end
     | _ => Ok ((Some BadJsonFormat, None), d)
     end)
    (fun _ => ((Some NotJson, None), d)).

(** The outer [try] of [import_artwork]: the request and what is made of
    the response. *)
Definition import_fetch `{Cpython} `{Urllib} `{Ipaddress} `{Socket} `{Requests}
    (now : timestamp) (uid : Z) (artwork_url : pystr) (d : database)
  : result (response * database) :=
  let! resp := requests_get artwork_url in
  if (300 <=? status_code resp) && (status_code resp <? 400) then
    match location resp with
    | None | Some [] => Ok (import_page None (Some BadRedirect) None None, d)
    | Some loc =>
        let! next_url := urljoin artwork_url loc in
        if negb (fst (is_safe_url 1 next_url)) then
          Ok (import_page None (Some UnsafeRedirect) None None, d)
        else
          Ok (import_page None (Some RedirectsForbidden) None None, d)
    end
  else if negb (status_code resp =? 200) then
    Ok (import_page None (Some (DownloadError (status_code resp))) None None, d)
  else if negb (fst (is_safe_url 1 (resp_url resp))) then
    Ok (import_page None (Some UnsafeResponseUrl) None None, d)
  else
    let preview := take PREVIEW_LEN (text resp) in
    let '((err, ok), d') := import_body now uid resp d in
    Ok (import_page (Some preview) err ok (Some (resp_url resp)), d').

Definition import_artwork `{Cpython} `{Urllib} `{Ipaddress} `{Socket} `{Requests}
    (now : timestamp) (sess : session) (req : request) (d : database)
  : result (response * database) :=
  if negb (logged_in sess d) then Ok (Redirect "login", d)
  else
    let! uid := session_user_id sess in
    match method req with
    | GET => Ok (import_page None None None None, d)
    | POST =>
        let artwork_url := field "artwork_url" [] req in
        match artwork_url with
        | [] => Ok (import_page None None None None, d)
        | _ =>
            if negb (fst (is_safe_url 0 artwork_url)) then
              Ok (import_page None (Some UnsafeUrl) None None, d)
            else
              Ok (catch (import_fetch now uid artwork_url d)
                        (fun e => (import_page None (Some (RequestError e)) None None, d)))
        end
    end.

(** The store keeps no negative price. *)
Definition prices_nonneg (d : database) : Prop :=
  forall id a, artworks d !! id = Some a -> 0 <= a_price a.

(** A response with its body cut as the preview is. *)
Definition truncated (resp : http_response) : http_response :=
  HttpResponse (status_code resp) (location resp) (resp_url resp)
               (take PREVIEW_LEN (text resp)).

(** ** More of the store ([delete_artwork]) and of its invariants *)

(** [delete_artwork]: [DELETE FROM artworks WHERE id = ? AND owner_id = ?];
    the answer is whether a row went. *)
Definition delete_artwork (artwork_id owner_id : Z) (d : database) : result (bool * database) :=
  let! id_v := bind_int artwork_id in
  let! owner_v := bind_int owner_id in
  match artworks d !! id_v with
  | Some a =>
      if a_owner_id a =? owner_v then Ok (true, set_artworks (delete id_v) d)
      else Ok (false, d)
  | None => Ok (false, d)
  end.


Definition balances_nonneg (d : database) : Prop :=
  forall uid u, users d !! uid = Some u -> 0 <= u_balance u.


(** ** Accounts and expiry ([init_db], [create_user],
       [cleanup_expired_records], [check_connect])

    [init_db] creates [users] without the column [created_at] and adds the
    column afterwards, and neither it nor [create_user] dates the row it
    inserts: the [created_at] of an account made by this code is NULL.  The
    rows of the three other tables are dated by every statement that
    inserts them.  A store is therefore taken with the set of the keys of
    [users] whose date is NULL; the field [u_created_at] of such a row is
    not read.  Dates count seconds, and lie within the years that SQLite's
    calendar orders. *)
Record store := Store {
  tables : database;
  undated : gset Z
}.

(** [create_user]: whether the account was made, and its key.  The name is
    looked up first; a new row takes the default balance of the column. *)
Definition create_user `{Werkzeug} (salt : pystr) (username password : pystr) (s : store)
  : result ((bool * option Z) * store) :=
  let d := tables s in
  let! name_v := bind_text username in
  match select_user_by_name name_v d with
  | Some _ => Ok ((false, None), s)
  | None =>
      let pw_hash := generate_password_hash password salt in
      let! hash_v := bind_text pw_hash in
      let user_id := next_user_id d in
      Ok ((true, Some user_id),
          Store (Database (<[user_id := User name_v hash_v 1000 0]> (users d)) (artworks d)
                          (transactions d) (settings_rows d) (user_id + 1)
                          (next_artwork_id d))
                ({[user_id]} ∪ undated s))
  end.



(** [datetime('now', '-N minutes')] for the text of an integer [N]: a
    negative [N] writes two minus signs, which is no modifier, and the date
    is NULL. *)
Definition minutes_ago (now : timestamp) (n : Z) : option timestamp :=
  if n <? 0 then None else Some (now - 60 * n).

(** [created_at < limit] *)
Definition older (limit : option timestamp) (created_at : timestamp) : bool :=
  match limit with
  | Some t => created_at <? t
  | None => false
  end.

(** [created_at > limit] *)
Definition newer (limit : option timestamp) (created_at : timestamp) : bool :=
  match limit with
  | Some t => t <? created_at
  | None => false
  end.

(** The date of a row of [users], NULL or not. *)
Definition user_date (s : store) (id : Z) (u : user) : option timestamp :=
  if bool_decide (id ∈ undated s) then None else Some (u_created_at u).

(** [(created_at < limit) AND (username != 'admin')] *)
Definition user_expired (limit : option timestamp) (s : store) (id : Z) (u : user) : bool :=
  match user_date s id u with
  | Some created_at =>
      older limit created_at && negb (pystr_eqb (u_username u) (py "admin"))
  | None => false
  end.

(** [created_at > limit] on a row of [users] *)
Definition user_recent (limit : option timestamp) (s : store) (id : Z) (u : user) : bool :=
  match user_date s id u with
  | Some created_at => newer limit created_at
  | None => false
  end.

(** The dictionary that [cleanup_expired_records] returns. *)
Record cleanup_report := CleanupReport {
  gone_artworks : Z;
  gone_transactions : Z;
  gone_settings : Z;
  gone_users : Z
}.

(** [cleanup_expired_records]: the rows older than the age go, table by
    table, then the settings of artworks that are no longer there.  The
    moment is that of the call. *)
Definition cleanup_expired_records (now : timestamp) (max_age_minutes : Z) (s : store)
  : cleanup_report * store :=
  let d := tables s in
  let limit := minutes_ago now max_age_minutes in
  let old_artworks :=
    filter (fun kv : Z * artwork => older limit (a_created_at kv.2) = true) (artworks d) in
  let artworks1 :=
    filter (fun kv : Z * artwork => older limit (a_created_at kv.2) <> true) (artworks d) in
  let old_transactions := filter (fun t => older limit (t_created_at t) = true) (transactions d) in
  let transactions1 := filter (fun t => older limit (t_created_at t) <> true) (transactions d) in
  let old_settings := filter (fun r => older limit (s_created_at r) = true) (settings_rows d) in
  let settings1 := filter (fun r => older limit (s_created_at r) <> true) (settings_rows d) in
  let old_users :=
    filter (fun kv : Z * user => user_expired limit s kv.1 kv.2 = true) (users d) in
  let users1 :=
    filter (fun kv : Z * user => user_expired limit s kv.1 kv.2 <> true) (users d) in
  let dangling := filter (fun r => artworks1 !! s_artwork_id r = None) settings1 in
  let settings2 := filter (fun r => ~ artworks1 !! s_artwork_id r = None) settings1 in
  (CleanupReport (Z.of_nat (size old_artworks)) (Z.of_nat (length old_transactions))
                 (Z.of_nat (length old_settings) + Z.of_nat (length dangling))
                 (Z.of_nat (size old_users)),
   Store (Database users1 artworks1 transactions1 settings2
                   (next_user_id d) (next_artwork_id d))
         (undated s)).

(** The counts that [check_connect] gives to a caller on the loopback
    interface. *)
Record recent_counts := RecentCounts {
  recent_users : Z;
  recent_artworks : Z;
  recent_transactions : Z;
  recent_settings : Z
}.

(** [check_connect]: [None] is the answer without counts. *)
Definition check_connect `{Ipaddress} (now : timestamp) (remote_addr : pystr) (s : store)
  : result (option recent_counts) :=
  let d := tables s in
  let! ip := ip_address remote_addr in
  if negb (is_loopback ip) then Ok None
  else
    let limit := minutes_ago now 5 in
    Ok (Some (RecentCounts
                (Z.of_nat (size (filter (fun kv : Z * user =>
                                           user_recent limit s kv.1 kv.2 = true)
                                        (users d))))
                (Z.of_nat (size (filter (fun kv : Z * artwork =>
                                           newer limit (a_created_at kv.2) = true)
                                        (artworks d))))
                (Z.of_nat (length (filter (fun t => newer limit (t_created_at t) = true)
                                          (transactions d))))
                (Z.of_nat (length (filter (fun r => newer limit (s_created_at r) = true)
                                          (settings_rows d)))))).

(** No two rows of [users] bear one name: the column is UNIQUE. *)
Definition usernames_unique (d : database) : Prop :=
  forall id1 id2 u1 u2,
    users d !! id1 = Some u1 -> users d !! id2 = Some u2 ->
    u_username u1 = u_username u2 -> id1 = id2.

(** The next key of [users] is above every key in use. *)
Definition user_ids_fresh (d : database) : Prop :=
  forall id u, users d !! id = Some u -> id < next_user_id d.

(** ** Listings ([fetch_recent_artworks_for_user], [list_public_artworks],
       [fetch_transactions_for_user], [search_artworks])

    What the model takes from SQLite itself: the text that a TEXT column
    keeps for a floating point number, and the order in which the rows of
    a query come out under [ORDER BY created_at DESC], which SQL leaves
    open for rows of one date. *)
Class Sqlite := {
  real_text : pystr -> pystr;
  order_by_desc : forall A : Type, (A -> timestamp) -> list A -> list A
}.
Arguments order_by_desc {_ A} key rows.

(** What SQL promises of [ORDER BY created_at DESC]: the rows of the
    query, each once, the newest first. *)
Definition orders_rows `{Sqlite} : Prop :=
  forall (A : Type) (key : A -> timestamp) (rows : list A),
    order_by_desc key rows ≡ₚ rows
    /\ StronglySorted (fun a b => key b <= key a) (order_by_desc key rows).

(** [LIMIT ?]: a negative limit is none. *)
Definition sql_limit {A} (limit : Z) (rows : list A) : list A :=
  if limit <? 0 then rows else take (Z.to_nat limit) rows.

(** A row of [artworks] joined with its owner's name. *)
Record artwork_row := ArtworkRow {
  r_id : Z;
  r_artwork : artwork;
  r_owner_name : pystr
}.

(** [FROM artworks a JOIN users u ON a.owner_id = u.id] *)
Definition join_owner (d : database) (kv : Z * artwork) : option artwork_row :=
  match users d !! a_owner_id kv.2 with
  | Some u => Some (ArtworkRow kv.1 kv.2 (u_username u))
  | None => None
  end.

(** [SELECT ... FROM artworks a JOIN users u ON a.owner_id = u.id
     WHERE ... ORDER BY a.created_at DESC LIMIT ?] *)
Definition select_artworks `{Sqlite} (where_ : artwork -> bool) (limit : Z) (d : database)
  : list artwork_row :=
  sql_limit limit
    (order_by_desc (fun r => a_created_at (r_artwork r))
       (filter (fun r => where_ (r_artwork r) = true)
               (omap (join_owner d) (map_to_list (artworks d))))).

(** [fetch_recent_artworks_for_user] *)
Definition fetch_recent_artworks_for_user `{Sqlite} (user_id limit : Z) (d : database)
  : result (list artwork_row) :=
  let! user_v := bind_int user_id in
  let! limit_v := bind_int limit in
  Ok (select_artworks (fun a => a_owner_id a =? user_v) limit_v d).

(** [list_public_artworks] *)
Definition list_public_artworks `{Sqlite} (limit : Z) (d : database)
  : result (list artwork_row) :=
  let! limit_v := bind_int limit in
  Ok (select_artworks (fun a => a_is_private a =? 0) limit_v d).

(** A row of [transactions] joined with the names of the two parties and
    the title of the artwork.  (The key of the row, which the store does
    not keep, is left out.) *)
Record transaction_row := TransactionRow {
  x_transaction : transaction;
  x_buyer_name : pystr;
  x_seller_name : pystr;
  x_artwork_title : sqlval
}.

Definition join_parties (d : database) (t : transaction) : option transaction_row :=
  match users d !! t_buyer_id t, users d !! t_seller_id t, artworks d !! t_artwork_id t with
  | Some b, Some s, Some a => Some (TransactionRow t (u_username b) (u_username s) (a_title a))
  | _, _, _ => None
  end.

(** [fetch_transactions_for_user] *)
Definition fetch_transactions_for_user `{Sqlite} (user_id : Z) (d : database)
  : result (list transaction_row) :=
  let! user_v := bind_int user_id in
  Ok (order_by_desc (fun r => t_created_at (x_transaction r))
        (omap (join_parties d)
              (filter (fun t => t_buyer_id t = user_v \/ t_seller_id t = user_v)
                      (transactions d)))).

(** A text as the C code of SQLite reads it: up to the first NUL. *)
Fixpoint c_string (s : pystr) : pystr :=
  match s with
  | [] => []
  | c :: r => if (c =? 0)%N then [] else c :: c_string r
  end.

(** Two characters that LIKE takes for one: equal, or of ASCII and equal
    when letters are made lower case. *)
Definition like_char (c x : N) : bool :=
  ((c =? x) || (c <? 128) && (x <? 128) && (lower_char c =? lower_char x))%N.

(** [text LIKE pattern] without ESCAPE: a percent sign stands for any run
    of characters, an underscore for any one. *)
Fixpoint like (pattern : pystr) : pystr -> bool :=
  match pattern with
  | [] => fun text => match text with [] => true | _ :: _ => false end
  | c :: rest =>
      if (c =? 37)%N then
        fix any (text : pystr) : bool :=
          like rest text || match text with [] => false | _ :: text' => any text' end
      else if (c =? 95)%N then
        fun text => match text with [] => false | _ :: text' => like rest text' end
      else
        fun text => match text with [] => false | x :: text' => like_char c x && like rest text' end
  end.

(** The text that the column [title] holds for the value bound: the TEXT
    affinity of the column stores a number by its text. *)
Definition title_text `{Sqlite} (v : sqlval) : pystr :=
  match v with
  | SqlNull => []
  | SqlInt n => repr_int n
  | SqlReal lexeme => real_text lexeme
  | SqlText s => s
  end.

Definition key_le {A} (x y : Z * A) : Prop := x.1 <= y.1.

#[global] Instance key_le_dec {A} : RelDecision (@key_le A) :=
  fun x y => decide (x.1 <= y.1).

(** The rows of a table as a scan gives them: in the order of their keys. *)
Definition table_rows {A} (m : gmap Z A) : list (Z * A) :=
  merge_sort key_le (map_to_list m).

(** What a search raises: an exception of Python, such as the driver's on
    a parameter, or the engine's OperationalError for a pattern that is too
    long. *)
Inductive search_error : Type :=
  | PythonError (e : exn)
  | OperationalError.

Definition MAX_LIKE_PATTERN_LENGTH : N := 50000.

(** [search_artworks]: the pattern is the query between two percent signs;
    the engine refuses one of more than 50000 bytes when it first matches
    it against a row. *)
Definition search_artworks `{Sqlite} (query : pystr) (d : database)
  : search_error + list (Z * artwork) :=
  let q := 37%N :: query ++ [37%N] in
  match bind_text q with
  | Raise e => inl (PythonError e)
  | Ok q_v =>
      match table_rows (artworks d) with
      | [] => inr []
      | rows =>
          if (MAX_LIKE_PATTERN_LENGTH <? N.of_nat (length (concat (map encode_char q_v))))%N
          then inl OperationalError
          else
            inr (filter (fun kv : Z * artwork =>
                           like (c_string q_v) (c_string (title_text (a_title kv.2))) = true
                           \/ like (c_string q_v) (c_string (a_data kv.2)) = true)
                        rows)
      end
  end.

(** ** The other request handlers ([index], [login], [register], [logout],
       [delete_artwork_route], [buy_artwork], [transactions], [search],
       [healthcheck], [cleanup]) *)

(** The three messages of the login and registration pages: fill in both
    fields; wrong name or password; the name is taken. *)
Inductive account_error : Type :=
  | EnterCredentials
  | WrongCredentials
  | UserAlreadyExists.

(** What these handlers answer: a redirect, a template with the arguments
    that the handler computes for it, or a JSON document. *)
Inductive reply : Type :=
  | Goto (endpoint : string)
  | IndexPage (user : pystr) (balance : Z) (own public : list artwork_row)
  | LoginPage (error : option account_error)
  | RegisterPage (error : option account_error)
  | ErrorPage (message : string)
  | TransactionsPage (user : pystr) (balance : Z) (history : list transaction_row)
  | SearchPage (user : pystr) (balance : Z) (query : pystr) (results : list (Z * artwork))
  | HealthJson (recent : option recent_counts)
  | CleanupJson (report : cleanup_report).

(** [session['username']] *)
Definition session_username (sess : session) : result pystr :=
  match sess_username sess with
  | Some name => Ok name
  | None => Raise KeyError
  end.

Definition index `{Sqlite} (sess : session) (d : database) : result reply :=
  if negb (logged_in sess d) then Ok (Goto "login")
  else
    let! uid := session_user_id sess in
    let balance := get_user_balance uid d in
    let! own := fetch_recent_artworks_for_user uid 20 d in
    let! public := list_public_artworks 50 d in
    let! name := session_username sess in
    Ok (IndexPage name balance own public).

(** [login] *)
Definition login_view `{Werkzeug} `{Hashlib} (salt : pystr) (sess : session) (req : request)
    (d : database) : result ((reply * session) * database) :=
  match method req with
  | POST =>
      let username := field "username" [] req in
      let password := field "password" [] req in
      match username, password with
      | [], _ | _, [] => Ok ((LoginPage (Some EnterCredentials), sess), d)
      | _, _ =>
          let! (user, d') := authenticate_user salt username password d in
          match user with
          | Some l =>
              Ok ((Goto "index", Session (Some (l_username l)) (Some (l_id l))), d')
          | None => Ok ((LoginPage (Some WrongCredentials), sess), d')
          end
      end
  | GET => Ok ((LoginPage None, sess), d)
  end.

Definition register `{Werkzeug} (salt : pystr) (sess : session) (req : request) (s : store)
  : result ((reply * session) * store) :=
  match method req with
  | POST =>
      let username := field "username" [] req in
      let password := field "password" [] req in
      match username, password with
      | [], _ | _, [] => Ok ((RegisterPage (Some EnterCredentials), sess), s)
      | _, _ =>
          let! ((ok, user_id), s') := create_user salt username password s in
          if ok then Ok ((Goto "index", Session (Some username) user_id), s')
          else Ok ((RegisterPage (Some UserAlreadyExists), sess), s')
      end
  | GET => Ok ((RegisterPage None, sess), s)
  end.

(** [logout]: [session.clear()] *)
Definition logout (sess : session) : reply * session :=
  (Goto "login", Session None None).

Definition delete_artwork_route (sess : session) (artwork_id : Z) (d : database)
  : result (reply * database) :=
  if negb (logged_in sess d) then Ok (Goto "login", d)
  else
    let! uid := session_user_id sess in
    let! (_, d') := delete_artwork artwork_id uid d in
    Ok (Goto "index", d').

Definition buy_artwork (now : timestamp) (sess : session) (artwork_id : Z) (d : database)
  : result (reply * database) :=
  if negb (logged_in sess d) then Ok (Goto "login", d)
  else
    let! uid := session_user_id sess in
    let! ((ok, msg), d') := purchase_artwork now uid artwork_id d in
    if negb ok then Ok (ErrorPage msg, d') else Ok (Goto "index", d').

(** [transactions] *)
Definition transactions_view `{Sqlite} (sess : session) (d : database) : result reply :=
  if negb (logged_in sess d) then Ok (Goto "login")
  else
    let! uid := session_user_id sess in
    let balance := get_user_balance uid d in
    let! history := fetch_transactions_for_user uid d in
    let! name := session_username sess in
    Ok (TransactionsPage name balance history).

(** [search]; [args] is the query string of the request. *)
Definition search `{Sqlite} (sess : session) (args : list (pystr * pystr)) (d : database)
  : search_error + reply :=
  if negb (logged_in sess d) then inr (Goto "login")
  else
    let query := strip (default [] (form_get (py "q") args)) in
    let results :=
      match query with
      | [] => inr []
      | _ => search_artworks query d
      end in
    match results with
    | inl e => inl e
    | inr rows =>
        match session_user_id sess, session_username sess with
        | Ok uid, Ok name => inr (SearchPage name (get_user_balance uid d) query rows)
        | Raise e, _ | _, Raise e => inl (PythonError e)
        end
    end.

(** [healthcheck]; [remote_addr] is the address of the caller. *)
Definition healthcheck `{Ipaddress} (now : timestamp) (remote_addr : pystr) (s : store)
  : result reply :=
  let! recent := check_connect now remote_addr s in
  Ok (HealthJson recent).

(** [cleanup]: the age is left at the seven minutes of its default. *)
Definition cleanup (now : timestamp) (s : store) : reply * store :=
  let '(report, s') := cleanup_expired_records now 7 s in
  (CleanupJson report, s').

(** ** Values that [json.dumps] and [json.loads] carry unchanged *)

(** How deep the arrays and objects of a value nest. *)
Fixpoint json_height (v : json) : nat :=
  match v with
  | JArr items => S (foldr (fun x acc => Nat.max (json_height x) acc) O items)
  | JObj members =>
      S (foldr (fun kv acc => Nat.max (json_height (snd kv)) acc) O members)
  | _ => O
  end.

(** An [int] whose decimal digits are within the interpreter's limit. *)
Definition int_within_limit (n : Z) : bool :=
  (length (repr_int (Z.abs n)) <=? INT_MAX_STR_DIGITS)%nat.

(** A value without floats, whose integers are within the limit on digits,
    whose strings hold Unicode scalar values, and whose objects name each
    key once. *)
Fixpoint plain (v : json) : bool :=
  match v with
  | JNull | JBool _ => true
  | JInt n => int_within_limit n
  | JFloat _ => false
  | JStr s => well_formed s
  | JArr items => forallb plain items
  | JObj members =>
      forallb (fun kv => well_formed (fst kv) && plain (snd kv)) members
      && bool_decide (NoDup (map fst members))
  end.

(** What follows a value inside a document that [json.dumps] wrote: the
    end, a comma, or a closing bracket or brace. *)
Definition delimited (rest : pystr) : Prop :=
  match rest with
  | [] => True
  | c :: _ => c = 44%N \/ c = 93%N \/ c = 125%N
  end.

(** ** A small world for the examples

    One interpreter, one resolver, one web: enough of each library to run
    the handlers on concrete requests. *)

(** Outside ASCII this interpreter knows the superscripts one, two and
    three (digits that have no decimal value) and the Arabic-Indic digits. *)
Definition sample_python : Cpython := {|
  recursion_limit := 1000;
  float_repr := fun lexeme => if is_ascii lexeme then lexeme else py "nan";
  float_is_zero := fun _ => false;
  nonascii_isdigit := fun c =>
    ((c =? 178) || (c =? 179) || (c =? 185) || (1632 <=? c) && (c <=? 1641))%N;
  nonascii_decimal := fun c =>
    (if (1632 <=? c) && (c <=? 1641) then Some (c - 1632) else None)%N
|}.

Fixpoint span_until (stop : N -> bool) (s : pystr) : pystr * pystr :=
  match s with
  | c :: r => if stop c then ([], s) else let (a, b) := span_until stop r in (c :: a, b)
  | [] => ([], [])
  end.

Fixpoint split_on (n : nat) (sep : N) (s : pystr) : list pystr :=
  match n with
  | O => [s]
  | S n' =>
      match span_until (fun c => (c =? sep)%N) s with
      | (a, _ :: b) => a :: split_on n' sep b
      | (a, []) => [a]
      end
  end.

(** One part of a dotted quad: up to three digits, no leading zero, at most
    255. *)
Definition octet (s : pystr) : option N :=
  match s with
  | [] => None
  | c :: r =>
      if forallb is_ascii_digit s && (length s <=? 3)%nat
         && ((negb (c =? 48)%N) || bool_decide (r = []))
      then
        let v := Z.to_N (digits_value s) in
        if (v <=? 255)%N then Some v else None
      else None
  end.

Definition ipv4_of_str (s : pystr) : result ipaddr :=
  match split_on 4 46%N s with
  | [a; b; c; d] =>
      match octet a, octet b, octet c, octet d with
      | Some a, Some b, Some c, Some d =>
          Ok (IPv4Address (((a * 256 + b) * 256 + c) * 256 + d)%N)
      | _, _, _, _ => Raise ValueError
      end
  | _ => Raise ValueError
  end.

Definition in_network (n base : N) (prefix : N) : bool :=
  (N.shiftr n (32 - prefix) =? N.shiftr base (32 - prefix))%N.

(** The IPv4 side of the ipaddress module, with the tables of Python 3.11
    (the private networks and the two addresses excepted from them). *)
Definition sample_ipaddress : Ipaddress := {|
  ip_address := ipv4_of_str;
  ip_str := fun ip =>
    match ip with
    | IPv4Address n =>
        join [46%N]
          (map (fun k => repr_int (Z.of_N ((n / 256 ^ k) mod 256))) [3; 2; 1; 0]%N)
    | IPv6Address _ => []
    end;
  is_loopback := fun ip =>
    match ip with IPv4Address n => in_network n 2130706432 8 | _ => false end;
  is_private := fun ip =>
    match ip with
    | IPv4Address n =>
        (in_network n 0 8 || in_network n 167772160 8 || in_network n 2130706432 8
         || in_network n 2851995648 16 || in_network n 2886729728 12
         || in_network n 3221225472 24 || in_network n 3221225642 31
         || in_network n 3221225984 24 || in_network n 3232235520 16
         || in_network n 3323068416 15 || in_network n 3325256704 24
         || in_network n 3405803776 24 || in_network n 4026531840 4
         || (n =? 4294967295)%N)
        && negb ((n =? 3221225481) || (n =? 3221225482))%N
    | _ => false
    end;
  is_link_local := fun ip =>
    match ip with IPv4Address n => in_network n 2851995648 16 | _ => false end;
  is_unspecified := fun ip =>
    match ip with IPv4Address n => (n =? 0)%N | _ => false end;
  is_multicast := fun ip =>
    match ip with IPv4Address n => in_network n 3758096384 4 | _ => false end;
  is_reserved := fun ip =>
    match ip with IPv4Address n => in_network n 4026531840 4 | _ => false end
|}.

(** URLs of the shape [scheme://host/path]. *)
Definition sample_urllib : Urllib := {|
  urlparse := fun url =>
    let (sch, rest) := span_until (fun c => (c =? 58)%N) url in
    match rest with
    | _ :: 47%N :: 47%N :: r =>
        let (host, _) := span_until (fun c => (c =? 47)%N) r in
        Ok (ParseResult (lower sch) (match host with [] => None | _ => Some (lower host) end))
    | _ => Ok (ParseResult [] None)
    end;
  urljoin := fun _ loc => Ok loc
|}.

Definition lookup_table {A} (key : pystr) (table : list (pystr * A)) : option A :=
  snd <$> find (fun e => pystr_eqb (fst e) key) table.

(** The resolver: a public host, an internal one, one with both kinds of
    address, and a hosts file that sends [localhost] to a public address. *)
Definition sample_socket : Socket := {|
  getaddrinfo := fun _ host =>
    match lookup_table host
            [(py "example.com", [(AF_INET, py "93.184.216.34")]);
             (py "intranet.example", [(AF_INET, py "192.168.1.10")]);
             (py "mixed.example", [(AF_INET, py "93.184.216.34"); (AF_INET, py "10.0.0.5")]);
             (py "localhost", [(AF_INET, py "93.184.216.34")])] with
    | Some answers => Ok answers
    | None => Raise (OSError (py "Name or service not known"))
    end
|}.

Definition long_text : pystr := repeat 97%N (N.to_nat 10000).

(** The web: what each URL answers. *)
Definition art_response : http_response :=
  HttpResponse 200 None (py "http://example.com/art.json")
    (pyq "{'shapes':[{'type':'circle'}],'title':'T','price':'50'}").

Definition moved_response : http_response :=
  HttpResponse 302 (Some (py "http://example.com/art.json"))
    (py "http://example.com/moved") [].

Definition untitled_response : http_response :=
  HttpResponse 200 None (py "http://example.com/untitled.json")
    (pyq "{'shapes':[],'title':null}").

Definition squared_response : http_response :=
  HttpResponse 200 None (py "http://example.com/squared.json")
    (pyq "{'shapes':[],'price':'" ++ [178%N] ++ pyq "'}").

Definition big_response : http_response :=
  HttpResponse 200 None (py "http://example.com/big.json")
    (pyq "{'shapes':'" ++ long_text ++ pyq "'}").

Definition sample_requests : Requests := {|
  requests_get := fun url =>
    match find (fun resp => pystr_eqb (resp_url resp) url)
               [art_response; moved_response; untitled_response; squared_response;
                big_response] with
    | Some resp => Ok resp
    | None => Raise (OSError (py "connection refused"))
    end
|}.

(** The form that asks to import [url]. *)
Definition import_request (url : string) : request :=
  Request POST [(py "artwork_url", py url)].

(** The form that creates an artwork. *)
Definition create_request (price : string) : request :=
  Request POST [(py "title", py "Wedge"); (py "data", py "[]"); (py "price", py price)].

(** A password scheme with the shape of werkzeug's, [method:...$salt$hash],
    and sixteen bytes of checksum in the place of the digest. *)
Definition sample_werkzeug : Werkzeug := {|
  generate_password_hash := fun password salt =>
    py "plain:1$" ++ salt ++ [36%N] ++ password;
  check_password_hash := fun stored password =>
    bool_decide ((36%N :: password) `suffix_of` stored)
|}.

Definition sample_hashlib : Hashlib := {|
  md5 := fun data =>
    map (fun k => byte_of_N (fold_left (fun acc b => (acc * 31 + Byte.to_N b + k) mod 256)%N
                                       data k))
        [1; 2; 3; 4; 5; 6; 7; 8; 9; 10; 11; 12; 13; 14; 15; 16]%N
|}.

Definition sample_db : database :=
  Database
    {[ 1 := User (py "alice") (py "plain:1$s$wonderland") 1000 0;
       2 := User (py "bob") (py "1b9b1b9b1b9b1b9b1b9b1b9b1b9b1b9b") 300 0 ]}
    {[ 1 := Artwork (SqlText (py "Square")) (py "[]") 250 1 0 [] 5;
       2 := Artwork (SqlText (py "Circle")) (py "[]") 5000 1 0 [] 6 ]}
    [] [] 3 3.

Definition bob_session : session := Session (Some (py "bob")) (Some 2).

(** More of the small world: a store, an engine that sorts by insertion,
    sessions and requests. *)
Definition sample_store : store := Store sample_db ∅.

(** A sorter: insertion by date, the newest first. *)
Fixpoint insert_desc {A} (key : A -> timestamp) (x : A) (l : list A) : list A :=
  match l with
  | [] => [x]
  | y :: l' => if key y <? key x then x :: l else y :: insert_desc key x l'
  end.

Definition sample_sqlite : Sqlite := {|
  real_text := fun lexeme => lexeme;
  order_by_desc := fun A key rows => foldr (insert_desc key) [] rows
|}.

Definition alice_session : session := Session (Some (py "alice")) (Some 1).


(** A store taken over from an older installation: the row of alice has a
    date, that of bob has none. *)
Definition legacy_store : store := Store sample_db {[ 2 ]}.

(** The settings form, and the form that creates an artwork with a
    description. *)
Definition settings_request : request :=
  Request POST [(py "colors", py "#E41E26,#000000"); (py "animation", py "on")].

Definition described_request : request :=
  Request POST [(py "title", py "Wedge"); (py "data", py "[]"); (py "price", py "40");
                (py "description", py "red wedge, white circle")].

(** The form of the login and registration pages. *)
Definition account_request : request :=
  Request POST [(py "username", py " carol "); (py "password", py "tower")].

Definition page_request : request := Request GET [].

Definition sample_shapes : json :=
  JArr [JObj [(py "type", JStr (py "circle")); (py "r", JInt 40); (py "fill", JNull)];
        JObj [(py "type", JStr (pyq "wedge 'red'")); (py "x", JInt (-7));
              (py "closed", JBool true); (py "points", JArr [])]].

(** * Properties *)

(** ** Ledger *)

Section Ledger.
Variables (now : timestamp) (buyer_id artwork_id : Z) (d : database).

(** A refused purchase writes nothing. *)
Lemma purchase_artwork_refused reason d' :
  purchase_artwork now buyer_id artwork_id d = Ok ((false, reason), d') -> d' = d.
Proof.
  unfold purchase_artwork, bind_int, bind. intros Hrun.
  repeat case_match; by simplify_eq.
Qed.

(** What a purchase that went through has passed, and the store it
    leaves. *)
Lemma purchase_artwork_bought msg d' :
  purchase_artwork now buyer_id artwork_id d = Ok ((true, msg), d') ->
  exists art buyer,
    in_int64 artwork_id = true
    /\ in_int64 buyer_id = true
    /\ artworks d !! artwork_id = Some art
    /\ users d !! buyer_id = Some buyer
    /\ a_owner_id art <> buyer_id
    /\ a_price art <= u_balance buyer
    /\ msg = "Purchase successful"%string
    /\ d' = Database
              (alter (add_balance (a_price art)) (a_owner_id art)
                     (alter (add_balance (- a_price art)) buyer_id (users d)))
              (alter (with_owner buyer_id) artwork_id (artworks d))
              (transactions d
                 ++ [Transaction buyer_id (a_owner_id art) artwork_id (a_price art) now])
              (settings_rows d) (next_user_id d) (next_artwork_id d).
Proof.
  unfold purchase_artwork, bind_int.
  destruct (in_int64 artwork_id) eqn:Hkey; [|discriminate]. cbn [bind].
  destruct (artworks d !! artwork_id) as [art|] eqn:Hart; [|discriminate].
  destruct (a_owner_id art =? buyer_id) eqn:Hself; [discriminate|].
  apply Z.eqb_neq in Hself.
  destruct (in_int64 buyer_id) eqn:Hbkey; [|discriminate]. cbn [bind].
  destruct (users d !! buyer_id) as [buyer|] eqn:Hbuyer; [|discriminate].
  destruct (u_balance buyer <? a_price art) eqn:Hfunds; [discriminate|].
  apply Z.ltb_ge in Hfunds. intros [= <- <-]. by exists art, buyer.
Qed.



(** C2, as the code has it.  With keys that fit 64 bits, a purchase that
    breaks a precondition is refused with the reason of that precondition:
    the artwork is not there; the buyer is its owner, whatever the buyer's
    balance; the buyer's balance is below the price.  The three reasons
    differ, and every refusal leaves the store as it was.  A key beyond
    64 bits is refused by the driver, which raises [OverflowError]: the
    key of the artwork always, that of the buyer once the artwork is found
    and is another user's. *)
Theorem purchase_artwork_failure :
  (in_int64 artwork_id = true -> artworks d !! artwork_id = None ->
     purchase_artwork now buyer_id artwork_id d
     = Ok ((false, "Artwork not found"%string), d))
  /\ (forall art,
        in_int64 artwork_id = true ->
        artworks d !! artwork_id = Some art -> a_owner_id art = buyer_id ->
        purchase_artwork now buyer_id artwork_id d
        = Ok ((false, "You cannot buy your own artwork"%string), d))
  /\ (forall art buyer,
        in_int64 artwork_id = true -> in_int64 buyer_id = true ->
        artworks d !! artwork_id = Some art -> a_owner_id art <> buyer_id ->
        users d !! buyer_id = Some buyer -> u_balance buyer < a_price art ->
        purchase_artwork now buyer_id artwork_id d
        = Ok ((false, "Insufficient balance"%string), d))
  /\ ("Artwork not found" <> "You cannot buy your own artwork"
      /\ "Artwork not found" <> "Insufficient balance"
      /\ "You cannot buy your own artwork" <> "Insufficient balance")%string
  /\ (forall reason d',
        purchase_artwork now buyer_id artwork_id d = Ok ((false, reason), d') -> d' = d)
  /\ (in_int64 artwork_id = false ->
      purchase_artwork now buyer_id artwork_id d = Raise OverflowError)
  /\ (forall art,
        in_int64 artwork_id = true -> in_int64 buyer_id = false ->
        artworks d !! artwork_id = Some art -> a_owner_id art <> buyer_id ->
        purchase_artwork now buyer_id artwork_id d = Raise OverflowError).
Proof.
  unfold purchase_artwork, bind_int. split_and!.
  - intros -> Hart. cbn [bind]. by rewrite Hart.
  - intros art -> Hart Hself. cbn [bind]. rewrite Hart, Hself. by rewrite Z.eqb_refl.
  - intros art buyer -> Hbkey Hart Hother Hbuyer Hfunds. cbn [bind].
    apply Z.eqb_neq in Hother. apply Z.ltb_lt in Hfunds.
    rewrite Hart, Hother, Hbkey. cbn [bind]. by rewrite Hbuyer, Hfunds.
  - discriminate.
  - discriminate.
  - discriminate.
  - apply purchase_artwork_refused.
  - by intros ->.
  - intros art -> Hbkey Hart Hother. cbn [bind].
    apply Z.eqb_neq in Hother. by rewrite Hart, Hother, Hbkey.
Qed.

(** C10, as the code has it.  When the artwork is there and is not the
    buyer's, and the buyer has no row in [users], the purchase is refused
    for insufficient balance and nothing is written, the two keys being
    within 64 bits. *)
Theorem purchase_artwork_unknown_buyer art :
  in_int64 artwork_id = true ->
  in_int64 buyer_id = true ->
  artworks d !! artwork_id = Some art ->
  a_owner_id art <> buyer_id ->
  users d !! buyer_id = None ->
  purchase_artwork now buyer_id artwork_id d
  = Ok ((false, "Insufficient balance"%string), d).
Proof.
  intros Hkey Hbkey Hart Hother Hnone. unfold purchase_artwork, bind_int.
  rewrite Hkey. cbn [bind]. apply Z.eqb_neq in Hother.
  rewrite Hart, Hother, Hbkey. cbn [bind]. by rewrite Hnone.
Qed.
End Ledger.



Lemma purchase_artwork_failure_witness :
  purchase_artwork 9 2 99 sample_db = Ok ((false, "Artwork not found"%string), sample_db)
  /\ purchase_artwork 9 1 1 sample_db
     = Ok ((false, "You cannot buy your own artwork"%string), sample_db)
  /\ purchase_artwork 9 2 2 sample_db
     = Ok ((false, "Insufficient balance"%string), sample_db).
Proof.
  split; [|split].
  - apply (purchase_artwork_failure 9 2 99 sample_db); vm_compute; reflexivity.
  - apply (proj1 (proj2 (purchase_artwork_failure 9 1 1 sample_db))
             (Artwork (SqlText (py "Square")) (py "[]") 250 1 0 [] 5));
      vm_compute; reflexivity.
  - apply (proj1 (proj2 (proj2 (purchase_artwork_failure 9 2 2 sample_db)))
             (Artwork (SqlText (py "Circle")) (py "[]") 5000 1 0 [] 6)
             (User (py "bob") (py "1b9b1b9b1b9b1b9b1b9b1b9b1b9b1b9b") 300 0)).
    + vm_compute. reflexivity.
    + vm_compute. reflexivity.
    + vm_compute. reflexivity.
    + vm_compute. discriminate.
    + vm_compute. reflexivity.
    + vm_compute. reflexivity.
Defined.

(** C2 as stated fails on a key beyond 64 bits: no artwork bears it, and
    the purchase is not refused with a reason but raises. *)
Lemma purchase_artwork_key_overflow :
  artworks sample_db !! 9223372036854775808 = None
  /\ purchase_artwork 9 2 9223372036854775808 sample_db = Raise OverflowError.
Proof. split; vm_compute; reflexivity. Qed.

Lemma purchase_artwork_unknown_buyer_witness :
  purchase_artwork 9 7 1 sample_db = Ok ((false, "Insufficient balance"%string), sample_db).
Proof.
  apply (purchase_artwork_unknown_buyer 9 7 1 sample_db
           (Artwork (SqlText (py "Square")) (py "[]") 250 1 0 [] 5)).
  - vm_compute. reflexivity.
  - vm_compute. reflexivity.
  - vm_compute. reflexivity.
  - vm_compute. discriminate.
  - vm_compute. reflexivity.
Defined.

(** C10 as stated fails on a buyer's key beyond 64 bits: the artwork is
    there and is another user's, the buyer has no row, and the purchase
    raises instead of reporting an insufficient balance. *)
Lemma purchase_artwork_buyer_overflow :
  a_owner_id <$> artworks sample_db !! 1 = Some 1
  /\ users sample_db !! 9223372036854775808 = None
  /\ purchase_artwork 9 9223372036854775808 1 sample_db = Raise OverflowError.
Proof. split_and!; vm_compute; reflexivity. Qed.

(** ** Credential store *)

Lemma hexdigit_not_colon d : hexdigit d <> 58%N.
Proof. unfold hexdigit. destruct (N.ltb_spec d 10); lia. Qed.

Lemma hex_of_bytes_no_marker bs : has_scheme_marker (hex_of_bytes bs) = false.
Proof.
  assert (Hnot : 58%N ∉ hex_of_bytes bs).
  { unfold hex_of_bytes. induction bs as [|b bs IH]; cbn.
    - apply not_elem_of_nil.
    - rewrite !not_elem_of_cons. split_and!; try done.
      all: intros Heq; symmetry in Heq; by apply hexdigit_not_colon in Heq. }
  unfold has_scheme_marker. destruct (hex_of_bytes bs); [done|].
  by apply bool_decide_eq_false.
Qed.

Section Credentials.
Context {werkzeug : Werkzeug} {hashlib : Hashlib}.

Lemma select_user_by_name_found name uid row d :
  users d !! uid = Some row -> u_username row = name -> unique_username name uid d ->
  select_user_by_name name d = Some (uid, row).
Proof.
  intros Hrow Hname Huniq. unfold select_user_by_name.
  destruct (list_find_elem_of (λ r : Z * user, u_username r.2 = name)
              (map_to_list (users d)) (uid, row)) as [[i [uid' row']] Hfind].
  - by apply elem_of_map_to_list.
  - done.
  - rewrite Hfind. cbn. apply list_find_Some in Hfind as (Hi & Hn & _).
    apply list_elem_of_lookup_2, elem_of_map_to_list in Hi. cbn in Hn.
    assert (uid' = uid) as -> by eauto. congruence.
Qed.

(** What werkzeug promises of its hashes: the text starts with the name
    of the method, which holds a colon, and the hash of a password
    verifies that password. *)
Hypothesis generated_has_marker :
  forall password salt, has_scheme_marker (generate_password_hash password salt) = true.
Hypothesis generated_verifies :
  forall password salt,
    check_password_hash (generate_password_hash password salt) password = true.

(** C6.  When the stored credential of a user is the legacy digest of the
    password supplied, [authenticate_user] succeeds and has rewritten the
    credential in the current scheme when it returns: the new credential
    carries the scheme marker, so that a second login with the same
    password is verified by [check_password_hash], succeeds, and rewrites
    nothing. *)
Theorem authenticate_user_upgrades salt salt' name password uid row data d :
  users d !! uid = Some row ->
  u_username row = name ->
  unique_username name uid d ->
  encode password = Ok data ->
  u_password row = hex_of_bytes (md5 data) ->
  let new_hash := generate_password_hash password salt in
  let d' := set_users (alter (with_password new_hash) uid) d in
  authenticate_user salt name password d
    = Ok (Some (Login uid name (u_balance row)), d')
  /\ users d' !! uid = Some (with_password new_hash row)
  /\ has_scheme_marker (u_password (with_password new_hash row)) = true
  /\ authenticate_user salt' name password d'
     = Ok (Some (Login uid name (u_balance row)), d').
Proof.
  intros Hrow Hname Huniq Hdata Hstored new_hash d'.
  assert (Hrow' : users d' !! uid = Some (with_password new_hash row)).
  { subst d'. cbn. by rewrite lookup_alter_eq, Hrow. }
  split_and!.
  - unfold authenticate_user.
    rewrite (select_user_by_name_found name uid row d) by done.
    rewrite Hstored, hex_of_bytes_no_marker, Hdata. cbn.
    unfold pystr_eqb. rewrite bool_decide_eq_true_2 by done. by rewrite Hname.
  - done.
  - apply generated_has_marker.
  - unfold authenticate_user.
    rewrite (select_user_by_name_found name uid (with_password new_hash row) d'); try done.
    + cbn. subst new_hash. rewrite generated_has_marker, generated_verifies.
      by rewrite Hname.
    + intros uid' row' Hlook Hn. subst d'. cbn in Hlook.
      destruct (decide (uid' = uid)) as [->|Hne]; [done|].
      rewrite lookup_alter_ne in Hlook by done. eauto.
Qed.
End Credentials.

Section CredentialsExample.
#[local] Existing Instances sample_werkzeug sample_hashlib.

Lemma authenticate_user_upgrades_witness :
  let d' := set_users (alter (with_password (py "plain:1$salt$builder")) 2) sample_db in
  authenticate_user (py "salt") (py "bob") (py "builder") sample_db
    = Ok (Some (Login 2 (py "bob") 300), d')
  /\ authenticate_user (py "pepper") (py "bob") (py "builder") d'
     = Ok (Some (Login 2 (py "bob") 300), d').
Proof.
  intros d'.
  destruct (authenticate_user_upgrades (werkzeug := sample_werkzeug)
              (hashlib := sample_hashlib)) with
    (salt := py "salt") (salt' := py "pepper") (name := py "bob")
    (password := py "builder") (uid := 2)
    (row := User (py "bob") (py "1b9b1b9b1b9b1b9b1b9b1b9b1b9b1b9b") 300 0)
    (data := match encode (py "builder") with Ok b => b | Raise _ => [] end)
    (d := sample_db) as (H1 & _ & _ & H2).
  - intros password salt. cbn. apply bool_decide_eq_true_2. set_solver.
  - intros password salt. cbn. apply bool_decide_eq_true_2.
    do 8 apply suffix_cons_r. by apply suffix_app_r.
  - vm_compute. reflexivity.
  - vm_compute. reflexivity.
  - intros uid' row' Hlook Hn.
    assert (Hin : (uid', row') ∈ map_to_list (users sample_db))
      by by apply elem_of_map_to_list.
    vm_compute in Hin. set_unfold in Hin.
    destruct Hin as [Hin|[Hin|Hin]]; try done; inversion Hin; subst; done.
  - vm_compute. reflexivity.
  - vm_compute. reflexivity.
  - split; [exact H1 | exact H2].
Defined.
End CredentialsExample.

(** ** URL guard *)

Section UrlGuard.
Context {urllib : Urllib} {ipaddress : Ipaddress} {socket : Socket}.

Lemma elem_of_collect_addrs a answers :
  a ∈ collect_addrs answers <-> exists fam, (fam, a) ∈ answers /\ fam <> AF_OTHER.
Proof.
  unfold collect_addrs. rewrite elem_of_remove_dups, list_elem_of_omap. split.
  - intros ([fam a'] & Hin & Hsome). exists fam. cbn in Hsome.
    destruct fam; simplify_eq; done.
  - intros (fam & Hin & Hfam). exists (fam, a). split; [done|]. by destruct fam.
Qed.

Lemma check_addrs_all_public addrs :
  (forall a, a ∈ addrs -> exists ip, ip_address a = Ok ip /\ _is_public_ip ip = true) ->
  check_addrs addrs = Ok true.
Proof.
  induction addrs as [|a addrs IH]; intros Hall; [done|]. cbn.
  destruct (Hall a) as (ip & -> & Hpub); [left|]. cbn. rewrite Hpub. cbn.
  apply IH. intros b Hb. apply Hall. by right.
Qed.

Lemma check_addrs_one_disallowed addrs a ip :
  a ∈ addrs -> ip_address a = Ok ip -> _is_public_ip ip = false ->
  check_addrs addrs <> Ok true.
Proof.
  induction addrs as [|b addrs IH]; intros Hin Hip Hpub.
  - by apply elem_of_nil in Hin.
  - cbn. apply elem_of_cons in Hin as [<-|Hin].
    + rewrite Hip. cbn. by rewrite Hpub.
    + destruct (ip_address b) as [ipb|e]; cbn; [|done].
      destruct (_is_public_ip ipb); cbn; [by apply IH | done].
Qed.

(** The verdict on the addresses does not depend on their order: the set
    that the code walks may be listed in any. *)
Lemma check_addrs_verdict addrs :
  check_addrs addrs = Ok true
  <-> forall a, a ∈ addrs -> exists ip, ip_address a = Ok ip /\ _is_public_ip ip = true.
Proof.
  split; [|apply check_addrs_all_public].
  induction addrs as [|b addrs IH]; intros Hrun a Ha.
  - by apply elem_of_nil in Ha.
  - cbn in Hrun. destruct (ip_address b) as [ipb|] eqn:Hb; [|done]. cbn in Hrun.
    destruct (_is_public_ip ipb) eqn:Hpub; [|done]. cbn in Hrun.
    apply elem_of_cons in Ha as [->|Ha]; eauto.
Qed.

#[local] Arguments check_addrs : simpl never.

(** C3, as the code has it.  For a URL whose host is not a literal address,
    [is_safe_url] looks at every address of family INET or INET6 that the
    resolver returns.  If one of them is loopback, private, link-local,
    unspecified, multicast or reserved, the URL is refused, whatever else
    was returned.  If the scheme is http or https, the host is not one of
    the two names of the local host, at least one address was returned and
    each of them is none of the six kinds, the URL is allowed, with one of
    the addresses returned. *)
Theorem is_safe_url_hostname t url parsed host answers :
  urlparse url = Ok parsed ->
  hostname parsed = Some host ->
  ip_address host = Raise ValueError ->
  getaddrinfo t host = Ok answers ->
  ((exists fam a ip,
       (fam, a) ∈ answers /\ fam <> AF_OTHER /\ ip_address a = Ok ip
       /\ (is_loopback ip || is_private ip || is_link_local ip
           || is_unspecified ip || is_multicast ip || is_reserved ip) = true) ->
   is_safe_url t url = denied)
  /\ (scheme parsed ∈ [py "http"; py "https"] ->
      host <> [] ->
      lower host ∉ [py "localhost"; py "localhost.localdomain"] ->
      (exists fam a, (fam, a) ∈ answers /\ fam <> AF_OTHER) ->
      (forall fam a, (fam, a) ∈ answers -> fam <> AF_OTHER ->
         exists ip, ip_address a = Ok ip
           /\ (is_loopback ip || is_private ip || is_link_local ip
               || is_unspecified ip || is_multicast ip || is_reserved ip) = false) ->
      exists a, a ∈ collect_addrs answers /\ is_safe_url t url = (true, a)).
Proof.
  intros Hparse Hhost Hname Hdns. unfold is_safe_url. rewrite Hparse. cbn.
  rewrite Hhost. split.
  - intros (fam & a & ip & Hin & Hfam & Hip & Hbad).
    destruct (bool_decide _); cbn; [|done].
    destruct host as [|c host']; [done|].
    destruct (bool_decide _); cbn; [done|].
    rewrite Hname, Hdns. cbn.
    assert (Ha : a ∈ collect_addrs answers) by (apply elem_of_collect_addrs; eauto).
    destruct (collect_addrs answers) as [|a0 rest] eqn:Hcollect; [done|].
    pose proof (check_addrs_one_disallowed (a0 :: rest) a ip Ha Hip) as Hcheck.
    unfold _is_public_ip in Hcheck. rewrite Hbad in Hcheck. specialize (Hcheck eq_refl).
    destruct (check_addrs (a0 :: rest)) as [[|]|e]; done.
  - intros Hscheme Hne Halias (fam & a & Hin & Hfam) Hall.
    rewrite bool_decide_eq_true_2 by done. cbn.
    destruct host as [|c host']; [done|].
    rewrite bool_decide_eq_false_2 by done. rewrite Hname, Hdns. cbn.
    assert (Ha : a ∈ collect_addrs answers) by (apply elem_of_collect_addrs; eauto).
    destruct (collect_addrs answers) as [|a0 rest] eqn:Hcollect.
    { by apply elem_of_nil in Ha. }
    rewrite check_addrs_all_public.
    + cbn. exists (smallest a0 rest). split; [|done].
      clear. revert a0. induction rest as [|b rest IH]; intros a0; cbn; [left|].
      destruct (pystr_ltb b a0).
      * right. apply IH.
      * specialize (IH a0). apply elem_of_cons in IH as [->|IH]; [left|by do 2 right].
    + intros b Hb. rewrite <- Hcollect in Hb.
      apply elem_of_collect_addrs in Hb as (famb & Hinb & Hfamb).
      destruct (Hall famb b Hinb Hfamb) as (ip & Hip & Hok).
      exists ip. split; [done|]. unfold _is_public_ip. by rewrite Hok.
Qed.
End UrlGuard.

Section UrlGuardExample.
#[local] Existing Instances sample_urllib sample_ipaddress sample_socket.

Lemma is_safe_url_hostname_witness :
  is_safe_url 0 (py "http://mixed.example/art.json") = denied
  /\ is_safe_url 0 (py "http://intranet.example/art.json") = denied
  /\ exists a, is_safe_url 0 (py "http://example.com/art.json") = (true, a).
Proof.
  split; [|split].
  - apply (is_safe_url_hostname 0 (py "http://mixed.example/art.json")
             (ParseResult (py "http") (Some (py "mixed.example"))) (py "mixed.example")
             [(AF_INET, py "93.184.216.34"); (AF_INET, py "10.0.0.5")]);
      try (vm_compute; reflexivity).
    exists AF_INET, (py "10.0.0.5"), (IPv4Address 167772165).
    split_and!; [set_solver | done | vm_compute; reflexivity | vm_compute; reflexivity].
  - apply (is_safe_url_hostname 0 (py "http://intranet.example/art.json")
             (ParseResult (py "http") (Some (py "intranet.example"))) (py "intranet.example")
             [(AF_INET, py "192.168.1.10")]);
      try (vm_compute; reflexivity).
    exists AF_INET, (py "192.168.1.10"), (IPv4Address 3232235786).
    split_and!; [set_solver | done | vm_compute; reflexivity | vm_compute; reflexivity].
  - destruct (is_safe_url_hostname 0 (py "http://example.com/art.json")
                (ParseResult (py "http") (Some (py "example.com"))) (py "example.com")
                [(AF_INET, py "93.184.216.34")]) as [_ Hallowed];
      try (vm_compute; reflexivity).
    destruct Hallowed as (a & _ & Ha).
    + cbn. left.
    + done.
    + refine (bool_decide_unpack _ _). vm_compute. exact I.
    + exists AF_INET, (py "93.184.216.34"). split; [set_solver|done].
    + intros fam a Hin Hfam. apply list_elem_of_singleton in Hin as [= -> ->].
      exists (IPv4Address 1572395042). split; vm_compute; reflexivity.
    + by exists a.
Defined.

(** C3 as stated fails: a name of the local host is refused before the
    resolver is asked, also where every address it resolves to is public. *)
Lemma is_safe_url_alias_denied :
  ~ (forall (t : nat) (url : pystr) (parsed : parse_result) (host : pystr)
            (answers : list (address_family * pystr)),
       urlparse url = Ok parsed ->
       scheme parsed ∈ [py "http"; py "https"] ->
       hostname parsed = Some host ->
       ip_address host = Raise ValueError ->
       getaddrinfo t host = Ok answers ->
       (exists fam a, (fam, a) ∈ answers /\ fam <> AF_OTHER) ->
       (forall fam a, (fam, a) ∈ answers -> fam <> AF_OTHER ->
          exists ip, ip_address a = Ok ip /\ _is_public_ip ip = true) ->
       fst (is_safe_url t url) = true).
Proof.
  intros Hclaim.
  assert (Hdenied : fst (is_safe_url 0 (py "http://localhost/art.json")) = false)
    by (vm_compute; reflexivity).
  rewrite (Hclaim 0%nat (py "http://localhost/art.json")
             (ParseResult (py "http") (Some (py "localhost"))) (py "localhost")
             [(AF_INET, py "93.184.216.34")]) in Hdenied; [discriminate| | | | | | |].
  - vm_compute. reflexivity.
  - cbn. left.
  - reflexivity.
  - vm_compute. reflexivity.
  - vm_compute. reflexivity.
  - exists AF_INET, (py "93.184.216.34"). split; [set_solver|done].
  - intros fam a Hin Hfam. apply list_elem_of_singleton in Hin as [= -> ->].
    exists (IPv4Address 1572395042). split; vm_compute; reflexivity.
Qed.
End UrlGuardExample.

(** ** JSON strings: [scanstring] reads back what [encode_basestring_ascii] writes *)

Lemma hexval_hexdigit d : (d < 16)%N -> hexval (hexdigit d) = Some d.
Proof.
  intros Hd. unfold hexdigit, hexval.
  destruct (N.ltb_spec d 10).
  - replace ((48 <=? 48 + d) && (48 + d <=? 57))%N with true; [f_equal; lia|].
    symmetry. apply andb_true_iff. split; apply N.leb_le; lia.
  - replace ((48 <=? 87 + d) && (87 + d <=? 57))%N with false.
    2:{ symmetry. apply andb_false_iff. right. apply N.leb_gt. lia. }
    replace ((97 <=? 87 + d) && (87 + d <=? 102))%N with true; [f_equal; lia|].
    symmetry. apply andb_true_iff. split; apply N.leb_le; lia.
Qed.

Lemma hex4_hex4_digits n :
  (n < 65536)%N ->
  hex4 (hexdigit ((n / 4096) mod 16)) (hexdigit ((n / 256) mod 16))
       (hexdigit ((n / 16) mod 16)) (hexdigit (n mod 16)) = Some n.
Proof.
  intros Hn. unfold hex4.
  rewrite !hexval_hexdigit by (apply N.mod_lt; lia).
  f_equal.
  pose proof (N.div_mod n 16 ltac:(lia)) as H0.
  pose proof (N.div_mod (n / 16) 16 ltac:(lia)) as H1.
  pose proof (N.div_mod (n / 256) 16 ltac:(lia)) as H2.
  replace (n / 256)%N with (n / 16 / 16)%N in * by (rewrite N.Div0.div_div; f_equal).
  replace (n / 4096)%N with (n / 16 / 16 / 16)%N in * by (rewrite !N.Div0.div_div; f_equal).
  assert (n / 16 / 16 / 16 < 16)%N.
  { apply N.Div0.div_lt_upper_bound. apply N.Div0.div_lt_upper_bound.
    apply N.Div0.div_lt_upper_bound. lia. }
  rewrite (N.mod_small (n / 16 / 16 / 16) 16) by done.
  lia.
Qed.

Lemma lor_shifted high low :
  (low < 1024)%N -> N.lor (N.shiftl high 10) low = (high * 1024 + low)%N.
Proof.
  intros Hlow.
  assert (Hdisjoint : N.land (N.shiftl high 10) low = 0%N).
  { apply N.bits_inj. intros i. rewrite N.land_spec, N.bits_0.
    destruct (N.ltb_spec i 10).
    - by rewrite N.shiftl_spec_low.
    - rewrite (N.bits_above_log2 low i), andb_false_r; [done|].
      destruct (N.eq_dec low 0%N) as [->|Hpos]; [cbn; lia|].
      apply N.lt_le_trans with 10%N; [|done].
      apply N.log2_lt_pow2; [lia|]. done. }
  rewrite <- N.lxor_lor, <- N.add_nocarry_lxor by done.
  by rewrite N.shiftl_mul_pow2.
Qed.

Lemma land_1023 n : N.land n 1023 = (n mod 1024)%N.
Proof. exact (N.land_ones n 10). Qed.

Lemma shiftr_10 n : N.shiftr n 10 = (n / 1024)%N.
Proof. exact (N.shiftr_div_pow2 n 10). Qed.

Lemma high_surrogate_value n :
  (n < 1048576)%N ->
  N.lor 55296 (N.land (N.shiftr n 10) 1023) = (55296 + n / 1024)%N.
Proof.
  intros Hn. rewrite shiftr_10, land_1023.
  assert (n / 1024 < 1024)%N by (apply N.Div0.div_lt_upper_bound; lia).
  rewrite N.mod_small by done.
  change 55296%N with (N.shiftl 54 10). rewrite lor_shifted by done.
  rewrite N.shiftl_mul_pow2. reflexivity.
Qed.

Lemma low_surrogate_value n :
  N.lor 56320 (N.land n 1023) = (56320 + n mod 1024)%N.
Proof.
  rewrite land_1023.
  change 56320%N with (N.shiftl 55 10).
  rewrite lor_shifted by (apply N.mod_lt; lia).
  rewrite N.shiftl_mul_pow2. reflexivity.
Qed.

Lemma join_surrogates_value n :
  (n < 1048576)%N ->
  join_surrogates (55296 + n / 1024) (56320 + n mod 1024) = (n + 65536)%N.
Proof.
  intros Hn. unfold join_surrogates. rewrite !land_1023.
  assert (n / 1024 < 1024)%N by (apply N.Div0.div_lt_upper_bound; lia).
  replace ((55296 + n / 1024) mod 1024)%N with (n / 1024)%N.
  2:{ replace (55296 + n / 1024)%N with (n / 1024 + 54 * 1024)%N by lia.
      rewrite N.Div0.mod_add. by rewrite N.mod_small. }
  replace ((56320 + n mod 1024) mod 1024)%N with (n mod 1024)%N.
  2:{ replace (56320 + n mod 1024)%N with (n mod 1024 + 55 * 1024)%N by lia.
      rewrite N.Div0.mod_add. rewrite N.Div0.mod_mod; done. }
  rewrite lor_shifted by (apply N.mod_lt; lia).
  pose proof (N.div_mod n 1024 ltac:(lia)). lia.
Qed.
(** [lia] with the quotients and remainders of the goal taken as unknowns. *)
Ltac lia_atoms :=
  repeat match goal with
         | |- context [N.div ?a ?b] =>
             let q := fresh "q" in set (q := N.div a b) in *; clearbody q
         | |- context [N.modulo ?a ?b] =>
             let r := fresh "r" in set (r := N.modulo a b) in *; clearbody r
         end;
  lia.

Lemma scanstring_literal c tl :
  (c =? 34)%N = false -> (c =? 92)%N = false -> (c <? 32)%N = false ->
  scanstring (c :: tl) = push c (scanstring tl).
Proof. intros H1 H2 H3. cbn. by rewrite H1, H2, H3. Qed.

Lemma scanstring_u_escape u tl :
  (u < 65536)%N -> is_high_surrogate u = false ->
  scanstring (u_escape u ++ tl) = push u (scanstring tl).
Proof.
  intros Hu Hhigh. unfold u_escape, hex4_digits.
  cbn [app scanstring]. change (92 =? 34)%N with false. change (92 =? 92)%N with true.
  change (117 =? 117)%N with true. cbv iota.
  rewrite hex4_hex4_digits by done. by rewrite Hhigh.
Qed.

Lemma scanstring_surrogate_pair n tl :
  (n < 1048576)%N ->
  scanstring (u_escape (55296 + n / 1024) ++ u_escape (56320 + n mod 1024) ++ tl)
  = push (n + 65536)%N (scanstring tl).
Proof.
  intros Hn.
  assert (n / 1024 < 1024)%N by (apply N.Div0.div_lt_upper_bound; lia).
  assert (n mod 1024 < 1024)%N by (apply N.mod_lt; lia).
  unfold u_escape, hex4_digits.
  cbn [app scanstring]. change (92 =? 34)%N with false. change (92 =? 92)%N with true.
  change (117 =? 117)%N with true. cbv iota.
  rewrite hex4_hex4_digits by lia_atoms.
  replace (is_high_surrogate (55296 + n / 1024)) with true.
  2:{ symmetry. apply andb_true_iff. split; apply N.leb_le; lia_atoms. }
  cbn [andb]. rewrite hex4_hex4_digits by lia_atoms.
  replace (is_low_surrogate (56320 + n mod 1024)) with true.
  2:{ symmetry. apply andb_true_iff. split; apply N.leb_le; lia_atoms. }
  by rewrite join_surrogates_value.
Qed.

Lemma scanstring_escape_char c tl :
  is_scalar_value c = true ->
  scanstring (escape_char c ++ tl) = push c (scanstring tl).
Proof.
  intros Hc. unfold is_scalar_value, is_surrogate in Hc.
  apply andb_true_iff in Hc as [Hmax Hsur]. apply N.ltb_lt in Hmax.
  apply negb_true_iff, andb_false_iff in Hsur.
  unfold escape_char.
  destruct (N.eqb_spec c 92) as [->|?]; [reflexivity|].
  destruct (N.eqb_spec c 34) as [->|?]; [reflexivity|].
  destruct (N.eqb_spec c 8) as [->|?]; [reflexivity|].
  destruct (N.eqb_spec c 12) as [->|?]; [reflexivity|].
  destruct (N.eqb_spec c 10) as [->|?]; [reflexivity|].
  destruct (N.eqb_spec c 13) as [->|?]; [reflexivity|].
  destruct (N.eqb_spec c 9) as [->|?]; [reflexivity|].
  destruct ((32 <=? c) && (c <=? 126))%N eqn:Hprint.
  - apply andb_true_iff in Hprint as [Hlo Hhi]. apply N.leb_le in Hlo, Hhi.
    apply scanstring_literal.
    + by apply N.eqb_neq.
    + by apply N.eqb_neq.
    + apply N.ltb_ge. lia.
  - destruct (N.ltb_spec c 65536) as [Hbmp|Hastral].
    + apply scanstring_u_escape; [done|].
      unfold is_high_surrogate. apply andb_false_iff.
      destruct Hsur as [Hs|Hs]; [left; done|].
      apply N.leb_gt in Hs. right. apply N.leb_gt. lia.
    + cbv zeta. rewrite high_surrogate_value, low_surrogate_value by lia.
      rewrite <- app_assoc, scanstring_surrogate_pair by lia.
      f_equal. lia.
Qed.

Lemma scanstring_escaped s rest :
  well_formed s = true ->
  scanstring (concat (map escape_char s) ++ 34%N :: rest) = Ok (s, rest).
Proof.
  induction s as [|c s IH]; intros Hs; [reflexivity|].
  cbn in Hs. apply andb_true_iff in Hs as [Hc Hs].
  cbn [map concat]. rewrite <- app_assoc, scanstring_escape_char by done.
  by rewrite IH.
Qed.

Lemma scan_once_string depth s :
  scan_once depth (34%N :: s)
  = let! (str, rest) := scanstring s in Ok (JStr str, rest).
Proof. by destruct depth. Qed.

Lemma scan_once_true depth s :
  scan_once depth (116%N :: 114%N :: 117%N :: 101%N :: s) = Ok (JBool true, s).
Proof. by destruct depth. Qed.

Lemma scan_once_false depth s :
  scan_once depth (102%N :: 97%N :: 108%N :: 115%N :: 101%N :: s) = Ok (JBool false, s).
Proof. by destruct depth. Qed.

(** ** The scanner's loops never run out of steps

    A value is never read from nothing, so an array or an object of [n]
    characters has fewer than [n] items: the bound that [scan_once] gives to
    [array_items] and [object_members] is never reached. *)

Lemma skip_ws_length s : (length (skip_ws s) <= length s)%nat.
Proof.
  induction s as [|c s IH]; cbn; [lia|]. destruct (is_ws c); cbn; lia.
Qed.

Lemma push_inv c res str r :
  push c res = Ok (str, r) -> exists str', res = Ok (str', r) /\ str = c :: str'.
Proof. destruct res as [[str' r']|]; cbn; [|done]. intros [= <- <-]. eauto. Qed.

Lemma scanstring_shrinks : shrinks scanstring.
Proof.
  assert (Hn : forall n s, (length s <= n)%nat ->
                 forall str r, scanstring s = Ok (str, r) -> (length r < length s)%nat).
  { induction n as [|n IH]; intros s Hlen str r Hrun.
    - destruct s; [done|cbn in Hlen; lia].
    - destruct s as [|c s]; [done|]. cbn [scanstring] in Hrun. cbn [length] in Hlen |- *.
      assert (Hrec : forall c' s' str' r', (length s' <= length s)%nat ->
                       push c' (scanstring s') = Ok (str', r') ->
                       (length r' < S (length s))%nat).
      { intros c' s' str' r' Hs' Hpush.
        apply push_inv in Hpush as (str0 & Hscan & _).
        apply IH in Hscan; lia. }
      destruct (c =? 34)%N; [simplify_eq; lia|].
      destruct (c =? 92)%N.
      2:{ destruct (c <? 32)%N; [done|]. by eapply Hrec. }
      destruct s as [|e r1]; [done|].
      destruct (e =? 117)%N.
      2:{ destruct (unescape e); [|done]. eapply Hrec; [|done]. cbn; lia. }
      destruct r1 as [|h1 [|h2 [|h3 [|h4 r2]]]]; try done.
      destruct (hex4 h1 h2 h3 h4) as [u|]; [|done].
      destruct (is_high_surrogate u).
      2:{ eapply Hrec; [|done]. cbn; lia. }
      destruct r2 as [|b1 [|b2 [|l1 [|l2 [|l3 [|l4 r3]]]]]];
        try (eapply Hrec; [|done]; cbn; lia).
      destruct ((b1 =? 92) && (b2 =? 117))%N.
      2:{ eapply Hrec; [|done]. cbn; lia. }
      destruct (hex4 l1 l2 l3 l4) as [u2|]; [|done].
      destruct (is_low_surrogate u2); (eapply Hrec; [|done]; cbn; lia). }
  intros s str r. by apply (Hn (length s)).
Qed.

Lemma span_digits_length s : (length (span_digits s).2 <= length s)%nat.
Proof.
  induction s as [|c s IH]; cbn; [lia|].
  destruct (is_ascii_digit c); [|cbn; lia].
  destruct (span_digits s) as [ds rest]. cbn in *. lia.
Qed.

Lemma number_sign_length s : (length (number_sign s).2 <= length s)%nat.
Proof. destruct s as [|c s]; cbn; [lia|]. destruct (c =? 45)%N; cbn; lia. Qed.

Lemma number_int_length s ip rest :
  number_int s = Some (ip, rest) -> (length rest < length s)%nat.
Proof.
  destruct s as [|c s]; cbn; [done|].
  destruct ((49 <=? c) && (c <=? 57))%N.
  - pose proof (span_digits_length s). destruct (span_digits s).
    intros [= <- <-]. cbn in *. lia.
  - destruct (c =? 48)%N; [|done]. intros [= <- <-]. lia.
Qed.

Lemma number_frac_length s : (length (number_frac s).2 <= length s)%nat.
Proof.
  destruct s as [|d [|f s]]; cbn [number_frac snd]; try lia.
  destruct ((d =? 46)%N && is_ascii_digit f); cbn [snd]; [|lia].
  pose proof (span_digits_length (tail (d :: f :: s))).
  destruct (span_digits (tail (d :: f :: s))). cbn in *. lia.
Qed.

Lemma number_exp_length s : (length (number_exp s).2 <= length s)%nat.
Proof.
  destruct s as [|e r1]; cbn [number_exp snd]; [lia|].
  destruct ((e =? 101) || (e =? 69))%N; cbn [snd]; [|lia].
  assert (Hsign : forall sign r2,
            match r1 with
            | sg :: r3 => if ((sg =? 45) || (sg =? 43))%N then ([sg], r3) else ([], r1)
            | [] => ([], r1)
            end = (sign, r2) -> (length r2 <= length r1)%nat).
  { intros sign r2. destruct r1 as [|sg r3]; [intros [= <- <-]; lia|].
    destruct ((sg =? 45) || (sg =? 43))%N; intros [= <- <-]; cbn; lia. }
  destruct (match r1 with [] => _ | _ :: _ => _ end) as [sign r2].
  specialize (Hsign sign r2 eq_refl).
  pose proof (span_digits_length r2). destruct (span_digits r2) as [es rr].
  destruct es; cbn in *; lia.
Qed.

Lemma match_number_shrinks : shrinks match_number.
Proof.
  intros s v r. unfold match_number.
  pose proof (number_sign_length s). destruct (number_sign s) as [neg s1].
  destruct (number_int s1) as [[ip rest]|] eqn:Hint; [|done].
  apply number_int_length in Hint.
  pose proof (number_frac_length rest). destruct (number_frac rest) as [frac rest1].
  pose proof (number_exp_length rest1). destruct (number_exp rest1) as [exp rest2].
  cbn [snd] in *.
  destruct frac, exp; try destruct (INT_MAX_STR_DIGITS <? length ip)%nat;
    intros [= <- <-]; lia.
Qed.

Section LoopBounds.
Context (value : pystr -> result (json * pystr)).
Hypothesis value_shrinks : shrinks value.

Lemma array_items_shrinks n : shrinks (array_items n value).
Proof.
  induction n as [|n IH]; intros s vs r; cbn [array_items]; [done|].
  destruct (value s) as [[v r1]|] eqn:Hv; [|done]. cbn [bind].
  apply value_shrinks in Hv. pose proof (skip_ws_length r1).
  destruct (skip_ws r1) as [|c r2]; [done|]. cbn [length] in *.
  destruct (c =? 93)%N; [intros [= <- <-]; lia|].
  destruct (c =? 44)%N; [|done].
  destruct (array_items n value (skip_ws r2)) as [[vs' r3]|] eqn:Hrec; [|done].
  cbn [bind]. intros [= <- <-]. apply IH in Hrec. pose proof (skip_ws_length r2). lia.
Qed.

Lemma array_items_bound n m s :
  (1 <= n)%nat -> (1 <= m)%nat -> (length s <= n)%nat -> (length s <= m)%nat ->
  array_items n value s = array_items m value s.
Proof.
  revert m s. induction n as [|n IH]; intros m s Hn Hm Hsn Hsm; [lia|].
  destruct m as [|m]; [lia|]. cbn [array_items].
  destruct (value s) as [[v r1]|] eqn:Hv; [|done]. cbn [bind].
  apply value_shrinks in Hv. pose proof (skip_ws_length r1).
  destruct (skip_ws r1) as [|c r2]; [done|]. cbn [length] in *.
  destruct (c =? 93)%N; [done|]. destruct (c =? 44)%N; [|done].
  pose proof (skip_ws_length r2). rewrite (IH m); [done|lia..].
Qed.

Lemma object_members_shrinks n : shrinks (object_members n value).
Proof.
  induction n as [|n IH]; intros s ms r; cbn [object_members]; [done|].
  destruct s as [|c s]; [done|]. destruct (negb (c =? 34)%N); [done|].
  destruct (scanstring s) as [[key r1]|] eqn:Hkey; [|done]. cbn [bind].
  apply scanstring_shrinks in Hkey. pose proof (skip_ws_length r1).
  destruct (skip_ws r1) as [|c2 r2]; [done|]. cbn [length] in *.
  destruct (negb (c2 =? 58)%N); [done|].
  destruct (value (skip_ws r2)) as [[v r3]|] eqn:Hv; [|done]. cbn [bind].
  apply value_shrinks in Hv. pose proof (skip_ws_length r2). pose proof (skip_ws_length r3).
  destruct (skip_ws r3) as [|c4 r4]; [done|]. cbn [length] in *.
  destruct (c4 =? 125)%N; [intros [= <- <-]; lia|].
  destruct (c4 =? 44)%N; [|done].
  destruct (object_members n value (skip_ws r4)) as [[ms' r5]|] eqn:Hrec; [|done].
  cbn [bind]. intros [= <- <-]. apply IH in Hrec. pose proof (skip_ws_length r4). lia.
Qed.

Lemma object_members_bound n m s :
  (1 <= n)%nat -> (1 <= m)%nat -> (length s <= n)%nat -> (length s <= m)%nat ->
  object_members n value s = object_members m value s.
Proof.
  revert m s. induction n as [|n IH]; intros m s Hn Hm Hsn Hsm; [lia|].
  destruct m as [|m]; [lia|]. cbn [object_members].
  destruct s as [|c s]; [done|]. destruct (negb (c =? 34)%N); [done|].
  destruct (scanstring s) as [[key r1]|] eqn:Hkey; [|done]. cbn [bind].
  apply scanstring_shrinks in Hkey. pose proof (skip_ws_length r1).
  destruct (skip_ws r1) as [|c2 r2]; [done|]. cbn [length] in *.
  destruct (negb (c2 =? 58)%N); [done|].
  destruct (value (skip_ws r2)) as [[v r3]|] eqn:Hv; [|done]. cbn [bind].
  apply value_shrinks in Hv. pose proof (skip_ws_length r2). pose proof (skip_ws_length r3).
  destruct (skip_ws r3) as [|c4 r4]; [done|]. cbn [length] in *.
  destruct (c4 =? 125)%N; [done|]. destruct (c4 =? 44)%N; [|done].
  pose proof (skip_ws_length r4). rewrite (IH m); [done|lia..].
Qed.
End LoopBounds.

Lemma strip_prefix_length p s rest :
  strip_prefix p s = Some rest -> (length rest + length p = length s)%nat.
Proof.
  revert s. induction p as [|x p IH]; intros s; cbn.
  - intros [= <-]. lia.
  - destruct s as [|y s]; [done|]. destruct (x =? y)%N; [|done].
    intros Hrec. apply IH in Hrec. cbn. lia.
Qed.

Lemma constant_shrinks word v s found rest :
  word <> EmptyString -> constant word v s = Some (found, rest) ->
  (length rest < length s)%nat.
Proof.
  intros Hword. unfold constant.
  destruct (strip_prefix (py word) s) as [rest'|] eqn:Hstrip; [|done].
  intros [= <- <-]. apply strip_prefix_length in Hstrip.
  destruct word; [done|]. cbn in Hstrip. lia.
Qed.

(** Every value takes at least one character. *)
Lemma scan_once_shrinks depth : shrinks (scan_once depth).
Proof.
  induction depth as [|depth IH]; intros s v r; (destruct s as [|c s]; [done|]);
    cbn [scan_once].
  all: destruct (c =? 34)%N;
    [destruct (scanstring s) as [[str rest]|] eqn:Hstr; [|done];
     apply scanstring_shrinks in Hstr; cbn [bind]; intros [= <- <-]; cbn; lia|].
  all: destruct (c =? 123)%N; [try done|].
  2:{ pose proof (skip_ws_length s). destruct (skip_ws s) as [|c1 r1]; [done|].
      cbn [length] in *. destruct (c1 =? 125)%N; [intros [= <- <-]; lia|].
      destruct (object_members _ _ _) as [[ms rest]|] eqn:Hms; [|done].
      apply object_members_shrinks in Hms; [|done]. cbn [bind]. intros [= <- <-].
      cbn [length] in *. lia. }
  all: destruct (c =? 91)%N; [try done|].
  2:{ pose proof (skip_ws_length s). destruct (skip_ws s) as [|c1 r1]; [done|].
      cbn [length] in *. destruct (c1 =? 93)%N; [intros [= <- <-]; lia|].
      destruct (array_items _ _ _) as [[vs rest]|] eqn:Hvs; [|done].
      apply array_items_shrinks in Hvs; [|done]. cbn [bind]. intros [= <- <-].
      cbn [length] in *. lia. }
  all: match goal with
       | |- match ?named with _ => _ end = _ -> _ =>
           destruct named as [[found rest]|] eqn:Hnamed
       end.
  all: try (intros Hnum; by apply match_number_shrinks in Hnum).
  all: intros [= <- <-].
  all: repeat match type of Hnamed with
              | (if ?b then _ else _) = _ => destruct b
              end; try done.
  all: by eapply constant_shrinks in Hnamed.
Qed.

(** ** Settings codec *)

(** Turns the literals of the goal into their code points. *)
Ltac norm_literals :=
  repeat match goal with
         | |- context [py ?s] =>
             let v := eval vm_compute in (py s) in change (py s) with v
         | |- context [pyq ?s] =>
             let v := eval vm_compute in (pyq s) in change (pyq s) with v
         end.

Section SettingsCodec.
Context {python : Cpython}.

Lemma json_dumps_settings colors animation public :
  json_dumps (settings_to_save colors animation public)
  = pyq "{'colors': '"
      ++ concat (map escape_char colors)
      ++ 34%N :: pyq ", 'animation': " ++ bool_word animation
      ++ pyq ", 'public': " ++ bool_word public ++ [125%N].
Proof.
  destruct animation, public; cbn [json_dumps settings_to_save map join bool_word];
    norm_literals;
    repeat match goal with
           | |- context [encode_basestring_ascii (?c :: ?l)] =>
               let v := eval vm_compute in (encode_basestring_ascii (c :: l)) in
               change (encode_basestring_ascii (c :: l)) with v
           end;
    unfold encode_basestring_ascii; cbn [app]; rewrite <- !app_assoc; reflexivity.
Qed.

Lemma object_members_unfold n value s :
  object_members (S n) value s
  = match s with
    | [] => Raise ValueError
    | c :: r =>
        if negb (c =? 34)%N then Raise ValueError
        else
          let! (key, r1) := scanstring r in
          match skip_ws r1 with
          | [] => Raise ValueError
          | c2 :: r2 =>
              if negb (c2 =? 58)%N then Raise ValueError
              else
                let! (v, r3) := value (skip_ws r2) in
                match skip_ws r3 with
                | [] => Raise ValueError
                | c4 :: r4 =>
                    if (c4 =? 125)%N then Ok ([(key, v)], r4)
                    else if (c4 =? 44)%N then
                      let! (ms, r5) := object_members n value (skip_ws r4) in
                      Ok ((key, v) :: ms, r5)
                    else Raise ValueError
                end
          end
    end.
Proof. reflexivity. Qed.

Lemma json_loads_settings colors animation public :
  well_formed colors = true ->
  (1 <= recursion_limit)%nat ->
  json_loads (json_dumps (settings_to_save colors animation public))
  = Ok (settings_to_save colors animation public).
Proof.
  intros Hcolors Hdepth. rewrite json_dumps_settings.
  unfold json_loads. destruct recursion_limit as [|depth]; [lia|].
  destruct animation, public; unfold bool_word; norm_literals.
  all: cbn -[escape_char scan_once object_members].
  all: cbn [scan_once]; cbn -[escape_char scan_once object_members].
  all: rewrite object_members_unfold; cbn -[escape_char scan_once object_members].
  all: rewrite scan_once_string, scanstring_escaped by done.
  all: cbn -[escape_char scan_once object_members].
  all: rewrite object_members_unfold; cbn -[escape_char scan_once object_members].
  all: rewrite ?scan_once_true, ?scan_once_false.
  all: cbn -[escape_char scan_once object_members].
  all: rewrite object_members_unfold; cbn -[escape_char scan_once object_members].
  all: rewrite ?scan_once_true, ?scan_once_false.
  all: reflexivity.
Qed.

Lemma load_artwork_settings_total settings_data :
  exists obj, load_artwork_settings settings_data = Ok obj.
Proof.
  unfold load_artwork_settings.
  destruct (truthy settings_data); cbn; [|by eexists].
  destruct settings_data; try (by eexists);
    (destruct (catch _ _); by eexists).
Qed.

Lemma load_artwork_settings_saved colors animation public :
  well_formed colors = true ->
  (1 <= recursion_limit)%nat ->
  load_artwork_settings (JStr (json_dumps (settings_to_save colors animation public)))
  = Ok (settings_to_save colors animation public).
Proof.
  intros Hcolors Hdepth. unfold load_artwork_settings, loads_value.
  rewrite json_loads_settings by done.
  rewrite json_dumps_settings. norm_literals. reflexivity.
Qed.

End SettingsCodec.




(** ** Rows *)

Lemma create_artwork_record_inserts now owner_id title data price is_private signature
    settings_data created_at d id d' :
  create_artwork_record now owner_id title data price is_private signature settings_data
                        created_at d = Ok (id, d') ->
  exists title_v,
    sqlite_bind title = Ok title_v /\ title_v <> SqlNull
    /\ in_int64 price = true
    /\ id = next_artwork_id d
    /\ artworks d'
       = <[id := Artwork title_v data price owner_id is_private signature
                         (match created_at with Some ts => ts | None => now end)]>
           (artworks d)
    /\ users d' = users d /\ transactions d' = transactions d.
Proof.
  unfold create_artwork_record, bind_text, bind_int, not_null. intros Hrun.
  destruct (sqlite_bind title) as [title_v|]; [|done]. cbn in Hrun.
  repeat (case_match; cbn in Hrun; try done).
  all: simplify_eq; eexists; split_and!; done.
Qed.

Lemma update_artwork_alters artwork_id title data price is_private signature d ok d' :
  update_artwork artwork_id title data price is_private signature d = Ok (ok, d') ->
  d' = d
  \/ exists title_v,
       in_int64 price = true
       /\ artworks d'
          = alter (with_fields title_v data price is_private signature) artwork_id (artworks d).
Proof.
  unfold update_artwork, bind_text, bind_int, not_null. intros Hrun.
  destruct (sqlite_bind title) as [title_v|]; [|done]. cbn in Hrun.
  repeat (case_match; cbn in Hrun; try done).
  all: simplify_eq; (by left) || (right; eexists; split; done).
Qed.

(** ** Prices read from text *)

Section Prices.
Context {python : Cpython}.

Lemma int_digits_nonneg s : forall prev_digit acc p,
  0 <= acc -> int_digits prev_digit acc s = Ok p -> 0 <= p.
Proof.
  induction s as [|c s IH]; intros prev_digit acc p Hacc Hrun; cbn in Hrun.
  - destruct prev_digit; by simplify_eq.
  - destruct (c =? 95)%N.
    + destruct prev_digit; [eauto|done].
    + destruct (todecimal c) as [dv|]; [|done]. eapply IH; [|done]. lia.
Qed.

Lemma elem_of_rev (c : N) l : c ∈ rev l <-> c ∈ l.
Proof. rewrite !list_elem_of_In. symmetry. apply in_rev. Qed.

Lemma elem_of_int_lstrip c s : c ∈ int_lstrip s -> c ∈ s.
Proof.
  induction s as [|x s IH]; cbn; [done|].
  destruct (int_space x); [|done]. intros Hc. right. by apply IH.
Qed.

Lemma int_of_str_nonneg s p : 45%N ∉ s -> int_of_str s = Ok p -> 0 <= p.
Proof.
  intros Hminus. unfold int_of_str.
  destruct (rev (int_lstrip (rev (int_lstrip s)))) as [|c r] eqn:Hbody; [done|].
  assert (Hc : c ∈ s).
  { apply elem_of_int_lstrip, elem_of_rev, elem_of_int_lstrip, elem_of_rev.
    rewrite Hbody. left. }
  destruct (N.eqb_spec c 45) as [->|_]; [done|].
  unfold int_literal.
  destruct (c =? 43)%N; destruct (_ <? _)%nat; try done; by apply int_digits_nonneg.
Qed.

Lemma isdigit_no_minus s : isdigit s = true -> 45%N ∉ s.
Proof.
  intros Hs Hin. destruct s as [|c s]; [done|]. unfold isdigit in Hs.
  rewrite forallb_forall in Hs. apply list_elem_of_In, Hs in Hin. done.
Qed.

Lemma repr_int_isdigit n : isdigit (repr_int n) = true -> 0 <= n.
Proof.
  destruct n as [|q|q]; [lia|lia|]. intros Hd. apply isdigit_no_minus in Hd.
  exfalso. apply Hd. left.
Qed.

(** An imported price is never negative. *)
Lemma import_price_nonneg v p : import_price v = Ok p -> 0 <= p.
Proof.
  unfold import_price. destruct (str_isdigit v) eqn:Hd; [|intros [= <-]; lia].
  destruct v; cbn in Hd |- *; try done.
  - intros [= <-]. by apply repr_int_isdigit.
  - apply int_of_str_nonneg. by apply isdigit_no_minus.
Qed.

Lemma import_price_default v : str_isdigit v = false -> import_price v = Ok 100.
Proof. unfold import_price. by intros ->. Qed.

Lemma int_digits_ascii s : forall acc,
  forallb is_ascii_digit s = true ->
  int_digits true acc s = Ok (fold_left (fun a c => a * 10 + (Z.of_N c - 48)) s acc).
Proof.
  induction s as [|c s IH]; intros acc Hs; [done|].
  cbn in Hs. apply andb_true_iff in Hs as [Hc Hs]. cbn.
  unfold todecimal. unfold is_ascii_digit in Hc |- *.
  apply andb_true_iff in Hc as [Hlo Hhi]. apply N.leb_le in Hlo, Hhi.
  replace (c =? 95)%N with false by (symmetry; apply N.eqb_neq; lia).
  replace (c <? 128)%N with true by (symmetry; apply N.ltb_lt; lia).
  replace ((48 <=? c) && (c <=? 57))%N with true
    by (symmetry; apply andb_true_iff; split; apply N.leb_le; lia).
  rewrite IH by done. do 2 f_equal. lia.
Qed.

Lemma int_lstrip_digits s : forallb is_ascii_digit s = true -> int_lstrip s = s.
Proof.
  destruct s as [|c s]; [done|]. cbn. intros Hs.
  apply andb_true_iff in Hs as [Hc _]. unfold is_ascii_digit in Hc.
  apply andb_true_iff in Hc as [Hlo Hhi]. apply N.leb_le in Hlo, Hhi.
  unfold int_space.
  replace (c <=? 127)%N with true by (symmetry; apply N.leb_le; lia).
  replace ((c =? 32) || (9 <=? c) && (c <=? 13))%N with false; [done|].
  symmetry. apply orb_false_iff. split; [apply N.eqb_neq; lia|].
  apply andb_false_iff. right. apply N.leb_gt. lia.
Qed.

Lemma digit_count_digits s : forallb is_ascii_digit s = true -> digit_count s = length s.
Proof.
  unfold digit_count, pystr. induction s as [|c s IH]; [done|]. intros Hs.
  change (is_ascii_digit c && forallb is_ascii_digit s = true) in Hs.
  apply andb_true_iff in Hs as [Hc Hs]. rewrite filter_cons_True.
  - cbn [length]. by rewrite IH.
  - unfold is_ascii_digit in Hc. apply andb_true_iff in Hc as [_ Hhi%N.leb_le]. lia.
Qed.

(** [int] reads a string of ASCII digits as its decimal value, or refuses
    it for the number of its digits. *)
Lemma int_of_str_ascii_digits s :
  s <> [] -> forallb is_ascii_digit s = true ->
  int_of_str s
  = if (INT_MAX_STR_DIGITS <? length s)%nat then Raise ValueError else Ok (digits_value s).
Proof.
  intros Hne Hs. unfold int_of_str.
  rewrite (int_lstrip_digits s) by done.
  rewrite (int_lstrip_digits (rev s)).
  2:{ apply forallb_forall. intros c Hc. apply in_rev in Hc.
      rewrite forallb_forall in Hs. by apply Hs. }
  rewrite rev_involutive. destruct s as [|c s]; [done|].
  pose proof Hs as Hall. cbn in Hs. apply andb_true_iff in Hs as [Hc Hs].
  unfold is_ascii_digit in Hc. apply andb_true_iff in Hc as [Hlo Hhi].
  apply N.leb_le in Hlo, Hhi.
  replace (c =? 45)%N with false by (symmetry; apply N.eqb_neq; lia).
  replace (c =? 43)%N with false by (symmetry; apply N.eqb_neq; lia).
  unfold int_literal. rewrite digit_count_digits by done.
  destruct (INT_MAX_STR_DIGITS <? length (c :: s))%nat; [done|].
  cbn [int_digits].
  replace (c =? 95)%N with false by (symmetry; apply N.eqb_neq; lia).
  unfold todecimal, is_ascii_digit.
  replace (c <? 128)%N with true by (symmetry; apply N.ltb_lt; lia).
  replace ((48 <=? c) && (c <=? 57))%N with true
    by (symmetry; apply andb_true_iff; split; apply N.leb_le; lia).
  rewrite int_digits_ascii by done. unfold digits_value. cbn. do 2 f_equal. lia.
Qed.

Lemma isdigit_ascii_digits s :
  s <> [] -> forallb is_ascii_digit s = true -> isdigit s = true.
Proof.
  intros Hne Hs. destruct s as [|c s]; [done|]. unfold isdigit.
  apply forallb_forall. intros x Hx. rewrite forallb_forall in Hs.
  specialize (Hs x Hx). unfold isdigit_char. 
  replace (x <? 128)%N with true; [done|].
  unfold is_ascii_digit in Hs. apply andb_true_iff in Hs as [_ Hhi].
  apply N.leb_le in Hhi. symmetry. apply N.ltb_lt. lia.
Qed.

Lemma uint_digits_ascii_digits u : forallb is_ascii_digit (uint_digits u) = true.
Proof. induction u; cbn; done. Qed.

(** The price of an import whose [price] is an integer that is not
    negative. *)
Lemma import_price_int n : 0 <= n -> import_price (JInt n) = Ok n.
Proof.
  intros Hn. unfold import_price. cbn [str_isdigit py_int].
  rewrite isdigit_ascii_digits; [done| |].
  - destruct n as [|q|q]; [done| |lia]. cbn.
    pose proof (Unsigned.to_uint_nonnil q). by destruct (Pos.to_uint q).
  - destruct n as [|q|q]; [done| |lia]. apply uint_digits_ascii_digits.
Qed.

(** The price of an import whose [price] is a string of ASCII digits. *)
Lemma import_price_ascii_digits s :
  s <> [] -> forallb is_ascii_digit s = true ->
  import_price (JStr s)
  = if (INT_MAX_STR_DIGITS <? length s)%nat then Raise ValueError else Ok (digits_value s).
Proof.
  intros Hne Hs. unfold import_price. cbn.
  rewrite isdigit_ascii_digits by done. by apply int_of_str_ascii_digits.
Qed.
End Prices.
(** ** [json.dumps] writes ASCII *)

Lemma json_ind' (P : json -> Prop) :
  P JNull -> (forall b, P (JBool b)) -> (forall n, P (JInt n)) ->
  (forall lexeme, P (JFloat lexeme)) -> (forall s, P (JStr s)) ->
  (forall items, Forall P items -> P (JArr items)) ->
  (forall members, Forall (fun kv => P kv.2) members -> P (JObj members)) ->
  forall v, P v.
Proof.
  intros Hnull Hbool Hint Hfloat Hstr Harr Hobj. fix IH 1.
  intros [ | b | n | lexeme | s | items | members].
  - exact Hnull.
  - apply Hbool.
  - apply Hint.
  - apply Hfloat.
  - apply Hstr.
  - apply Harr. induction items as [|x items IHitems]; constructor.
    + apply IH.
    + exact IHitems.
  - apply Hobj. induction members as [|[k x] members IHmembers]; constructor.
    + apply IH.
    + exact IHmembers.
Qed.

Lemma is_ascii_app a b : is_ascii (a ++ b) = is_ascii a && is_ascii b.
Proof. apply forallb_app. Qed.

Lemma hexdigit_ascii d : (d < 16)%N -> (hexdigit d <? 128)%N = true.
Proof. intros Hd. apply N.ltb_lt. unfold hexdigit. destruct (d <? 10)%N; lia. Qed.

Lemma u_escape_ascii n : is_ascii (u_escape n) = true.
Proof.
  unfold u_escape, hex4_digits, is_ascii. cbn [forallb].
  rewrite !hexdigit_ascii by (apply N.mod_lt; lia). reflexivity.
Qed.

Lemma escape_char_ascii c : is_ascii (escape_char c) = true.
Proof.
  unfold escape_char.
  repeat (match goal with |- context [(c =? ?k)%N] => destruct (c =? k)%N end;
          [reflexivity|]).
  destruct ((32 <=? c) && (c <=? 126))%N eqn:Hprint.
  - apply andb_true_iff in Hprint as [_ Hhi]. apply N.leb_le in Hhi.
    cbn. rewrite andb_true_r. apply N.ltb_lt. lia.
  - destruct (c <? 65536)%N; [apply u_escape_ascii|].
    cbv zeta. by rewrite is_ascii_app, !u_escape_ascii.
Qed.

Lemma encode_basestring_ascii_is_ascii s : is_ascii (encode_basestring_ascii s) = true.
Proof.
  unfold encode_basestring_ascii. change (34%N :: ?l) with ([34%N] ++ l).
  rewrite !is_ascii_app. cbn [is_ascii forallb]. rewrite andb_true_r. cbn [andb N.ltb].
  induction s as [|c s IH]; [reflexivity|].
  cbn [map concat]. by rewrite is_ascii_app, escape_char_ascii.
Qed.

Lemma repr_int_ascii n : is_ascii (repr_int n) = true.
Proof.
  assert (Hu : forall u, is_ascii (uint_digits u) = true).
  { induction u; cbn; done. }
  destruct n; cbn; [done|apply Hu|]. by rewrite Hu.
Qed.

Lemma join_ascii sep parts :
  is_ascii sep = true -> Forall (fun x => is_ascii x = true) parts ->
  is_ascii (join sep parts) = true.
Proof.
  intros Hsep Hparts. induction Hparts as [|x parts Hx Hparts IH]; [done|].
  cbn [join]. destruct parts as [|y parts]; [done|].
  by rewrite !is_ascii_app, Hx, Hsep, IH.
Qed.

Lemma is_ascii_bind_text s : is_ascii s = true -> bind_text s = Ok s.
Proof.
  intros Hs. unfold bind_text.
  replace (forallb _ s) with true; [done|]. symmetry.
  apply forallb_forall. intros c Hc. unfold is_ascii in Hs.
  rewrite forallb_forall in Hs. specialize (Hs c Hc). apply N.ltb_lt in Hs.
  unfold is_surrogate. apply negb_true_iff, andb_false_iff. left. apply N.leb_gt. lia.
Qed.

Section DumpsAscii.
Context {python : Cpython}.

(** The text of a float is ASCII. *)
Hypothesis float_repr_ascii : forall lexeme, is_ascii (float_repr lexeme) = true.

Lemma json_dumps_ascii v : is_ascii (json_dumps v) = true.
Proof.
  induction v as [ | [|] | n | lexeme | s | items IH | members IH ] using json_ind';
    cbn [json_dumps]; try done.
  - apply repr_int_ascii.
  - apply encode_basestring_ascii_is_ascii.
  - change (91%N :: ?l) with ([91%N] ++ l). rewrite !is_ascii_app.
    rewrite join_ascii; [done|done|]. by apply Forall_fmap.
  - change (123%N :: ?l) with ([123%N] ++ l). rewrite !is_ascii_app.
    rewrite join_ascii; [done|done|]. apply Forall_fmap.
    eapply Forall_impl; [exact IH|]. intros [k x] Hx. cbn [snd] in Hx. unfold compose. cbv beta iota.
    by rewrite !is_ascii_app, encode_basestring_ascii_is_ascii, Hx.
Qed.
End DumpsAscii.

(** ** Settings form *)

Section SettingsForm.
Context {python : Cpython}.

Lemma json_dumps_settings_ascii colors animation public :
  is_ascii (json_dumps (settings_to_save colors animation public)) = true.
Proof.
  rewrite json_dumps_settings. change (34%N :: ?l) with ([34%N] ++ l).
  rewrite !is_ascii_app.
  assert (Hesc : is_ascii (concat (map escape_char colors)) = true).
  { induction colors as [|c s IH]; [done|].
    cbn [map concat]. by rewrite is_ascii_app, escape_char_ascii. }
  rewrite Hesc. by destruct animation, public.
Qed.

Lemma get_artwork_settings_saved now artwork_id text d ok d' :
  save_artwork_settings now artwork_id text d = Ok (ok, d') ->
  get_artwork_settings artwork_id d' = Some text
  /\ users d' = users d /\ artworks d' = artworks d.
Proof.
  unfold save_artwork_settings, bind_text.
  destruct (forallb _ text); [|done]. cbn [bind]. intros [= <- <-].
  split; [|done]. unfold get_artwork_settings. cbn.
  set (kept := filter _ (settings_rows d)).
  assert (Hkept : Forall (fun r => s_artwork_id r <> artwork_id) kept).
  { apply Forall_forall. intros r Hr. by apply list_elem_of_filter in Hr as [Hr _]. }
  clearbody kept. induction Hkept as [|r kept Hr Hkept IH]; cbn.
  - by rewrite decide_True.
  - rewrite decide_False by done.
    destruct (list_find _ (kept ++ _)) as [[i r']|]; [|done]. cbn in *. done.
Qed.

(** X13.  What the settings form saves is what the settings page then shows. *)
Lemma artwork_settings_round_trip now now' sess saved shown artwork_id d art owner uid :
  logged_in sess d = true ->
  fetch_artwork_by_id artwork_id d = Some (art, owner) ->
  sess_user_id sess = Some uid ->
  a_owner_id art = uid ->
  method saved = POST ->
  method shown = GET ->
  well_formed (field "colors" [] saved) = true ->
  (1 <= recursion_limit)%nat ->
  exists d',
    artwork_settings now sess saved artwork_id d = Ok (Redirect "index", d')
    /\ artwork_settings now' sess shown artwork_id d'
       = Ok (Render (Page "settings.html" None None None None None
                          (Some (settings_to_save (field "colors" [] saved)
                                   (negb (checkbox "animation" saved =? 0))
                                   (negb (checkbox "public" saved =? 0))))), d').
Proof.
  intros Hin Hart Huid Howner Hpost Hget Hcolors Hdepth.
  set (to_save := settings_to_save (field "colors" [] saved)
                    (negb (checkbox "animation" saved =? 0))
                    (negb (checkbox "public" saved =? 0))).
  destruct (save_artwork_settings now artwork_id (json_dumps to_save) d)
    as [[ok d']|] eqn:Hsave.
  2:{ unfold save_artwork_settings in Hsave.
      rewrite is_ascii_bind_text in Hsave by apply json_dumps_settings_ascii. done. }
  pose proof (get_artwork_settings_saved _ _ _ _ _ _ Hsave) as (Hsaved & Husers & Harts).
  exists d'. split.
  - unfold artwork_settings, session_user_id. rewrite Hin, Hart, Huid, Hpost. cbn [negb bind].
    rewrite Howner, Z.eqb_refl. cbn [negb].
    assert (Hload : exists obj,
               match get_artwork_settings artwork_id d with
               | None | Some [] => Ok (JObj [])
               | Some raw => load_artwork_settings (JStr raw)
               end = Ok obj).
    { destruct (get_artwork_settings artwork_id d) as [[|c raw]|]; try (by eexists).
      apply load_artwork_settings_total. }
    destruct Hload as [obj ->]. cbn [bind]. fold to_save. by rewrite Hsave.
  - assert (Hin' : logged_in sess d' = true).
    { unfold logged_in, user_exists, select_user_by_name in *. by rewrite Husers. }
    assert (Hart' : fetch_artwork_by_id artwork_id d' = Some (art, owner)).
    { unfold fetch_artwork_by_id in *. by rewrite Harts, Husers. }
    unfold artwork_settings, session_user_id. rewrite Hin', Hart', Huid, Hget. cbn [negb bind].
    rewrite Howner, Z.eqb_refl, Hsaved. cbn [negb].
    destruct (json_dumps to_save) as [|c raw] eqn:Htext.
    { subst to_save. by rewrite json_dumps_settings in Htext. }
    rewrite <- Htext. subst to_save. by rewrite load_artwork_settings_saved.
Qed.
End SettingsForm.

(** ** Import *)

Section ImportHandler.
Context {python : Cpython} {urllib : Urllib} {ipaddress : Ipaddress}
        {socket : Socket} {requests : Requests}.

(** The text of a float is ASCII. *)
Hypothesis float_repr_ascii : forall lexeme, is_ascii (float_repr lexeme) = true.

(** The request that reaches [requests.get]. *)
Lemma import_artwork_fetches now sess req d uid :
  logged_in sess d = true ->
  sess_user_id sess = Some uid ->
  method req = POST ->
  field "artwork_url" [] req <> [] ->
  fst (is_safe_url 0 (field "artwork_url" [] req)) = true ->
  import_artwork now sess req d
  = Ok (catch (import_fetch now uid (field "artwork_url" [] req) d)
              (fun e => (import_page None (Some (RequestError e)) None None, d))).
Proof.
  intros Hin Huid Hpost Hurl Hsafe. unfold import_artwork, session_user_id.
  rewrite Hin, Huid, Hpost, Hsafe. cbn.
  destruct (field "artwork_url" [] req); done.
Qed.

(** C4.  A response with a status from 300 to 399 is never followed and
    never read: whether the Location header is missing, empty, unsafe or
    safe, the import ends with an error, shows no content and leaves the
    store as it was. *)
Theorem import_artwork_redirect now sess req d uid resp :
  logged_in sess d = true ->
  sess_user_id sess = Some uid ->
  method req = POST ->
  field "artwork_url" [] req <> [] ->
  fst (is_safe_url 0 (field "artwork_url" [] req)) = true ->
  requests_get (field "artwork_url" [] req) = Ok resp ->
  300 <= status_code resp < 400 ->
  exists m,
    import_artwork now sess req d = Ok (import_page None (Some m) None None, d)
    /\ match location resp with
       | None | Some [] => m = BadRedirect
       | Some loc =>
           match urljoin (field "artwork_url" [] req) loc with
           | Raise e => m = RequestError e
           | Ok next_url =>
               m = if fst (is_safe_url 1 next_url) then RedirectsForbidden
                   else UnsafeRedirect
           end
       end.
Proof.
  intros Hin Huid Hpost Hurl Hsafe Hget [Hlo Hhi].
  rewrite (import_artwork_fetches now sess req d uid) by done.
  unfold import_fetch. rewrite Hget. cbn.
  apply Z.leb_le in Hlo. apply Z.ltb_lt in Hhi. rewrite Hlo, Hhi. cbn.
  destruct (location resp) as [[|c loc]|]; cbn; [by eexists| |by eexists].
  destruct (urljoin _ _) as [next_url|e]; cbn; [|by eexists].
  destruct (fst (is_safe_url 1 next_url)); cbn; by eexists.
Qed.

(** C5, as the code has it.  After a response 200 from a safe final URL
    the page shows the body cut at 10000 characters, while the import reads
    the whole body: what is stored is what [import_body] makes of the
    response as it came. *)
Theorem import_artwork_preview now sess req d uid resp :
  logged_in sess d = true ->
  sess_user_id sess = Some uid ->
  method req = POST ->
  field "artwork_url" [] req <> [] ->
  fst (is_safe_url 0 (field "artwork_url" [] req)) = true ->
  requests_get (field "artwork_url" [] req) = Ok resp ->
  status_code resp = 200 ->
  fst (is_safe_url 1 (resp_url resp)) = true ->
  exists preview,
    import_artwork now sess req d
    = Ok (import_page (Some preview) (import_body now uid resp d).1.1
                      (import_body now uid resp d).1.2 (Some (resp_url resp)),
          (import_body now uid resp d).2)
    /\ preview = take PREVIEW_LEN (text resp)
    /\ Z.of_nat (length preview) <= 10000
    /\ preview `prefix_of` text resp.
Proof.
  intros Hin Huid Hpost Hurl Hsafe Hget Hstatus Hfinal.
  rewrite (import_artwork_fetches now sess req d uid) by done.
  unfold import_fetch. rewrite Hget. cbn. rewrite Hstatus, Hfinal. cbn.
  destruct (import_body now uid resp d) as [[err ok] d'] eqn:Hbody. cbn.
  eexists. split_and!; [done|done| |].
  - rewrite length_take. unfold PREVIEW_LEN. lia.
  - apply prefix_take.
Qed.

Lemma import_body_store now uid resp d :
  (import_body now uid resp d).2 = d
  \/ exists id title data p,
       0 <= p
       /\ create_artwork_record now uid title data p 0 (py "imported") None None d
          = Ok (id, (import_body now uid resp d).2).
Proof.
  unfold import_body.
  destruct (json_loads (text resp)) as [data|]; cbn [bind catch snd]; [|by left].
  destruct data as [ | | | | | |members]; cbn [bind catch snd]; try (by left).
  destruct (dict_get (py "shapes") members) as [shapes|]; cbn [bind catch snd]; [|by left].
  destruct (import_price _) as [p|] eqn:Hprice; cbn [bind catch snd]; [|by left].
  destruct (create_artwork_record _ _ _ _ _ _ _ _ _ _) as [[id d']|] eqn:Hrec;
    cbn [bind catch snd]; [|by left].
  right. exists id. do 2 eexists. exists p. split; [|done].
  by apply import_price_nonneg in Hprice.
Qed.

(** C7, as the code has it.  When the body is a JSON object with the key
    shapes, the title (or the default title) is a value that the title
    column takes, the price read from the object fits 64 bits and so does
    the user's id, the import stores one artwork: with that title, the
    shapes as [json.dumps] writes them, that price, the user as owner,
    public, and the signature [imported].  The price is 100 when the object
    has none or one whose text is not made of digits, the decimal value of
    a string of ASCII digits, the integer itself when it is one that is not
    negative, and never negative.  The titles that the column takes are
    the strings without surrogates, the integers of 64 bits, the booleans
    and the floats other than NaN, which the driver binds as NULL. *)
Theorem import_body_creates now uid resp d members shapes title_v p :
  json_loads (text resp) = Ok (JObj members) ->
  dict_get (py "shapes") members = Some shapes ->
  sqlite_bind (default (JStr default_title) (dict_get (py "title") members)) = Ok title_v ->
  title_v <> SqlNull ->
  import_price (default (JInt 100) (dict_get (py "price") members)) = Ok p ->
  in_int64 p = true ->
  in_int64 uid = true ->
  exists d',
    import_body now uid resp d = ((None, Some (Imported (next_artwork_id d))), d')
    /\ artworks d'
       = <[next_artwork_id d :=
             Artwork title_v (json_dumps shapes) p uid 0 (py "imported") now]> (artworks d)
    /\ 0 <= p
    /\ (dict_get (py "price") members = None -> p = 100)
    /\ (forall v, dict_get (py "price") members = Some v -> str_isdigit v = false -> p = 100)
    /\ (forall s, dict_get (py "price") members = Some (JStr s) ->
          s <> [] -> forallb is_ascii_digit s = true -> p = digits_value s)
    /\ (forall n, dict_get (py "price") members = Some (JInt n) -> 0 <= n -> p = n)
    /\ match default (JStr default_title) (dict_get (py "title") members) with
       | JStr s => title_v = SqlText s /\ forallb (fun c => negb (is_surrogate c)) s = true
       | JInt n => title_v = SqlInt n /\ in_int64 n = true
       | JBool b => title_v = SqlInt (if b then 1 else 0)
       | JFloat lexeme => title_v = SqlReal lexeme /\ lexeme <> py "NaN"
       | JNull | JArr _ | JObj _ => False
       end.
Proof.
  intros Hloads Hshapes Htitle Hnull Hprice Hp Huid.
  assert (Hrun : import_body now uid resp d
                 = ((None, Some (Imported (next_artwork_id d))),
                    Database (users d)
                      (<[next_artwork_id d :=
                           Artwork title_v (json_dumps shapes) p uid 0 (py "imported") now]>
                         (artworks d))
                      (transactions d) (settings_rows d) (next_user_id d)
                      (next_artwork_id d + 1))).
  { unfold import_body. rewrite Hloads. cbn [bind catch]. rewrite Hshapes.
    change (match dict_get (py "title") members with
            | Some v => v | None => JStr default_title end)
      with (default (JStr default_title) (dict_get (py "title") members)).
    change (match dict_get (py "price") members with
            | Some v => v | None => JInt 100 end)
      with (default (JInt 100) (dict_get (py "price") members)).
    rewrite Hprice. cbn [bind].
    unfold create_artwork_record, bind_int, not_null.
    rewrite Htitle, Hp, Huid. cbn [bind].
    rewrite (is_ascii_bind_text (json_dumps shapes)) by by apply json_dumps_ascii.
    rewrite (is_ascii_bind_text (py "imported")) by done.
    change (in_int64 0) with true. cbn [bind].
    by destruct title_v. }
  eexists. split_and!; [exact Hrun|done|by eapply import_price_nonneg| | | | |].
  - intros Hnone. rewrite Hnone in Hprice. cbn in Hprice. by simplify_eq.
  - intros v Hv Hd. rewrite Hv in Hprice.
    change (default (JInt 100) (Some v)) with v in Hprice.
    rewrite import_price_default in Hprice by done. by simplify_eq.
  - intros s Hs Hne Hdigits. rewrite Hs in Hprice.
    change (default (JInt 100) (Some (JStr s))) with (JStr s) in Hprice.
    rewrite import_price_ascii_digits in Hprice by done.
    destruct (_ <? _)%nat; by simplify_eq.
  - intros n Hn Hpos. rewrite Hn in Hprice.
    change (default (JInt 100) (Some (JInt n))) with (JInt n) in Hprice.
    rewrite import_price_int in Hprice by done. by simplify_eq.
  - clear Hrun. unfold sqlite_bind in Htitle.
    destruct (default (JStr default_title) (dict_get (py "title") members))
      as [ | b | n | lexeme | t | items | fields ]; try by simplify_eq.
    + destruct (in_int64 n); by simplify_eq.
    + unfold pystr_eqb in Htitle.
      destruct (bool_decide_reflect (lexeme = py "NaN")); by simplify_eq.
    + destruct (forallb _ t); by simplify_eq.
Qed.
End ImportHandler.
Section StoredPrices.
Context {python : Cpython} {urllib : Urllib} {ipaddress : Ipaddress}
        {socket : Socket} {requests : Requests}.

Lemma import_fetch_store now uid url d r d' :
  import_fetch now uid url d = Ok (r, d') ->
  d' = d \/ exists resp, d' = (import_body now uid resp d).2.
Proof.
  unfold import_fetch. intros Hrun.
  destruct (requests_get url) as [resp|]; [|done]. cbn [bind] in Hrun.
  destruct ((300 <=? status_code resp) && (status_code resp <? 400)).
  { destruct (location resp) as [[|c loc]|]; simplify_eq; try (by left).
    destruct (urljoin url (c :: loc)); [|done]. cbn [bind] in Hrun.
    destruct (negb _); simplify_eq; by left. }
  destruct (negb (status_code resp =? 200)); [simplify_eq; by left|].
  destruct (negb _); [simplify_eq; by left|].
  destruct (import_body now uid resp d) as [[err ok] d0] eqn:Hbody. simplify_eq.
  right. exists resp. by rewrite Hbody.
Qed.

Lemma import_artwork_store now sess req d r d' :
  import_artwork now sess req d = Ok (r, d') ->
  d' = d \/ exists uid resp, d' = (import_body now uid resp d).2.
Proof.
  unfold import_artwork. intros Hrun.
  destruct (negb (logged_in sess d)); [simplify_eq; by left|].
  destruct (session_user_id sess) as [uid|]; [|done]. cbn [bind] in Hrun.
  destruct (method req); [simplify_eq; by left|].
  destruct (field "artwork_url" [] req) as [|c url]; [simplify_eq; by left|].
  destruct (negb _); [simplify_eq; by left|].
  destruct (import_fetch now uid (c :: url) d) as [[r0 d0]|e] eqn:Hfetch;
    cbn [catch] in Hrun; simplify_eq; [|by left].
  apply import_fetch_store in Hfetch as [->|[resp ->]]; [by left|].
  right. by exists uid, resp.
Qed.

(** X31.  An import never stores a negative price: it keeps the store free
    of them.  The price of an import is that of a text of digits, or 100. *)
Theorem import_artwork_prices_nonneg now sess req d r d' :
  prices_nonneg d ->
  import_artwork now sess req d = Ok (r, d') ->
  prices_nonneg d'.
Proof.
  intros Hd Hrun. apply import_artwork_store in Hrun as [->|(uid & resp & ->)]; [done|].
  destruct (import_body_store now uid resp d) as [->|(id & title & data & p & Hp & Hrec)];
    [done|].
  apply create_artwork_record_inserts in Hrec as (tv & _ & _ & _ & _ & Harts & _).
  intros aid a. rewrite Harts. intros Ha.
  apply lookup_insert_Some in Ha as [[_ <-]|[_ Ha]]; [done|by eapply Hd].
Qed.
End StoredPrices.
Section ImportExample.
#[local] Existing Instances sample_python sample_urllib sample_ipaddress sample_socket
  sample_requests.

Lemma sample_float_repr_ascii lexeme : is_ascii (float_repr lexeme) = true.
Proof. cbn. by destruct (is_ascii lexeme) eqn:Hl. Qed.

Lemma sample_db_prices_nonneg : prices_nonneg sample_db.
Proof.
  intros id a Ha. apply elem_of_map_to_list in Ha. vm_compute in Ha.
  apply elem_of_cons in Ha as [Ha|Ha]; [simplify_eq; cbn; lia|].
  apply elem_of_cons in Ha as [Ha|Ha]; [simplify_eq; cbn; lia|].
  by apply elem_of_nil in Ha.
Qed.

Lemma import_artwork_redirect_witness :
  import_artwork 7 bob_session (import_request "http://example.com/moved") sample_db
  = Ok (import_page None (Some RedirectsForbidden) None None, sample_db).
Proof.
  destruct (import_artwork_redirect 7 bob_session
              (import_request "http://example.com/moved") sample_db 2 moved_response)
    as (m & Hrun & Hm);
    [vm_compute; reflexivity | reflexivity | reflexivity | vm_compute; discriminate
    | vm_compute; reflexivity | vm_compute; reflexivity | cbn; lia | ].
  vm_compute in Hm. by rewrite Hm in Hrun.
Defined.

Lemma import_artwork_preview_witness :
  exists preview,
    import_artwork 7 bob_session (import_request "http://example.com/big.json") sample_db
    = Ok (import_page (Some preview) (import_body 7 2 big_response sample_db).1.1
                      (import_body 7 2 big_response sample_db).1.2
                      (Some (resp_url big_response)),
          (import_body 7 2 big_response sample_db).2)
    /\ preview = take PREVIEW_LEN (text big_response)
    /\ Z.of_nat (length preview) <= 10000
    /\ preview `prefix_of` text big_response.
Proof.
  apply (import_artwork_preview 7 bob_session
           (import_request "http://example.com/big.json") sample_db 2 big_response);
    try (vm_compute; reflexivity).
  vm_compute. discriminate.
Defined.

(** C5 as stated fails: the import reads the body as it came, not as the
    preview cuts it.  A body of 10013 characters whose cut is no JSON
    document is imported. *)
Lemma import_body_reads_whole_body :
  ~ (forall (python : Cpython) (now : timestamp) (uid : Z) (resp : http_response)
            (d : database),
       import_body now uid resp d = import_body now uid (truncated resp) d).
Proof.
  intros Hclaim. specialize (Hclaim sample_python 7 2 big_response sample_db).
  apply (f_equal (fun out => out.1.1)) in Hclaim. vm_compute in Hclaim. discriminate.
Qed.

Lemma import_body_creates_witness :
  exists d',
    import_body 7 2 art_response sample_db = ((None, Some (Imported 3)), d')
    /\ artworks d' !! 3
       = Some (Artwork (SqlText (py "T")) (pyq "[{'type': 'circle'}]") 50 2 0
                       (py "imported") 7).
Proof.
  destruct (import_body_creates sample_float_repr_ascii 7 2 art_response sample_db
              [(py "shapes", JArr [JObj [(py "type", JStr (py "circle"))]]);
               (py "title", JStr (py "T")); (py "price", JStr (py "50"))]
              (JArr [JObj [(py "type", JStr (py "circle"))]])
              (SqlText (py "T")) 50)
    as (d' & Hrun & Harts & _); try (vm_compute; reflexivity).
  - discriminate.
  - exists d'. split; [exact Hrun|]. rewrite Harts. vm_compute. reflexivity.
Defined.

(** C7 as stated fails: a body that is a JSON object with the key shapes
    and a null title is refused by the title column, and nothing is
    imported. *)
Lemma import_body_null_title :
  ~ (forall (python : Cpython) (now : timestamp) (uid : Z) (resp : http_response)
            (d : database) (members : list (pystr * json)) (shapes : json),
       in_int64 uid = true ->
       json_loads (text resp) = Ok (JObj members) ->
       dict_get (py "shapes") members = Some shapes ->
       exists id d', import_body now uid resp d = ((None, Some (Imported id)), d')).
Proof.
  intros Hclaim.
  destruct (Hclaim sample_python 7 2 untitled_response sample_db
              [(py "shapes", JArr []); (py "title", JNull)] (JArr []))
    as (id & d' & Hrun); try (vm_compute; reflexivity).
  apply (f_equal (fun out => out.1.1)) in Hrun. vm_compute in Hrun. discriminate.
Qed.

(** A price of digits that have no decimal value, such as a superscript
    two, passes [str.isdigit] and is then refused by [int]: the import ends
    with the message for a body that is not JSON. *)
Remark import_body_superscript_price :
  import_body 7 2 squared_response sample_db = ((Some NotJson, None), sample_db).
Proof. vm_compute. reflexivity. Qed.

Lemma import_artwork_prices_nonneg_witness :
  exists r d',
    import_artwork 7 bob_session (import_request "http://example.com/art.json") sample_db
    = Ok (r, d')
    /\ a_price <$> artworks d' !! 3 = Some 50
    /\ prices_nonneg d'.
Proof.
  destruct (import_artwork 7 bob_session (import_request "http://example.com/art.json")
              sample_db) as [[r d']|e] eqn:Hrun; [|vm_compute in Hrun; discriminate].
  exists r, d'. split_and!; [reflexivity| |].
  - vm_compute in Hrun. by injection Hrun as <- <-.
  - exact (import_artwork_prices_nonneg 7 bob_session
             (import_request "http://example.com/art.json") sample_db r d'
             sample_db_prices_nonneg Hrun).
Defined.

(** C9.  The form that creates an artwork and the form that edits one store
    a negative price as it is typed: the row holds the price -5.  The
    buyer of such an artwork is paid: the balance of the buyer rises by
    five, that of the seller falls by five. *)
Theorem negative_price_stored :
  exists d1 d2 d3,
    create_artwork 7 alice_session (create_request "-5") sample_db
    = Ok (Redirect "index", d1)
    /\ a_price <$> artworks d1 !! 3 = Some (-5)
    /\ edit_artwork alice_session (create_request "-5") 1 sample_db
       = Ok (Redirect "index", d2)
    /\ a_price <$> artworks d2 !! 1 = Some (-5)
    /\ a_price <$> artworks sample_db !! 1 = Some 250
    /\ purchase_artwork 9 2 3 d1 = Ok ((true, "Purchase successful"%string), d3)
    /\ get_user_balance 2 d3 = get_user_balance 2 d1 + 5
    /\ get_user_balance 1 d3 = get_user_balance 1 d1 - 5.
Proof.
  destruct (create_artwork 7 alice_session (create_request "-5") sample_db)
    as [[r1 d1]|e] eqn:Hcreate; [|vm_compute in Hcreate; discriminate].
  destruct (edit_artwork alice_session (create_request "-5") 1 sample_db)
    as [[r2 d2]|e] eqn:Hedit; [|vm_compute in Hedit; discriminate].
  vm_compute in Hcreate. injection Hcreate as <- <-.
  vm_compute in Hedit. injection Hedit as <- <-.
  do 3 eexists. split_and!; try (vm_compute; reflexivity).
Qed.

End ImportExample.

(** ** More of the ledger *)



Section LedgerMore.
Variables (now : timestamp) (buyer_id artwork_id : Z) (d : database).




(** X3.  While no price is negative a purchase takes no balance below zero. *)
Theorem purchase_artwork_balances_nonneg r d' :
  prices_nonneg d ->
  balances_nonneg d ->
  purchase_artwork now buyer_id artwork_id d = Ok (r, d') ->
  balances_nonneg d'.
Proof.
  intros Hprices Hbal Hrun. destruct r as [[|] msg].
  2:{ apply purchase_artwork_refused in Hrun. by subst. }
  destruct (purchase_artwork_bought _ _ _ _ _ _ Hrun)
    as (art & buyer & _ & _ & Hart & Hbuyer & Hself & Hfunds & _ & ->).
  pose proof (Hprices _ _ Hart) as Hprice.
  intros uid u. cbn [users]. intros Hu.
  destruct (decide (uid = a_owner_id art)) as [->|Hn1].
  - rewrite lookup_alter_eq, lookup_alter_ne in Hu by done.
    destruct (users d !! a_owner_id art) as [seller|] eqn:Hseller; [|done].
    cbn in Hu. simplify_eq. cbn. pose proof (Hbal _ _ Hseller). lia.
  - rewrite lookup_alter_ne in Hu by done.
    destruct (decide (uid = buyer_id)) as [->|Hn2].
    + rewrite lookup_alter_eq, Hbuyer in Hu. cbn in Hu. simplify_eq. cbn. lia.
    + rewrite lookup_alter_ne in Hu by done. by eapply Hbal.
Qed.
End LedgerMore.

(** ** Deleting and reselling *)

(** Premises of an example that hold by evaluation. *)
Ltac evaluated :=
  lazymatch goal with
  | |- _ = _ => vm_compute; reflexivity
  | |- _ <> _ => vm_compute; discriminate
  | |- (_ <= _)%Z => cbn; lia
  | |- (_ < _)%Z => cbn; lia
  | |- _ => idtac
  end.

(** X4.  [delete_artwork] removes an artwork for its owner and for nobody
    else: the call answers true exactly for the owner of a row that is
    there, and then that row, and no other row of any table, is gone.  The
    rows of [artwork_settings] and of [transactions] that name the artwork
    stay. *)
Theorem delete_artwork_owner_only artwork_id owner_id d :
  in_int64 artwork_id = true ->
  in_int64 owner_id = true ->
  exists ok d',
    delete_artwork artwork_id owner_id d = Ok (ok, d')
    /\ (ok = true <-> exists a, artworks d !! artwork_id = Some a /\ a_owner_id a = owner_id)
    /\ (ok = false -> d' = d)
    /\ (ok = true -> artworks d' !! artwork_id = None)
    /\ (forall aid, aid <> artwork_id -> artworks d' !! aid = artworks d !! aid)
    /\ users d' = users d
    /\ transactions d' = transactions d
    /\ settings_rows d' = settings_rows d
    /\ next_user_id d' = next_user_id d
    /\ next_artwork_id d' = next_artwork_id d.
Proof.
  intros Hid Howner. unfold delete_artwork, bind_int. rewrite Hid, Howner. cbn [bind].
  destruct (artworks d !! artwork_id) as [a|] eqn:Ha.
  - destruct (a_owner_id a =? owner_id) eqn:Hown.
    + apply Z.eqb_eq in Hown. eexists true, _. split; [done|]. split_and!; try done.
      * split; [eauto|done].
      * intros _. cbn. by rewrite lookup_delete_eq.
      * intros aid Hne. cbn. by rewrite lookup_delete_ne.
    + apply Z.eqb_neq in Hown. eexists false, _. split; [done|]. split_and!; try done.
      split; [done|]. intros (a' & Ha' & Hown'). congruence.
  - eexists false, _. split; [done|]. split_and!; try done.
    split; [done|]. intros (a' & Ha' & _). congruence.
Qed.

Lemma delete_artwork_owner_only_witness :
  exists d',
    delete_artwork 1 1 sample_db = Ok (true, d')
    /\ artworks d' !! 1 = None
    /\ artworks d' !! 2 = artworks sample_db !! 2
    /\ settings_rows d' = settings_rows sample_db
    /\ delete_artwork 1 2 sample_db = Ok (false, sample_db).
Proof.
  destruct (delete_artwork_owner_only 1 1 sample_db)
    as (ok & d' & Hrun & Hok & _ & Hgone & Hrest & _ & _ & Hsettings & _);
    [reflexivity|reflexivity|].
  destruct (delete_artwork_owner_only 1 2 sample_db) as (ok2 & d2 & Hrun2 & Hok2 & Hsame & _);
    [reflexivity|reflexivity|].
  assert (ok = true) as ->.
  { apply Hok. exists (Artwork (SqlText (py "Square")) (py "[]") 250 1 0 [] 5).
    split; vm_compute; reflexivity. }
  assert (ok2 = false) as ->.
  { destruct ok2; [|done]. destruct (proj1 Hok2 eq_refl) as (a & Ha & Hown).
    vm_compute in Ha. by simplify_eq. }
  rewrite (Hsame eq_refl) in Hrun2.
  exists d'. split_and!; [exact Hrun|by apply Hgone|by apply Hrest|exact Hsettings|exact Hrun2].
Defined.

(** X5.  A purchase hands the artwork over: it is then listed under the buyer's
    name, the buyer cannot buy it again, the former owner can no longer
    delete it, and the buyer can. *)
Theorem purchase_artwork_transfers_ownership now now' buyer_id artwork_id d msg d' art buyer :
  purchase_artwork now buyer_id artwork_id d = Ok ((true, msg), d') ->
  artworks d !! artwork_id = Some art ->
  users d !! buyer_id = Some buyer ->
  in_int64 artwork_id = true ->
  in_int64 buyer_id = true ->
  in_int64 (a_owner_id art) = true ->
  fetch_artwork_by_id artwork_id d' = Some (with_owner buyer_id art, u_username buyer)
  /\ purchase_artwork now' buyer_id artwork_id d'
     = Ok ((false, "You cannot buy your own artwork"%string), d')
  /\ delete_artwork artwork_id (a_owner_id art) d' = Ok (false, d')
  /\ exists d'', delete_artwork artwork_id buyer_id d' = Ok (true, d'')
                 /\ artworks d'' !! artwork_id = None.
Proof.
  intros Hrun Hart Hbuyer Hid Hbid Hoid.
  destruct (purchase_artwork_bought _ _ _ _ _ _ Hrun)
    as (art' & buyer' & _ & _ & Hart0 & Hbuyer0 & Hself & _ & _ & Hd').
  rewrite Hart in Hart0. rewrite Hbuyer in Hbuyer0. simplify_eq.
  set (d' := Database _ _ _ _ _ _).
  assert (Hart' : artworks d' !! artwork_id = Some (with_owner buyer_id art')).
  { subst d'. cbn. by rewrite lookup_alter_eq, Hart. }
  assert (Hbuyer' : users d' !! buyer_id = Some (add_balance (- a_price art') buyer')).
  { subst d'. cbn. rewrite lookup_alter_ne by done. by rewrite lookup_alter_eq, Hbuyer. }
  split_and!.
  - unfold fetch_artwork_by_id. rewrite Hart'.
    change (a_owner_id (with_owner buyer_id art')) with buyer_id. by rewrite Hbuyer'.
  - unfold purchase_artwork, bind_int. rewrite Hid. cbn [bind]. rewrite Hart'.
    change (a_owner_id (with_owner buyer_id art')) with buyer_id. by rewrite Z.eqb_refl.
  - unfold delete_artwork, bind_int. rewrite Hid, Hoid. cbn [bind]. rewrite Hart'.
    change (a_owner_id (with_owner buyer_id art')) with buyer_id.
    apply Z.eqb_neq in Hself. rewrite Z.eqb_sym. by rewrite Hself.
  - unfold delete_artwork, bind_int. rewrite Hid, Hbid. cbn [bind]. rewrite Hart'.
    change (a_owner_id (with_owner buyer_id art')) with buyer_id.
    rewrite Z.eqb_refl. eexists. split; [done|]. cbn. by rewrite lookup_delete_eq.
Qed.

Lemma purchase_artwork_transfers_ownership_witness :
  fetch_artwork_by_id 1 (purchased 9 2 1 sample_db)
  = Some (with_owner 2 (Artwork (SqlText (py "Square")) (py "[]") 250 1 0 [] 5), py "bob")
  /\ delete_artwork 1 1 (purchased 9 2 1 sample_db)
     = Ok (false, purchased 9 2 1 sample_db).
Proof.
  destruct (purchase_artwork_transfers_ownership 9 10 2 1 sample_db "Purchase successful"
              (purchased 9 2 1 sample_db)
              (Artwork (SqlText (py "Square")) (py "[]") 250 1 0 [] 5)
              (User (py "bob") (py "1b9b1b9b1b9b1b9b1b9b1b9b1b9b1b9b") 300 0))
    as (Hfetch & _ & Hdel & _); evaluated.
  split; [exact Hfetch|exact Hdel].
Defined.



(** ** More of the credentials *)

Lemma select_user_by_name_Some name d uid row :
  select_user_by_name name d = Some (uid, row) ->
  users d !! uid = Some row /\ u_username row = name.
Proof.
  unfold select_user_by_name. intros Hsel.
  destruct (list_find _ _) as [[i [uid' row']]|] eqn:Hfind; [|done].
  cbn in Hsel. simplify_eq.
  apply list_find_Some in Hfind as (Hi & Hn & _).
  apply list_elem_of_lookup_2, elem_of_map_to_list in Hi. done.
Qed.

Section CredentialsMore.
Context {werkzeug : Werkzeug} {hashlib : Hashlib}.

(** X6.  A login succeeds only for a row of [users] that bears the name given,
    and only when the stored credential matches the password: in the
    current scheme by [check_password_hash], otherwise as the legacy digest
    of the password.  A login that fails writes nothing, and no login
    changes a name, a balance or another table. *)
Theorem authenticate_user_sound salt name password d r d' :
  authenticate_user salt name password d = Ok (r, d') ->
  (r = None -> d' = d)
  /\ (forall l, r = Some l ->
        exists row,
          users d !! l_id l = Some row
          /\ u_username row = name /\ l_username l = name /\ l_balance l = u_balance row
          /\ if has_scheme_marker (u_password row)
             then check_password_hash (u_password row) password = true /\ d' = d
             else (exists data, encode password = Ok data
                                /\ u_password row = hex_of_bytes (md5 data))
                  /\ d' = set_users
                            (alter (with_password (generate_password_hash password salt))
                                   (l_id l)) d)
  /\ artworks d' = artworks d
  /\ transactions d' = transactions d
  /\ settings_rows d' = settings_rows d
  /\ (forall uid, u_username <$> users d' !! uid = u_username <$> users d !! uid)
  /\ (forall uid, u_balance <$> users d' !! uid = u_balance <$> users d !! uid).
Proof.
  unfold authenticate_user. intros Hrun.
  destruct (select_user_by_name name d) as [[uid row]|] eqn:Hsel.
  2:{ simplify_eq. split_and!; done. }
  apply select_user_by_name_Some in Hsel as [Hrow Hname].
  destruct (has_scheme_marker (u_password row)) eqn:Hmark.
  - destruct (check_password_hash (u_password row) password) eqn:Hcheck; simplify_eq;
      split_and!; try done.
    intros l [= <-]. exists row. cbn. rewrite Hmark. done.
  - destruct (encode password) as [data|] eqn:Hdata; [|done]. cbn [bind] in Hrun.
    destruct (pystr_eqb (u_password row) (hex_of_bytes (md5 data))) eqn:Heq; simplify_eq;
      split_and!; try done.
    + intros l [= <-]. exists row. cbn. rewrite Hmark. split_and!; try done.
      exists data. split; [done|]. by apply bool_decide_eq_true_1 in Heq.
    + intros uid'. cbn. destruct (decide (uid' = uid)) as [->|Hne].
      * by rewrite lookup_alter_eq, Hrow.
      * by rewrite lookup_alter_ne.
    + intros uid'. cbn. destruct (decide (uid' = uid)) as [->|Hne].
      * by rewrite lookup_alter_eq, Hrow.
      * by rewrite lookup_alter_ne.
Qed.
End CredentialsMore.

Section CredentialsMoreExample.
#[local] Existing Instances sample_werkzeug sample_hashlib.

Lemma authenticate_user_sound_witness :
  exists row,
    users sample_db !! 1 = Some row /\ u_username row = py "alice"
    /\ check_password_hash (u_password row) (py "wonderland") = true.
Proof.
  destruct (authenticate_user_sound (py "salt") (py "alice") (py "wonderland") sample_db
              (Some (Login 1 (py "alice") 1000)) sample_db) as (_ & Hsome & _).
  - vm_compute. reflexivity.
  - destruct (Hsome _ eq_refl) as (row & Hrow & Hname & _ & _ & Hcred).
    exists row. split_and!; [exact Hrow|exact Hname|].
    cbn in Hrow. vm_compute in Hrow. simplify_eq. exact (proj1 Hcred).
Defined.
End CredentialsMoreExample.

(** ** More of the URL guard *)

Lemma smallest_elem_of x l : smallest x l ∈ x :: l.
Proof.
  revert x. induction l as [|y l IH]; intros x; cbn; [left|].
  destruct (pystr_ltb y x).
  - right. apply IH.
  - specialize (IH x). apply elem_of_cons in IH as [->|IH]; [left|by do 2 right].
Qed.

Section UrlGuardMore.
Context {urllib : Urllib} {ipaddress : Ipaddress} {socket : Socket}.

#[local] Arguments check_addrs : simpl never.

(** What [is_safe_url] found when it allows a URL. *)
Lemma is_safe_url_allowed_inv t url a :
  is_safe_url t url = (true, a) ->
  exists parsed host,
    urlparse url = Ok parsed
    /\ scheme parsed ∈ [py "http"; py "https"]
    /\ hostname parsed = Some host
    /\ host <> []
    /\ (lower host ∉ [py "localhost"; py "localhost.localdomain"])
    /\ ((exists ip, ip_address host = Ok ip /\ _is_public_ip ip = true /\ a = ip_str ip)
        \/ (ip_address host = Raise ValueError
            /\ exists answers,
                 getaddrinfo t host = Ok answers
                 /\ a ∈ collect_addrs answers
                 /\ forall b, b ∈ collect_addrs answers ->
                      exists ip, ip_address b = Ok ip /\ _is_public_ip ip = true)).
Proof.
  unfold is_safe_url. intros Hrun.
  destruct (urlparse url) as [parsed|] eqn:Hparse; [|done]. cbn [bind catch] in Hrun.
  destruct (bool_decide (scheme parsed ∈ _)) eqn:Hscheme; [|done].
  apply bool_decide_eq_true_1 in Hscheme. cbn [negb] in Hrun.
  destruct (hostname parsed) as [[|c host]|] eqn:Hhost; try done.
  destruct (bool_decide (lower (c :: host) ∈ _)) eqn:Halias; [done|].
  apply bool_decide_eq_false_1 in Halias.
  exists parsed, (c :: host). split_and!; try done.
  destruct (ip_address (c :: host)) as [ip|e] eqn:Hip.
  - destruct (_is_public_ip ip) eqn:Hpub; [|done]. cbn in Hrun. simplify_eq.
    left. by exists ip.
  - destruct e; try done. right. split; [done|].
    destruct (getaddrinfo t (c :: host)) as [answers|] eqn:Hdns; [|done].
    cbn [bind catch] in Hrun.
    destruct (collect_addrs answers) as [|a0 rest] eqn:Hcollect; [done|].
    destruct (check_addrs (a0 :: rest)) as [[|]|] eqn:Hcheck; try done.
    cbn in Hrun. simplify_eq.
    exists answers. split_and!; [done| |].
    + rewrite Hcollect. apply smallest_elem_of.
    + rewrite Hcollect. by apply check_addrs_verdict.
Qed.

(** X7.  [is_safe_url] allows a URL in these cases and in no other: the URL
    parses, its scheme is http or https, it has a host that is not one of
    the two names of the local host, and either the host is the text of a
    public address, or it is no address, the resolver answers with at least
    one address of family INET or INET6, and each of them is the text of a
    public address.  The address returned is that of the host, or one of
    those resolved.  Every refusal answers with the text 403. *)
Theorem is_safe_url_allowed_iff t url :
  (fst (is_safe_url t url) = true <->
   exists parsed host,
     urlparse url = Ok parsed
     /\ scheme parsed ∈ [py "http"; py "https"]
     /\ hostname parsed = Some host
     /\ host <> []
     /\ (lower host ∉ [py "localhost"; py "localhost.localdomain"])
     /\ ((exists ip, ip_address host = Ok ip /\ _is_public_ip ip = true)
         \/ (ip_address host = Raise ValueError
             /\ exists answers,
                  getaddrinfo t host = Ok answers
                  /\ collect_addrs answers <> []
                  /\ forall b, b ∈ collect_addrs answers ->
                       exists ip, ip_address b = Ok ip /\ _is_public_ip ip = true)))
  /\ (fst (is_safe_url t url) = false -> is_safe_url t url = (false, py "403"))
  /\ (forall parsed host ip,
        fst (is_safe_url t url) = true -> urlparse url = Ok parsed ->
        hostname parsed = Some host -> ip_address host = Ok ip ->
        snd (is_safe_url t url) = ip_str ip)
  /\ (forall parsed host answers,
        fst (is_safe_url t url) = true -> urlparse url = Ok parsed ->
        hostname parsed = Some host -> ip_address host = Raise ValueError ->
        getaddrinfo t host = Ok answers ->
        snd (is_safe_url t url) ∈ collect_addrs answers).
Proof.
  split_and!.
  - split.
    + destruct (is_safe_url t url) as [ok a] eqn:Hrun. cbn. intros ->.
      apply is_safe_url_allowed_inv in Hrun
        as (parsed & host & Hparse & Hscheme & Hhost & Hne & Halias & Hcases).
      exists parsed, host. split_and!; try done.
      destruct Hcases as [(ip & Hip & Hpub & _)|(Hname & answers & Hdns & Ha & Hall)].
      * left. by exists ip.
      * right. split; [done|]. exists answers. split_and!; try done.
        intros Hnil. rewrite Hnil in Ha. by apply elem_of_nil in Ha.
    + intros (parsed & host & Hparse & Hscheme & Hhost & Hne & Halias & Hcases).
      unfold is_safe_url. rewrite Hparse. cbn [bind catch].
      rewrite bool_decide_eq_true_2 by done. cbn [negb]. rewrite Hhost.
      destruct host as [|c host]; [done|].
      rewrite bool_decide_eq_false_2 by done.
      destruct Hcases as [(ip & Hip & Hpub)|(Hname & answers & Hdns & Ha & Hall)].
      * by rewrite Hip, Hpub.
      * rewrite Hname, Hdns. cbn [bind catch].
        destruct (collect_addrs answers) as [|a0 rest] eqn:Hcollect; [done|].
        by rewrite check_addrs_all_public.
  - unfold is_safe_url, denied.
    destruct (urlparse url) as [parsed|]; [|done]. cbn [bind catch].
    destruct (bool_decide (scheme parsed ∈ _)); [|done]. cbn [negb].
    destruct (hostname parsed) as [[|c host]|]; try done.
    destruct (bool_decide (lower (c :: host) ∈ _)); [done|].
    destruct (ip_address (c :: host)) as [ip|e].
    + by destruct (_is_public_ip ip).
    + destruct e; try done.
      destruct (getaddrinfo t (c :: host)) as [answers|]; [|done]. cbn [bind catch].
      destruct (collect_addrs answers) as [|a0 rest]; [done|].
      by destruct (check_addrs (a0 :: rest)) as [[|]|].
  - intros parsed host ip Hok Hparse Hhost Hip.
    destruct (is_safe_url t url) as [ok a] eqn:Hrun. cbn in *. subst ok.
    apply is_safe_url_allowed_inv in Hrun
      as (parsed' & host' & Hparse' & _ & Hhost' & _ & _ & Hcases).
    simplify_eq. destruct Hcases as [(ip' & Hip' & _ & ->)|(Hname & _)]; congruence.
  - intros parsed host answers Hok Hparse Hhost Hname Hdns.
    destruct (is_safe_url t url) as [ok a] eqn:Hrun. cbn in *. subst ok.
    apply is_safe_url_allowed_inv in Hrun
      as (parsed' & host' & Hparse' & _ & Hhost' & _ & _ & Hcases).
    simplify_eq. destruct Hcases as [(ip' & Hip' & _)|(_ & answers' & Hdns' & Ha & _)];
      congruence.
Qed.
End UrlGuardMore.

(** ** What an import leaves alone *)

Section ImportMore.
Context {python : Cpython} {urllib : Urllib} {ipaddress : Ipaddress}
        {socket : Socket} {requests : Requests}.

Lemma import_body_frame now uid resp d :
  (import_body now uid resp d).2 = d
  \/ exists row,
       (import_body now uid resp d).2
       = Database (users d) (<[next_artwork_id d := row]> (artworks d)) (transactions d)
                  (settings_rows d) (next_user_id d) (next_artwork_id d + 1)
       /\ a_owner_id row = uid /\ a_is_private row = 0
       /\ a_signature row = py "imported" /\ a_created_at row = now.
Proof.
  unfold import_body.
  destruct (json_loads (text resp)) as [data|]; cbn [bind catch snd]; [|by left].
  destruct data as [ | | | | | |members]; cbn [bind catch snd]; try (by left).
  destruct (dict_get (py "shapes") members) as [shapes|]; cbn [bind catch snd]; [|by left].
  destruct (import_price _) as [p|] eqn:Hprice; cbn [bind catch snd]; [|by left].
  unfold create_artwork_record, bind_text, bind_int, not_null.
  destruct (sqlite_bind _) as [title_v|]; cbn [bind catch snd]; [|by left].
  repeat (case_match; cbn [bind catch snd]; try (by left)).
  all: right; eexists; split; [reflexivity|]; done.
Qed.

(** X8.  An import writes nothing but one new row of [artworks]: that row
    belongs to the user of the session, is public, bears the signature
    [imported] and the next key; every other artwork, every user with its
    balance, every transaction and every settings row is as it was. *)
Theorem import_artwork_frame now sess req d r d' :
  import_artwork now sess req d = Ok (r, d') ->
  d' = d
  \/ exists row,
       d' = Database (users d) (<[next_artwork_id d := row]> (artworks d)) (transactions d)
                     (settings_rows d) (next_user_id d) (next_artwork_id d + 1)
       /\ sess_user_id sess = Some (a_owner_id row)
       /\ a_is_private row = 0
       /\ a_signature row = py "imported"
       /\ a_created_at row = now.
Proof.
  unfold import_artwork. intros Hrun.
  destruct (negb (logged_in sess d)); [simplify_eq; by left|].
  unfold session_user_id in Hrun.
  destruct (sess_user_id sess) as [uid|] eqn:Huid; [|done]. cbn [bind] in Hrun.
  destruct (method req); [simplify_eq; by left|].
  destruct (field "artwork_url" [] req) as [|c url]; [simplify_eq; by left|].
  destruct (negb _); [simplify_eq; by left|].
  destruct (import_fetch now uid (c :: url) d) as [[r0 d0]|e] eqn:Hfetch;
    cbn [catch] in Hrun; simplify_eq; [|by left].
  apply import_fetch_store in Hfetch as [->|[resp ->]]; [by left|].
  destruct (import_body_frame now uid resp d) as [->|(row & -> & <- & Hrest)]; [by left|].
  right. by exists row.
Qed.

(** X9.  The ways an import fails.  Each of them leaves the store as it was:
    a URL that [is_safe_url] refuses; a request that raises; a status
    that is neither 200 nor a redirect; a final URL that is refused; a
    body that is no JSON document; a document that is no object with the
    key shapes.  The body is shown only in the last two cases. *)
Theorem import_artwork_failures now sess req d uid :
  logged_in sess d = true ->
  sess_user_id sess = Some uid ->
  method req = POST ->
  field "artwork_url" [] req <> [] ->
  let url := field "artwork_url" [] req in
  (fst (is_safe_url 0 url) = false ->
     import_artwork now sess req d = Ok (import_page None (Some UnsafeUrl) None None, d))
  /\ (fst (is_safe_url 0 url) = true ->
      (forall e, requests_get url = Raise e ->
         import_artwork now sess req d
         = Ok (import_page None (Some (RequestError e)) None None, d))
      /\ (forall resp, requests_get url = Ok resp ->
            (~ 300 <= status_code resp < 400 -> status_code resp <> 200 ->
               import_artwork now sess req d
               = Ok (import_page None (Some (DownloadError (status_code resp))) None None, d))
            /\ (status_code resp = 200 -> fst (is_safe_url 1 (resp_url resp)) = false ->
                  import_artwork now sess req d
                  = Ok (import_page None (Some UnsafeResponseUrl) None None, d))
            /\ (status_code resp = 200 -> fst (is_safe_url 1 (resp_url resp)) = true ->
                  (forall e, json_loads (text resp) = Raise e ->
                     import_artwork now sess req d
                     = Ok (import_page (Some (take PREVIEW_LEN (text resp))) (Some NotJson)
                                       None (Some (resp_url resp)), d))
                  /\ (forall v, json_loads (text resp) = Ok v ->
                        match v with
                        | JObj members => dict_get (py "shapes") members = None
                        | _ => True
                        end ->
                        import_artwork now sess req d
                        = Ok (import_page (Some (take PREVIEW_LEN (text resp)))
                                          (Some BadJsonFormat) None
                                          (Some (resp_url resp)), d))))).
Proof.
  intros Hin Huid Hpost Hurl url. split.
  - intros Hsafe. unfold import_artwork, session_user_id.
    rewrite Hin, Huid, Hpost. cbn [negb bind]. fold url. rewrite Hsafe. cbn [negb].
    subst url. by destruct (field "artwork_url" [] req).
  - intros Hsafe. rewrite (import_artwork_fetches now sess req d uid) by done. fold url.
    unfold import_fetch. split.
    + intros e He. rewrite He. reflexivity.
    + intros resp Hresp. rewrite Hresp. cbn [bind]. split_and!.
      * intros Hredirect Hstatus.
        destruct ((300 <=? status_code resp) && (status_code resp <? 400)) eqn:Hr.
        { apply andb_true_iff in Hr as [?%Z.leb_le ?%Z.ltb_lt]. lia. }
        apply Z.eqb_neq in Hstatus. by rewrite Hstatus.
      * intros -> Hfinal. cbn. by rewrite Hfinal.
      * intros Hstatus Hfinal. split.
        -- intros e He. rewrite Hstatus. cbn. rewrite Hfinal. cbn [negb].
           unfold import_body. by rewrite He.
        -- intros v Hv Hshape. rewrite Hstatus.
           change ((300 <=? 200) && (200 <? 400)) with false.
           change (negb (200 =? 200)) with false. cbv iota. rewrite Hfinal. cbn [negb].
           unfold import_body. rewrite Hv. cbn [bind catch].
           destruct v as [ | | | | | |members]; try done. by rewrite Hshape.
Qed.
End ImportMore.

(** ** Editing *)

Lemma update_artwork_frame artwork_id title data price is_private signature d ok d' :
  update_artwork artwork_id title data price is_private signature d = Ok (ok, d') ->
  d' = d
  \/ exists title_v,
       d' = set_artworks (alter (with_fields title_v data price is_private signature)
                                artwork_id) d.
Proof.
  unfold update_artwork, bind_text, bind_int, not_null. intros Hrun.
  destruct (sqlite_bind title) as [title_v|]; [|done]. cbn in Hrun.
  repeat (case_match; cbn in Hrun; try done).
  all: simplify_eq; (by left) || (right; eexists; done).
Qed.

Lemma well_formed_bind_text s : well_formed s = true -> bind_text s = Ok s.
Proof.
  intros Hs. unfold bind_text.
  replace (forallb _ s) with true; [done|]. symmetry.
  apply forallb_forall. intros c Hc. unfold well_formed in Hs.
  rewrite forallb_forall in Hs. specialize (Hs c Hc).
  unfold is_scalar_value in Hs. by apply andb_true_iff in Hs as [_ Hs].
Qed.

Lemma well_formed_take n s : well_formed s = true -> well_formed (take n s) = true.
Proof.
  unfold well_formed. rewrite !forallb_forall. intros Hs c Hc. apply Hs.
  apply list_elem_of_In. apply list_elem_of_In in Hc.
  by eapply (subseteq_take n s).
Qed.

Lemma checkbox_in_int64 key req : in_int64 (checkbox key req) = true.
Proof. unfold checkbox. destruct (form_get _ _); [|done]. by destruct (pystr_eqb _ _). Qed.

Lemma get_artwork_settings_fresh artwork_id rows row :
  (forall r, r ∈ rows -> s_artwork_id r <> artwork_id) ->
  s_artwork_id row = artwork_id ->
  list_find (fun r => s_artwork_id r = artwork_id) (rows ++ [row])
  = Some (length rows, row).
Proof.
  intros Hfresh Hrow. induction rows as [|r rows IH]; cbn.
  - by rewrite decide_True.
  - rewrite decide_False by (apply Hfresh; left).
    rewrite IH; [done|]. intros r' Hr'. apply Hfresh. by right.
Qed.

Lemma get_artwork_settings_none artwork_id rows :
  (forall r, r ∈ rows -> s_artwork_id r <> artwork_id) ->
  list_find (fun r => s_artwork_id r = artwork_id) rows = None.
Proof.
  intros Hfresh. apply list_find_None. apply Forall_forall. intros r Hr. by apply Hfresh.
Qed.

Section EditMore.
Context {python : Cpython}.

(** X10.  Editing is for the owner: a session whose user is not the owner of the
    artwork gets a redirect from the edit form and from the settings form,
    whatever the request, and nothing is written. *)
Theorem edit_artwork_owner_only now sess req artwork_id d :
  (forall art, artworks d !! artwork_id = Some art ->
     sess_user_id sess <> Some (a_owner_id art)) ->
  (forall r d', edit_artwork sess req artwork_id d = Ok (r, d') ->
     d' = d /\ exists endpoint, r = Redirect endpoint)
  /\ (forall r d', artwork_settings now sess req artwork_id d = Ok (r, d') ->
        d' = d /\ exists endpoint, r = Redirect endpoint).
Proof.
  intros Hother.
  assert (Hguard : forall art owner uid,
             fetch_artwork_by_id artwork_id d = Some (art, owner) ->
             session_user_id sess = Ok uid -> negb (a_owner_id art =? uid) = true).
  { intros art owner uid Hfetch Huid. unfold fetch_artwork_by_id in Hfetch.
    destruct (artworks d !! artwork_id) as [a|] eqn:Ha; [|done].
    destruct (users d !! a_owner_id a); [|done]. simplify_eq.
    unfold session_user_id in Huid. destruct (sess_user_id sess) as [uid'|] eqn:Hs; [|done].
    simplify_eq. apply negb_true_iff, Z.eqb_neq. intros Heq. apply (Hother art eq_refl).
    by rewrite Heq. }
  split; intros r d' Hrun.
  - unfold edit_artwork in Hrun.
    destruct (negb (logged_in sess d)); [simplify_eq; eauto|].
    destruct (fetch_artwork_by_id artwork_id d) as [[art owner]|] eqn:Hfetch;
      [|simplify_eq; eauto].
    destruct (session_user_id sess) as [uid|] eqn:Huid; [|done]. cbn [bind] in Hrun.
    rewrite (Hguard art owner uid) in Hrun by done. simplify_eq. eauto.
  - unfold artwork_settings in Hrun.
    destruct (negb (logged_in sess d)); [simplify_eq; eauto|].
    destruct (fetch_artwork_by_id artwork_id d) as [[art owner]|] eqn:Hfetch;
      [|simplify_eq; eauto].
    destruct (session_user_id sess) as [uid|] eqn:Huid; [|done]. cbn [bind] in Hrun.
    rewrite (Hguard art owner uid) in Hrun by done. simplify_eq. eauto.
Qed.

(** X11.  Editing keeps the artwork where it is: the owner, the date and the key
    of the artwork stay, and so do every other artwork, every user, every
    transaction and every settings row. *)
Theorem edit_artwork_frame sess req artwork_id d r d' :
  edit_artwork sess req artwork_id d = Ok (r, d') ->
  users d' = users d
  /\ transactions d' = transactions d
  /\ settings_rows d' = settings_rows d
  /\ next_artwork_id d' = next_artwork_id d
  /\ (forall aid, aid <> artwork_id -> artworks d' !! aid = artworks d !! aid)
  /\ a_owner_id <$> artworks d' !! artwork_id = a_owner_id <$> artworks d !! artwork_id
  /\ a_created_at <$> artworks d' !! artwork_id = a_created_at <$> artworks d !! artwork_id.
Proof.
  intros Hrun.
  assert (Hcases : d' = d \/ exists f,
             (forall a, a_owner_id (f a) = a_owner_id a /\ a_created_at (f a) = a_created_at a)
             /\ d' = set_artworks (alter f artwork_id) d).
  { unfold edit_artwork in Hrun.
    destruct (negb (logged_in sess d)); [simplify_eq; by left|].
    destruct (fetch_artwork_by_id artwork_id d) as [[art owner]|]; [|simplify_eq; by left].
    destruct (session_user_id sess) as [uid|]; [|done]. cbn [bind] in Hrun.
    destruct (negb _); [simplify_eq; by left|].
    destruct (method req).
    { destruct (get_artwork_settings artwork_id d) as [[|c raw]|];
        cbn [bind] in Hrun; simplify_eq; try (by left).
      destruct (load_artwork_settings (JStr (c :: raw))); [|done].
      cbn [bind] in Hrun. simplify_eq. by left. }
    destruct (int_of_str (field "price" (py "0") req)) as [p|e].
    2:{ destruct e; simplify_eq; by left. }
    destruct (field "title" [] req) as [|c title]; [simplify_eq; by left|].
    destruct (field "data" [] req) as [|c' data]; [simplify_eq; by left|].
    destruct (update_artwork _ _ _ _ _ _ _) as [[ok d0]|] eqn:Hupd; [|done].
    cbn [bind] in Hrun. simplify_eq.
    apply update_artwork_frame in Hupd as [->|(tv & ->)]; [by left|].
    right. eexists. split; [|done]. done. }
  destruct Hcases as [->|(f & Hf & ->)]; [done|]. cbn. split_and!; try done.
  - intros aid Hne. by rewrite lookup_alter_ne.
  - rewrite lookup_alter_eq. destruct (artworks d !! artwork_id) as [a|]; [|done].
    cbn. f_equal. apply Hf.
  - rewrite lookup_alter_eq. destruct (artworks d !! artwork_id) as [a|]; [|done].
    cbn. f_equal. apply Hf.
Qed.

(** X12.  The description typed when an artwork is created and the one that the
    edit form then shows.  The text is cut at 2000 characters and stored;
    the edit form reads it back through [load_artwork_settings], which
    takes it for JSON where it can: a text that is no JSON document comes
    back as it was stored, a JSON object comes back as its member
    [description] (or as nothing), and any other JSON document, such as a
    number, comes back as nothing. *)
Theorem create_artwork_description now sess req shown d uid owner p :
  logged_in sess d = true ->
  sess_user_id sess = Some uid ->
  users d !! uid = Some owner ->
  method req = POST ->
  method shown = GET ->
  field "title" [] req <> [] ->
  field "data" [] req <> [] ->
  int_of_str (field "price" (py "0") req) = Ok p ->
  in_int64 p = true ->
  in_int64 uid = true ->
  well_formed (field "title" [] req) = true ->
  well_formed (field "data" [] req) = true ->
  well_formed (field "signature" [] req) = true ->
  well_formed (field "description" [] req) = true ->
  (forall row, row ∈ settings_rows d -> s_artwork_id row <> next_artwork_id d) ->
  let stored := take MAX_DESCRIPTION_LEN (field "description" [] req) in
  exists d',
    create_artwork now sess req d = Ok (Redirect "index", d')
    /\ get_artwork_settings (next_artwork_id d) d'
       = match stored with [] => None | _ => Some stored end
    /\ edit_artwork sess shown (next_artwork_id d) d'
       = Ok (Render (Page "edit_artwork.html" None None None None
                          (Some match stored with
                                | [] => JStr []
                                | _ =>
                                    match json_loads stored with
                                    | Raise _ => JStr stored
                                    | Ok (JObj members) =>
                                        default (JStr []) (dict_get (py "description") members)
                                    | Ok _ => JStr []
                                    end
                                end) None), d').
Proof.
  intros Hin Huid Howner Hpost Hget Htitle Hdata Hprice Hp Huid64 Wtitle Wdata Wsig Wdesc
         Hfresh stored.
  set (row := Artwork (SqlText (field "title" [] req)) (field "data" [] req) p uid
                      (checkbox "is_private" req) (field "signature" [] req) now).
  set (d1 := Database (users d) (<[next_artwork_id d := row]> (artworks d)) (transactions d)
                      (settings_rows d) (next_user_id d) (next_artwork_id d + 1)).
  set (d' := match stored with
             | [] => d1
             | _ => set_settings_rows
                      (fun l => l ++ [SettingsRow (next_artwork_id d) stored now]) d1
             end).
  assert (Hcreate : create_artwork now sess req d = Ok (Redirect "index", d')).
  { unfold create_artwork, session_user_id. rewrite Hin, Huid, Hpost, Hprice. cbn [negb bind].
    destruct (field "title" [] req) as [|c title] eqn:Et; [done|].
    destruct (field "data" [] req) as [|c' data] eqn:Ed; [done|].
    unfold create_artwork_record, bind_int, not_null, sqlite_bind.
    pose proof (well_formed_bind_text _ Wtitle) as Bt. unfold bind_text in Bt.
    destruct (forallb _ (c :: title)); [|done]. cbn [bind].
    rewrite (well_formed_bind_text _ Wdata), Hp, Huid64, checkbox_in_int64. cbn [bind].
    rewrite (well_formed_bind_text _ Wsig). cbn [bind].
    unfold save_artwork_description. subst d' stored.
    destruct (field "description" [] req) as [|c'' desc] eqn:Edesc; [done|].
    rewrite well_formed_bind_text by by apply well_formed_take.
    cbn [bind]. done. }
  assert (Hsettings : get_artwork_settings (next_artwork_id d) d'
                      = match stored with [] => None | _ => Some stored end).
  { unfold get_artwork_settings. subst d'. destruct stored as [|c s] eqn:Es.
    - cbn. by rewrite get_artwork_settings_none.
    - cbn. by rewrite get_artwork_settings_fresh. }
  exists d'. split_and!; [done|done|].
  assert (Husers : users d' = users d) by (subst d'; by destruct stored).
  assert (Harts : artworks d' !! next_artwork_id d = Some row).
  { subst d'. destruct stored; cbn; by rewrite lookup_insert_eq. }
  unfold edit_artwork.
  replace (logged_in sess d') with true.
  2:{ unfold logged_in, user_exists, select_user_by_name in *. by rewrite Husers. }
  unfold fetch_artwork_by_id. rewrite Harts, Husers.
  change (a_owner_id row) with uid. rewrite Howner. unfold session_user_id. rewrite Huid.
  cbn [negb bind]. rewrite Z.eqb_refl, Hget, Hsettings. cbn [negb].
  destruct stored as [|c s] eqn:Es; [done|].
  unfold load_artwork_settings, loads_value.
  change (truthy (JStr (c :: s))) with (negb (bool_decide (c :: s = []))).
  rewrite bool_decide_eq_false_2 by done. cbn [negb].
  destruct (json_loads (c :: s)) as [v|e] eqn:Hloads; cbn [bind catch].
  - by destruct v.
  - cbn [py_str]. unfold pystr_eqb. rewrite <- Es.
    assert (Hidem : take MAX_DESCRIPTION_LEN stored = stored).
    { subst stored. rewrite take_take. by rewrite Nat.min_id. }
    rewrite Es in Hidem |- *. rewrite Hidem.
    replace (dict_get (py "description") [(py "description", JStr (c :: s))])
      with (Some (JStr (c :: s))); [done|].
    cbn [dict_get]. unfold pystr_eqb. by rewrite bool_decide_eq_true_2.
Qed.
End EditMore.

(** ** Saved settings *)

(** X14.  Saving settings replaces those of the artwork, for a key within
    64 bits and a text that the driver binds: afterwards the table holds
    one row for the artwork, with the text saved and the date of the call,
    and the rows of every other artwork are those that were there, in
    their order.  No other table changes. *)
Theorem save_artwork_settings_replaces now artwork_id text d :
  in_int64 artwork_id = true ->
  bind_text text = Ok text ->
  exists d',
    save_artwork_settings now artwork_id text d = Ok (true, d')
    /\ get_artwork_settings artwork_id d' = Some text
    /\ filter (fun r => s_artwork_id r = artwork_id) (settings_rows d')
       = [SettingsRow artwork_id text now]
    /\ (forall other, other <> artwork_id ->
          filter (fun r => s_artwork_id r = other) (settings_rows d')
          = filter (fun r => s_artwork_id r = other) (settings_rows d))
    /\ users d' = users d /\ artworks d' = artworks d /\ transactions d' = transactions d.
Proof.
  intros _ Hbind. unfold save_artwork_settings. rewrite Hbind. cbn [bind].
  eexists. split; [done|]. split_and!; try done.
  - eapply get_artwork_settings_saved. unfold save_artwork_settings. rewrite Hbind. done.
  - cbn. rewrite filter_app, filter_cons_True by done. cbn.
    replace (filter _ (filter _ (settings_rows d))) with (@nil settings_row); [done|].
    symmetry. induction (settings_rows d) as [|r rows IH]; [done|].
    destruct (decide (s_artwork_id r ≠ artwork_id)) as [Hk|Hk].
    + rewrite filter_cons_True by done. by rewrite filter_cons_False.
    + by rewrite filter_cons_False.
  - intros other Hne. cbn. rewrite filter_app, filter_cons_False, filter_nil, app_nil_r
      by (cbn; congruence).
    induction (settings_rows d) as [|r rows IH]; [done|].
    destruct (decide (s_artwork_id r = other)) as [Hr|Hr].
    + rewrite (filter_cons_True (fun r => s_artwork_id r ≠ artwork_id)) by congruence.
      rewrite !(filter_cons_True (fun r => s_artwork_id r = other)) by done.
      by rewrite IH.
    + rewrite (filter_cons_False (fun r => s_artwork_id r = other) r rows) by done.
      destruct (decide (s_artwork_id r ≠ artwork_id)) as [Hk|Hk].
      * rewrite (filter_cons_True (fun r => s_artwork_id r ≠ artwork_id)) by done.
        by rewrite filter_cons_False.
      * by rewrite (filter_cons_False (fun r => s_artwork_id r ≠ artwork_id)).
Qed.

Lemma save_artwork_settings_replaces_witness :
  exists d',
    save_artwork_settings 8 1 (py "{}") sample_db = Ok (true, d')
    /\ get_artwork_settings 1 d' = Some (py "{}")
    /\ filter (fun r => s_artwork_id r = 1) (settings_rows d') = [SettingsRow 1 (py "{}") 8].
Proof.
  destruct (save_artwork_settings_replaces 8 1 (py "{}") sample_db)
    as (d' & Hrun & Hget & Hrow & _).
  - reflexivity.
  - vm_compute. reflexivity.
  - exists d'. split_and!; [exact Hrun|exact Hget|exact Hrow].
Defined.

(** ** Accounts *)

Lemma select_user_by_name_None name d :
  (forall id u, users d !! id = Some u -> u_username u <> name) ->
  select_user_by_name name d = None.
Proof.
  intros Hfree. unfold select_user_by_name.
  destruct (list_find _ _) as [[i [id u]]|] eqn:Hfind; [|done].
  apply list_find_Some in Hfind as (Hi & Hn & _).
  apply list_elem_of_lookup_2, elem_of_map_to_list in Hi. cbn in Hn.
  by destruct (Hfree id u Hi).
Qed.

Lemma select_user_by_name_taken name d id u :
  users d !! id = Some u -> u_username u = name ->
  exists found, select_user_by_name name d = Some found.
Proof.
  intros Hu Hname. unfold select_user_by_name.
  destruct (list_find_elem_of (λ r : Z * user, u_username r.2 = name)
              (map_to_list (users d)) (id, u)) as [[i found] Hfind].
  - by apply elem_of_map_to_list.
  - done.
  - rewrite Hfind. by exists found.
Qed.

Section Accounts.
Context {werkzeug : Werkzeug} {hashlib : Hashlib}.

(** X15.  Registration keeps the table of users in order: no two rows bear one
    name afterwards, the next key stays above the keys in use, a name that
    is taken is refused without a write, and no account that exists is
    touched. *)
Theorem create_user_keeps_names_unique salt username password s r s' :
  create_user salt username password s = Ok (r, s') ->
  usernames_unique (tables s) ->
  user_ids_fresh (tables s) ->
  usernames_unique (tables s')
  /\ user_ids_fresh (tables s')
  /\ ((exists id u, users (tables s) !! id = Some u /\ u_username u = username) ->
      r = (false, None) /\ s' = s)
  /\ (forall id u, users (tables s) !! id = Some u -> users (tables s') !! id = Some u)
  /\ artworks (tables s') = artworks (tables s)
  /\ transactions (tables s') = transactions (tables s)
  /\ settings_rows (tables s') = settings_rows (tables s).
Proof.
  unfold create_user, bind_text. intros Hrun Huniq Hfresh.
  destruct (forallb _ username); [|done]. cbn [bind] in Hrun.
  destruct (select_user_by_name username (tables s)) as [found|] eqn:Hsel.
  { simplify_eq. split_and!; done. }
  destruct (forallb _ (generate_password_hash password salt)); [|done].
  cbn [bind] in Hrun. simplify_eq. cbn.
  assert (Hnew : users (tables s) !! next_user_id (tables s) = None).
  { destruct (users (tables s) !! next_user_id (tables s)) as [u|] eqn:Hu; [|done].
    apply Hfresh in Hu. lia. }
  assert (Hfree : forall id u, users (tables s) !! id = Some u -> u_username u <> username).
  { intros id u Hu Hname.
    destruct (select_user_by_name_taken username (tables s) id u Hu Hname) as [f Hf].
    congruence. }
  split_and!; try done.
  - intros id1 id2 u1 u2. cbn. intros H1 H2 Hname.
    apply lookup_insert_Some in H1 as [[<- <-]|[Hn1 H1]];
      apply lookup_insert_Some in H2 as [[<- <-]|[Hn2 H2]]; try done.
    + cbn in Hname. by destruct (Hfree id2 u2 H2).
    + cbn in Hname. by destruct (Hfree id1 u1 H1).
    + by eapply Huniq.
  - intros id u. cbn. intros Hu.
    apply lookup_insert_Some in Hu as [[<- <-]|[Hn Hu]]; [lia|].
    apply Hfresh in Hu. lia.
  - intros (id & u & Hu & Hname). by destruct (Hfree id u Hu).
  - intros id u Hu. rewrite lookup_insert_ne; [done|]. intros <-. congruence.
Qed.

(** What werkzeug promises of its hashes. *)
Hypothesis generated_has_marker :
  forall password salt, has_scheme_marker (generate_password_hash password salt) = true.
Hypothesis generated_verifies :
  forall password salt,
    check_password_hash (generate_password_hash password salt) password = true.

Lemma create_user_registers salt salt' username password password' s :
  bind_text username = Ok username ->
  bind_text (generate_password_hash password salt)
  = Ok (generate_password_hash password salt) ->
  (forall id u, users (tables s) !! id = Some u -> u_username u <> username) ->
  user_ids_fresh (tables s) ->
  let uid := next_user_id (tables s) in
  exists s' row,
    create_user salt username password s = Ok ((true, Some uid), s')
    /\ users (tables s') !! uid = Some row
    /\ u_username row = username
    /\ u_balance row = 1000
    /\ uid ∈ undated s'
    /\ user_exists username (tables s') = true
    /\ get_user_balance uid (tables s') = 1000
    /\ authenticate_user salt' username password (tables s')
       = Ok (Some (Login uid username 1000), tables s')
    /\ create_user salt' username password' s' = Ok ((false, None), s').
Proof.
  intros Hname Hhash Hfree Hfresh uid.
  set (row := User username (generate_password_hash password salt) 1000 0).
  set (s' := Store (Database (<[uid := row]> (users (tables s))) (artworks (tables s))
                             (transactions (tables s)) (settings_rows (tables s)) (uid + 1)
                             (next_artwork_id (tables s)))
                   ({[uid]} ∪ undated s)).
  assert (Hrow : users (tables s') !! uid = Some row) by (cbn; by rewrite lookup_insert_eq).
  assert (Huniq : unique_username username uid (tables s')).
  { intros id u. cbn. intros Hu Hn.
    apply lookup_insert_Some in Hu as [[<- <-]|[Hne Hu]]; [done|].
    by destruct (Hfree id u Hu). }
  assert (Hsel : select_user_by_name username (tables s') = Some (uid, row)).
  { by apply select_user_by_name_found. }
  exists s', row. split_and!; try done.
  - unfold create_user. rewrite Hname. cbn [bind].
    rewrite select_user_by_name_None by done. rewrite Hhash. done.
  - cbn. set_solver.
  - unfold user_exists. by rewrite Hsel.
  - unfold get_user_balance. by rewrite Hrow.
  - unfold authenticate_user. rewrite Hsel. cbn.
    by rewrite generated_has_marker, generated_verifies.
  - unfold create_user. rewrite Hname. cbn [bind]. by rewrite Hsel.
Qed.

End Accounts.

(** ** Expiry *)

Lemma older_spec now n c :
  older (minutes_ago now n) c = true <-> 0 <= n /\ c < now - 60 * n.
Proof.
  unfold older, minutes_ago. destruct (Z.ltb_spec n 0); [|rewrite Z.ltb_lt]; lia.
Qed.

Lemma size_filter_complement {A} (P : Z * A -> Prop) `{!forall x, Decision (P x)}
    (m : gmap Z A) :
  Z.of_nat (size m)
  = Z.of_nat (size (filter (fun x => ~ P x) m)) + Z.of_nat (size (filter P m)).
Proof.
  rewrite <- (map_filter_union_complement P m) at 1.
  rewrite map_size_disj_union by apply map_disjoint_filter_complement. lia.
Qed.

Lemma length_filter_complement {A} (P : A -> Prop) `{!forall x, Decision (P x)} (l : list A) :
  Z.of_nat (length l)
  = Z.of_nat (length (filter (fun x => ~ P x) l)) + Z.of_nat (length (filter P l)).
Proof.
  rewrite <- (Permutation_length (filter_app_complement P l)) at 1.
  rewrite length_app. lia.
Qed.

Section Expiry.
Variables (now : timestamp) (max_age_minutes : Z) (s : store).

(** X17.  What [cleanup_expired_records] keeps.  It adds no row.  It keeps every
    row of the three dated tables that is not older than the age, save the
    settings of an artwork that went; it keeps the user called admin, every
    account that has no date, and every account that is not older than the
    age.  A negative age removes nothing by date. *)
Theorem cleanup_expired_records_keeps :
  let limit := now - 60 * max_age_minutes in
  let d := tables s in
  let d' := tables (cleanup_expired_records now max_age_minutes s).2 in
  ((forall id u, users d' !! id = Some u -> users d !! id = Some u)
   /\ (forall id a, artworks d' !! id = Some a -> artworks d !! id = Some a)
   /\ (forall t, t ∈ transactions d' -> t ∈ transactions d)
   /\ (forall r, r ∈ settings_rows d' -> r ∈ settings_rows d))
  /\ (forall id u, users d !! id = Some u ->
        u_username u = py "admin" \/ id ∈ undated s \/ limit <= u_created_at u
        \/ max_age_minutes < 0 ->
        users d' !! id = Some u)
  /\ (forall id a, artworks d !! id = Some a ->
        limit <= a_created_at a \/ max_age_minutes < 0 ->
        artworks d' !! id = Some a)
  /\ (forall t, t ∈ transactions d ->
        limit <= t_created_at t \/ max_age_minutes < 0 ->
        t ∈ transactions d')
  /\ (forall r a, r ∈ settings_rows d -> artworks d !! s_artwork_id r = Some a ->
        limit <= s_created_at r /\ limit <= a_created_at a \/ max_age_minutes < 0 ->
        r ∈ settings_rows d')
  /\ undated (cleanup_expired_records now max_age_minutes s).2 = undated s
  /\ next_user_id d' = next_user_id d
  /\ next_artwork_id d' = next_artwork_id d.
Proof.
  cbn zeta. unfold cleanup_expired_records. cbn [snd tables users artworks transactions
                                                   settings_rows undated next_user_id
                                                   next_artwork_id].
  assert (Hyoung : forall c, now - 60 * max_age_minutes <= c \/ max_age_minutes < 0 ->
                     older (minutes_ago now max_age_minutes) c <> true).
  { intros c Hc Hold. apply older_spec in Hold. lia. }
  split_and!; try done.
  - intros id u Hu. by apply map_lookup_filter_Some in Hu as [Hu _].
  - intros id a Ha. by apply map_lookup_filter_Some in Ha as [Ha _].
  - intros t Ht. by apply list_elem_of_filter in Ht as [_ Ht].
  - intros r Hr. apply list_elem_of_filter in Hr as [_ Hr].
    by apply list_elem_of_filter in Hr as [_ Hr].
  - intros id u Hu Hkeep. apply map_lookup_filter_Some. split; [done|]. cbn.
    unfold user_expired, user_date. intros Hexp.
    destruct (bool_decide (id ∈ undated s)) eqn:Hund; [done|].
    apply bool_decide_eq_false_1 in Hund.
    apply andb_true_iff in Hexp as [Hold Hadmin].
    apply negb_true_iff, bool_decide_eq_false_1 in Hadmin.
    destruct Hkeep as [?|[?|Hkeep]]; [done|done|]. by apply (Hyoung (u_created_at u)).
  - intros id a Ha Hkeep. apply map_lookup_filter_Some. split; [done|]. cbn. by apply Hyoung.
  - intros t Ht Hkeep. apply list_elem_of_filter. split; [|done]. by apply Hyoung.
  - intros r a Hr Ha Hkeep. apply list_elem_of_filter. split.
    + intros Hnone. apply map_lookup_filter_None in Hnone as [Hnone|Hnone]; [congruence|].
      apply (Hnone a Ha). cbn. apply Hyoung. lia.
    + apply list_elem_of_filter. split; [|done]. apply Hyoung. lia.
Qed.

(** X18.  What [cleanup_expired_records] leaves behind, for an age that is not
    negative: no artwork, transaction or settings row older than the age,
    no settings row of an artwork that is not there, and no account older
    than the age unless it is the one called admin. *)
Theorem cleanup_expired_records_purges :
  0 <= max_age_minutes ->
  let limit := now - 60 * max_age_minutes in
  let d' := tables (cleanup_expired_records now max_age_minutes s).2 in
  (forall id a, artworks d' !! id = Some a -> limit <= a_created_at a)
  /\ (forall t, t ∈ transactions d' -> limit <= t_created_at t)
  /\ (forall r, r ∈ settings_rows d' ->
        limit <= s_created_at r /\ is_Some (artworks d' !! s_artwork_id r))
  /\ (forall id u, users d' !! id = Some u ->
        limit <= u_created_at u \/ id ∈ undated s \/ u_username u = py "admin").
Proof.
  intros Hage. cbn zeta. unfold cleanup_expired_records.
  cbn [snd tables users artworks transactions settings_rows].
  assert (Hold : forall c, older (minutes_ago now max_age_minutes) c <> true ->
                   now - 60 * max_age_minutes <= c).
  { intros c Hc. destruct (Z.lt_ge_cases c (now - 60 * max_age_minutes)) as [Hlt|]; [|lia].
    destruct Hc. apply older_spec. lia. }
  split_and!.
  - intros id a Ha. apply map_lookup_filter_Some in Ha as [_ Ha]. by apply Hold.
  - intros t Ht. apply list_elem_of_filter in Ht as [Ht _]. by apply Hold.
  - intros r Hr. apply list_elem_of_filter in Hr as [Hthere Hr].
    apply list_elem_of_filter in Hr as [Hr _]. split; [by apply Hold|].
    by apply not_eq_None_Some.
  - intros id u Hu. apply map_lookup_filter_Some in Hu as [_ Hu]. cbn in Hu.
    unfold user_expired, user_date in Hu.
    destruct (bool_decide (id ∈ undated s)) eqn:Hund.
    { right. left. by apply bool_decide_eq_true_1 in Hund. }
    destruct (pystr_eqb (u_username u) (py "admin")) eqn:Hadmin.
    { right. right. by apply bool_decide_eq_true_1 in Hadmin. }
    left. apply Hold. intros Ho. apply Hu. by rewrite Ho.
Qed.

(** X19.  The report of [cleanup_expired_records] counts the rows that went:
    each table lost as many rows as the report says. *)
Theorem cleanup_expired_records_report :
  let d := tables s in
  let report := (cleanup_expired_records now max_age_minutes s).1 in
  let d' := tables (cleanup_expired_records now max_age_minutes s).2 in
  Z.of_nat (size (artworks d)) = Z.of_nat (size (artworks d')) + gone_artworks report
  /\ Z.of_nat (length (transactions d))
     = Z.of_nat (length (transactions d')) + gone_transactions report
  /\ Z.of_nat (length (settings_rows d))
     = Z.of_nat (length (settings_rows d')) + gone_settings report
  /\ Z.of_nat (size (users d)) = Z.of_nat (size (users d')) + gone_users report.
Proof.
  cbn zeta. unfold cleanup_expired_records.
  cbn [fst snd tables users artworks transactions settings_rows gone_artworks
       gone_transactions gone_settings gone_users].
  split_and!.
  - apply (size_filter_complement
             (fun kv : Z * artwork =>
                older (minutes_ago now max_age_minutes) (a_created_at kv.2) = true)).
  - apply (length_filter_complement
             (fun t => older (minutes_ago now max_age_minutes) (t_created_at t) = true)).
  - rewrite (length_filter_complement
               (fun r => older (minutes_ago now max_age_minutes) (s_created_at r) = true)
               (settings_rows (tables s))).
    set (kept := filter _ (settings_rows (tables s))).
    rewrite (length_filter_complement
               (fun r => filter (fun kv : Z * artwork =>
                                   older (minutes_ago now max_age_minutes)
                                         (a_created_at kv.2) <> true)
                                (artworks (tables s)) !! s_artwork_id r = None) kept).
    lia.
  - apply (size_filter_complement
             (fun kv : Z * user =>
                user_expired (minutes_ago now max_age_minutes) s kv.1 kv.2 = true)).
Qed.
End Expiry.

Lemma cleanup_expired_records_user now max_age_minutes s id :
  users (tables (cleanup_expired_records now max_age_minutes s).2) !! id
  = match users (tables s) !! id with
    | Some u =>
        if user_expired (minutes_ago now max_age_minutes) s id u then None else Some u
    | None => None
    end.
Proof.
  unfold cleanup_expired_records. cbn [snd tables users].
  destruct (users (tables s) !! id) as [u|] eqn:Hu.
  - destruct (user_expired _ s id u) eqn:Hexp.
    + apply map_lookup_filter_None. right. intros u' Hu'. simplify_eq. cbn.
      rewrite Hexp. intros Hn. by apply Hn.
    + apply map_lookup_filter_Some. split; [done|]. cbn. by rewrite Hexp.
  - apply map_lookup_filter_None. by left.
Qed.



Section AccountsExpiry.
Context {werkzeug : Werkzeug}.

(** X21.  An account made by [create_user] has no date, and so it never
    expires: no call of [cleanup_expired_records], at whatever moment and
    with whatever age, removes it or changes it. *)
Theorem create_user_never_expires salt username password s uid s' now max_age_minutes :
  create_user salt username password s = Ok ((true, Some uid), s') ->
  let s'' := (cleanup_expired_records now max_age_minutes s').2 in
  is_Some (users (tables s') !! uid)
  /\ users (tables s'') !! uid = users (tables s') !! uid
  /\ uid ∈ undated s''.
Proof.
  intros Hrun s''. unfold create_user, bind_text in Hrun.
  destruct (forallb _ username); [|done]. cbn [bind] in Hrun.
  destruct (select_user_by_name username (tables s)); [done|].
  destruct (forallb _ (generate_password_hash password salt)); [|done].
  cbn [bind] in Hrun. injection Hrun as <- <-.
  assert (Hund : next_user_id (tables s) ∈ undated s'') by (cbn; set_solver).
  split_and!; [|subst s''|done].
  - cbn. rewrite lookup_insert_eq. by eexists.
  - rewrite cleanup_expired_records_user.
    destruct (users _ !! next_user_id (tables s)) as [u|]; [|done].
    unfold user_expired, user_date. rewrite bool_decide_eq_true_2; [done|]. cbn. set_solver.
Qed.
End AccountsExpiry.

(** ** Listings *)

Lemma sql_limit_split {A} limit (rows : list A) :
  exists rest,
    rows = sql_limit limit rows ++ rest
    /\ (rest <> [] -> 0 <= limit /\ Z.of_nat (length (sql_limit limit rows)) = limit).
Proof.
  unfold sql_limit. destruct (Z.ltb_spec limit 0) as [Hneg|Hpos].
  - exists []. split; [by rewrite app_nil_r|done].
  - exists (drop (Z.to_nat limit) rows). split; [by rewrite take_drop|].
    intros Hrest. split; [done|]. rewrite length_take.
    destruct (Nat.le_gt_cases (length rows) (Z.to_nat limit)) as [Hle|Hgt]; [|lia].
    by rewrite drop_ge in Hrest.
Qed.

Lemma sql_limit_length {A} limit (rows : list A) :
  0 <= limit -> Z.of_nat (length (sql_limit limit rows)) <= limit.
Proof.
  intros Hpos. unfold sql_limit. destruct (Z.ltb_spec limit 0); [lia|].
  rewrite length_take. lia.
Qed.

Lemma NoDup_join_owner d (P : artwork_row -> Prop) `{!forall r, Decision (P r)}
    (l : list (Z * artwork)) :
  NoDup (l.*1) -> NoDup (r_id <$> filter P (omap (join_owner d) l)).
Proof.
  induction l as [|[id a] l IH]; [constructor|]. cbn [fmap list_fmap fst omap list_omap].
  intros Hdup. apply NoDup_cons in Hdup as [Hid Hdup].
  unfold join_owner at 1. cbn [snd fst].
  destruct (users d !! a_owner_id a) as [u|]; [|by apply IH].
  destruct (decide (P (ArtworkRow id a (u_username u)))) as [HP|HP].
  - rewrite filter_cons_True by done. cbn. apply NoDup_cons. split; [|by apply IH].
    intros Hin. apply list_elem_of_fmap in Hin as (r & Hr & Hin).
    apply list_elem_of_filter in Hin as [_ Hin].
    apply list_elem_of_omap in Hin as ([id' a'] & Hin & Hjoin).
    unfold join_owner in Hjoin. cbn in Hjoin.
    destruct (users d !! a_owner_id a'); [|done]. simplify_eq. cbn in Hid.
    apply Hid. apply list_elem_of_fmap. by exists (id', a').
  - rewrite filter_cons_False by done. by apply IH.
Qed.

Section Listings.
Context {sqlite : Sqlite}.
Hypothesis sqlite_orders : orders_rows.

Lemma select_artworks_spec where_ limit d :
  let rows := select_artworks where_ limit d in
  (forall r, r ∈ rows ->
     artworks d !! r_id r = Some (r_artwork r)
     /\ where_ (r_artwork r) = true
     /\ exists u, users d !! a_owner_id (r_artwork r) = Some u /\ r_owner_name r = u_username u)
  /\ (0 <= limit -> Z.of_nat (length rows) <= limit)
  /\ StronglySorted (fun a b => a_created_at (r_artwork b) <= a_created_at (r_artwork a)) rows
  /\ NoDup (r_id <$> rows)
  /\ (forall id a u,
        artworks d !! id = Some a -> where_ a = true -> users d !! a_owner_id a = Some u ->
        ArtworkRow id a (u_username u) ∈ rows
        \/ (0 <= limit /\ Z.of_nat (length rows) = limit
            /\ forall r, r ∈ rows -> a_created_at a <= a_created_at (r_artwork r))).
Proof.
  unfold select_artworks.
  set (candidates := filter _ (omap (join_owner d) (map_to_list (artworks d)))).
  set (key := fun r : artwork_row => a_created_at (r_artwork r)).
  destruct (sqlite_orders _ key candidates) as [Hperm Hsorted].
  set (sorted := order_by_desc key candidates) in *.
  destruct (sql_limit_split limit sorted) as (rest & Hsplit & Hrest).
  set (rows := sql_limit limit sorted) in *. cbv zeta.
  assert (Hcand : forall r, r ∈ candidates <->
            artworks d !! r_id r = Some (r_artwork r) /\ where_ (r_artwork r) = true
            /\ exists u, users d !! a_owner_id (r_artwork r) = Some u
                         /\ r_owner_name r = u_username u).
  { intros r. subst candidates. rewrite list_elem_of_filter, list_elem_of_omap. split.
    - intros (Hw & [id a] & Hin & Hjoin). apply elem_of_map_to_list in Hin.
      unfold join_owner in Hjoin. cbn in Hjoin.
      destruct (users d !! a_owner_id a) as [u|] eqn:Hu; [|done]. simplify_eq. cbn.
      split_and!; try done. by exists u.
    - intros (Ha & Hw & u & Hu & Hname). split; [done|].
      exists (r_id r, r_artwork r). split; [by apply elem_of_map_to_list|].
      unfold join_owner. cbn. rewrite Hu. destruct r. cbn in *. by subst. }
  assert (Hin : forall r, r ∈ rows -> r ∈ candidates).
  { intros r Hr. rewrite <- Hperm, Hsplit. apply elem_of_app. by left. }
  split_and!.
  - intros r Hr. by apply Hcand, Hin.
  - apply sql_limit_length.
  - rewrite Hsplit in Hsorted. by apply StronglySorted_app_1_l in Hsorted.
  - assert (Hdup : NoDup (r_id <$> sorted)).
    { rewrite Hperm. subst candidates. apply NoDup_join_owner, NoDup_fst_map_to_list. }
    rewrite Hsplit, fmap_app in Hdup. by apply NoDup_app in Hdup as [Hdup _].
  - intros id a u Ha Hw Hu.
    assert (Hrow : ArtworkRow id a (u_username u) ∈ sorted).
    { rewrite Hperm. apply Hcand. cbn. split_and!; try done. by exists u. }
    rewrite Hsplit in Hrow. apply elem_of_app in Hrow as [Hrow|Hrow]; [by left|right].
    destruct Hrest as [Hpos Hlen]; [by intros ->; apply elem_of_nil in Hrow|].
    split_and!; try done. intros r Hr. rewrite Hsplit in Hsorted.
    apply (StronglySorted_app_1_elem_of _ _ _ _ _ Hsorted Hr Hrow).
Qed.

(** X22.  The public list holds public artworks only, each with the name of its
    owner and each once, the newest first, and no more of them than the
    limit.  An artwork that is public and has its owner's row is either
    listed or no newer than every artwork listed, the list being full.
    A private artwork is never listed. *)
Theorem list_public_artworks_public_only limit d :
  in_int64 limit = true ->
  exists rows,
    list_public_artworks limit d = Ok rows
    /\ (forall r, r ∈ rows ->
          artworks d !! r_id r = Some (r_artwork r)
          /\ a_is_private (r_artwork r) = 0
          /\ exists u, users d !! a_owner_id (r_artwork r) = Some u
                       /\ r_owner_name r = u_username u)
    /\ (forall id a, artworks d !! id = Some a -> a_is_private a <> 0 ->
          id ∉ r_id <$> rows)
    /\ (0 <= limit -> Z.of_nat (length rows) <= limit)
    /\ StronglySorted (fun a b => a_created_at (r_artwork b) <= a_created_at (r_artwork a)) rows
    /\ NoDup (r_id <$> rows)
    /\ (forall id a u,
          artworks d !! id = Some a -> a_is_private a = 0 ->
          users d !! a_owner_id a = Some u ->
          ArtworkRow id a (u_username u) ∈ rows
          \/ (0 <= limit /\ Z.of_nat (length rows) = limit
              /\ forall r, r ∈ rows -> a_created_at a <= a_created_at (r_artwork r))).
Proof.
  intros Hlimit. unfold list_public_artworks, bind_int. rewrite Hlimit. cbn [bind].
  eexists. split; [done|].
  destruct (select_artworks_spec (fun a => a_is_private a =? 0) limit d)
    as (Hrows & Hlen & Hsorted & Hdup & Hfull).
  split_and!; try done.
  - intros r Hr. destruct (Hrows r Hr) as (Ha & Hw & Hu). by apply Z.eqb_eq in Hw.
  - intros id a Ha Hprivate Hin. apply list_elem_of_fmap in Hin as (r & -> & Hr).
    destruct (Hrows r Hr) as (Ha' & Hw & _). apply Z.eqb_eq in Hw. congruence.
  - intros id a u Ha Hpub Hu. apply Hfull; try done. by apply Z.eqb_eq.
Qed.

(** X23.  The list of a user's artworks holds artworks of that user only, each
    once, the newest first, and no more of them than the limit; an artwork
    of the user is either listed or no newer than every artwork listed, the
    list being full.  The user must have a row in [users]: the artworks of
    a user without one are not listed. *)
Theorem fetch_recent_artworks_for_user_own user_id limit d :
  in_int64 user_id = true ->
  in_int64 limit = true ->
  exists rows,
    fetch_recent_artworks_for_user user_id limit d = Ok rows
    /\ (forall r, r ∈ rows ->
          artworks d !! r_id r = Some (r_artwork r)
          /\ a_owner_id (r_artwork r) = user_id
          /\ exists u, users d !! user_id = Some u /\ r_owner_name r = u_username u)
    /\ (users d !! user_id = None -> rows = [])
    /\ (0 <= limit -> Z.of_nat (length rows) <= limit)
    /\ StronglySorted (fun a b => a_created_at (r_artwork b) <= a_created_at (r_artwork a)) rows
    /\ NoDup (r_id <$> rows)
    /\ (forall id a u,
          artworks d !! id = Some a -> a_owner_id a = user_id ->
          users d !! user_id = Some u ->
          ArtworkRow id a (u_username u) ∈ rows
          \/ (0 <= limit /\ Z.of_nat (length rows) = limit
              /\ forall r, r ∈ rows -> a_created_at a <= a_created_at (r_artwork r))).
Proof.
  intros Huser Hlimit. unfold fetch_recent_artworks_for_user, bind_int.
  rewrite Huser, Hlimit. cbn [bind]. eexists. split; [done|].
  destruct (select_artworks_spec (fun a => a_owner_id a =? user_id) limit d)
    as (Hrows & Hlen & Hsorted & Hdup & Hfull).
  split_and!; try done.
  - intros r Hr. destruct (Hrows r Hr) as (Ha & Hw & u & Hu & Hname).
    apply Z.eqb_eq in Hw. split_and!; try done. exists u. by rewrite <- Hw.
  - intros Hnone. destruct (select_artworks _ _ _) as [|r rows] eqn:Hsel; [done|].
    destruct (Hrows r) as (_ & Hw & u & Hu & _); [left|].
    apply Z.eqb_eq in Hw. congruence.
  - intros id a u Ha Hown Hu. apply Hfull; try done; [by apply Z.eqb_eq|by rewrite Hown].
Qed.
End Listings.

(** ** History *)

Section History.
Context {sqlite : Sqlite}.
Hypothesis sqlite_orders : orders_rows.

Lemma fetch_transactions_for_user_elem_of user_id d :
  in_int64 user_id = true ->
  exists rows,
    fetch_transactions_for_user user_id d = Ok rows
    /\ (forall row, row ∈ rows <->
          exists t, t ∈ transactions d
                    /\ (t_buyer_id t = user_id \/ t_seller_id t = user_id)
                    /\ join_parties d t = Some row)
    /\ StronglySorted (fun a b => t_created_at (x_transaction b)
                                  <= t_created_at (x_transaction a)) rows.
Proof.
  intros Huser. unfold fetch_transactions_for_user, bind_int. rewrite Huser. cbn [bind].
  eexists. split; [done|].
  destruct (sqlite_orders _ (fun r => t_created_at (x_transaction r))
              (omap (join_parties d)
                    (filter (fun t => t_buyer_id t = user_id \/ t_seller_id t = user_id)
                            (transactions d)))) as [Hperm Hsorted].
  split; [|done]. intros row. rewrite Hperm, list_elem_of_omap.
  split.
  - intros (t & Ht & Hjoin). apply list_elem_of_filter in Ht as [Hparty Ht]. by exists t.
  - intros (t & Ht & Hparty & Hjoin). exists t. split; [|done].
    by apply list_elem_of_filter.
Qed.

(** X24.  The history of a user holds the transactions in which the user bought
    or sold, the newest first, each with the names of the two parties and
    the title of the artwork as they are now; a transaction whose buyer,
    seller or artwork has no row any more is not in it. *)
Theorem fetch_transactions_for_user_parties user_id d :
  in_int64 user_id = true ->
  exists rows,
    fetch_transactions_for_user user_id d = Ok rows
    /\ (forall row, row ∈ rows ->
          x_transaction row ∈ transactions d
          /\ (t_buyer_id (x_transaction row) = user_id
              \/ t_seller_id (x_transaction row) = user_id)
          /\ (exists b, users d !! t_buyer_id (x_transaction row) = Some b
                        /\ x_buyer_name row = u_username b)
          /\ (exists s, users d !! t_seller_id (x_transaction row) = Some s
                        /\ x_seller_name row = u_username s)
          /\ (exists a, artworks d !! t_artwork_id (x_transaction row) = Some a
                        /\ x_artwork_title row = a_title a))
    /\ (forall t, t ∈ transactions d ->
          t_buyer_id t = user_id \/ t_seller_id t = user_id ->
          (exists row, row ∈ rows /\ x_transaction row = t)
          <-> is_Some (users d !! t_buyer_id t) /\ is_Some (users d !! t_seller_id t)
              /\ is_Some (artworks d !! t_artwork_id t))
    /\ StronglySorted (fun a b => t_created_at (x_transaction b)
                                  <= t_created_at (x_transaction a)) rows.
Proof.
  intros Huser.
  destruct (fetch_transactions_for_user_elem_of user_id d Huser)
    as (rows & Hrun & Hrows & Hsorted).
  exists rows. split_and!; try done.
  - intros row Hrow. apply Hrows in Hrow as (t & Ht & Hparty & Hjoin).
    unfold join_parties in Hjoin.
    destruct (users d !! t_buyer_id t) as [b|] eqn:Hb; [|done].
    destruct (users d !! t_seller_id t) as [sl|] eqn:Hs; [|done].
    destruct (artworks d !! t_artwork_id t) as [a|] eqn:Ha; [|done].
    simplify_eq. cbn. split_and!; eauto.
  - intros t Ht Hparty. split.
    + intros (row & Hrow & <-). apply Hrows in Hrow as (t & Ht' & _ & Hjoin).
      unfold join_parties in Hjoin.
      destruct (users d !! t_buyer_id t) as [b|] eqn:Hb; [|done].
      destruct (users d !! t_seller_id t) as [sl|] eqn:Hs; [|done].
      destruct (artworks d !! t_artwork_id t) as [a|] eqn:Ha; [|done].
      simplify_eq. cbn. rewrite Hb, Hs, Ha. eauto.
    + intros ([b Hb] & [sl Hs] & [a Ha]).
      exists (TransactionRow t (u_username b) (u_username sl) (a_title a)). split; [|done].
      apply Hrows. exists t. split_and!; try done.
      unfold join_parties. by rewrite Hb, Hs, Ha.
Qed.

(** X25.  A purchase is recorded, and shows in the history of the buyer and
    in that of the seller, with their names and the title of the artwork,
    when the seller has a row in [users]; when the seller has none, it
    shows in nobody's history.  Once the artwork is deleted the purchase
    shows in no history. *)
Theorem purchase_artwork_in_history now buyer_id artwork_id d msg d' art buyer :
  purchase_artwork now buyer_id artwork_id d = Ok ((true, msg), d') ->
  artworks d !! artwork_id = Some art ->
  users d !! buyer_id = Some buyer ->
  in_int64 (a_owner_id art) = true ->
  let sale := Transaction buyer_id (a_owner_id art) artwork_id (a_price art) now in
  sale ∈ transactions d'
  /\ (forall seller,
        users d !! a_owner_id art = Some seller ->
        let row := TransactionRow sale (u_username buyer) (u_username seller) (a_title art) in
        (exists rows, fetch_transactions_for_user buyer_id d' = Ok rows /\ row ∈ rows)
        /\ (exists rows,
              fetch_transactions_for_user (a_owner_id art) d' = Ok rows /\ row ∈ rows))
  /\ (users d !! a_owner_id art = None ->
      forall user_id rows r,
        fetch_transactions_for_user user_id d' = Ok rows -> r ∈ rows ->
        x_transaction r <> sale)
  /\ exists d'',
       delete_artwork artwork_id buyer_id d' = Ok (true, d'')
       /\ (forall user_id rows r,
             fetch_transactions_for_user user_id d'' = Ok rows -> r ∈ rows ->
             t_artwork_id (x_transaction r) <> artwork_id).
Proof.
  intros Hrun Hart Hbuyer Hs64 sale.
  destruct (purchase_artwork_bought _ _ _ _ _ _ Hrun)
    as (art' & buyer' & Ha64 & Hb64 & Hart0 & Hbuyer0 & Hself & _ & _ & Hd').
  rewrite Hart in Hart0. rewrite Hbuyer in Hbuyer0. simplify_eq.
  set (d' := Database _ _ _ _ _ _).
  assert (Hart' : artworks d' !! artwork_id = Some (with_owner buyer_id art')).
  { subst d'. cbn. by rewrite lookup_alter_eq, Hart. }
  assert (Hbuyer' : users d' !! buyer_id = Some (add_balance (- a_price art') buyer')).
  { subst d'. cbn. rewrite lookup_alter_ne by done. by rewrite lookup_alter_eq, Hbuyer. }
  assert (Hsale : sale ∈ transactions d').
  { subst d'. cbn. apply elem_of_app. right. left. }
  split_and!.
  - done.
  - intros seller Hseller row.
    assert (Hseller' : users d' !! a_owner_id art'
                       = Some (add_balance (a_price art') seller)).
    { subst d'. cbn. rewrite lookup_alter_eq. rewrite lookup_alter_ne by done.
      by rewrite Hseller. }
    assert (Hjoin : join_parties d' sale = Some row).
    { unfold join_parties. subst sale. cbn [t_buyer_id t_seller_id t_artwork_id].
      by rewrite Hbuyer', Hseller', Hart'. }
    split.
    + destruct (fetch_transactions_for_user_elem_of buyer_id d' Hb64)
        as (rows & Hr & Hrows & _).
      exists rows. split; [done|]. apply Hrows. exists sale. split_and!; try done. by left.
    + destruct (fetch_transactions_for_user_elem_of (a_owner_id art') d' Hs64)
        as (rows & Hr & Hrows & _).
      exists rows. split; [done|]. apply Hrows. exists sale. split_and!; try done. by right.
  - intros Hnone user_id rows r Hfetch Hr Hsame.
    assert (Hseller' : users d' !! a_owner_id art' = None).
    { subst d'. cbn. rewrite lookup_alter_eq. rewrite lookup_alter_ne by done.
      by rewrite Hnone. }
    unfold fetch_transactions_for_user in Hfetch.
    destruct (bind_int user_id) as [user_v|]; [|done]. cbn [bind] in Hfetch.
    injection Hfetch as <-.
    match type of Hr with
    | _ ∈ order_by_desc ?k ?l => destruct (sqlite_orders _ k l) as [Hperm _]
    end.
    rewrite Hperm in Hr. apply list_elem_of_omap in Hr as (t & _ & Hj).
    unfold join_parties in Hj.
    destruct (users d' !! t_buyer_id t); [|done].
    destruct (users d' !! t_seller_id t) eqn:Hs; [|done].
    destruct (artworks d' !! t_artwork_id t); [|done].
    injection Hj as <-. cbn [x_transaction] in Hsame. subst t. unfold sale in Hs.
    cbn [t_seller_id] in Hs. by rewrite Hseller' in Hs.
  - unfold delete_artwork, bind_int. rewrite Ha64, Hb64. cbn [bind]. rewrite Hart'.
    change (a_owner_id (with_owner buyer_id art')) with buyer_id. rewrite Z.eqb_refl.
    eexists. split; [done|]. intros user_id rows r Hfetch Hr Hid.
    unfold fetch_transactions_for_user in Hfetch.
    destruct (bind_int user_id) as [user_v|]; [|done]. cbn [bind] in Hfetch.
    injection Hfetch as <-.
    match type of Hr with
    | _ ∈ order_by_desc ?k ?l => destruct (sqlite_orders _ k l) as [Hperm _]
    end.
    rewrite Hperm in Hr. apply list_elem_of_omap in Hr as (t & _ & Hj).
    unfold join_parties in Hj. cbn [artworks set_artworks] in Hj.
    destruct (users _ !! t_buyer_id t); [|done].
    destruct (users _ !! t_seller_id t); [|done].
    destruct (delete artwork_id (artworks d') !! t_artwork_id t) eqn:Hgone; [|done].
    injection Hj as <-. cbn in Hid. rewrite Hid in Hgone.
    by rewrite lookup_delete_eq in Hgone.
Qed.
End History.

(** ** Search *)










Section SearchArtworks.
Context {sqlite : Sqlite}.

End SearchArtworks.

(** ** The handlers together *)

Section Visitors.
Context {python : Cpython} {urllib : Urllib} {ipaddress : Ipaddress}
        {socket : Socket} {requests : Requests} {sqlite : Sqlite}.

(** X28.  A visitor whose session names no user of the store is sent to the
    login page by every handler that shows or changes anything of the
    auction, and nothing is written. *)
Theorem visitor_is_sent_to_login now sess req args artwork_id d :
  logged_in sess d = false ->
  index sess d = Ok (Goto "login")
  /\ transactions_view sess d = Ok (Goto "login")
  /\ search sess args d = inr (Goto "login")
  /\ buy_artwork now sess artwork_id d = Ok (Goto "login", d)
  /\ delete_artwork_route sess artwork_id d = Ok (Goto "login", d)
  /\ create_artwork now sess req d = Ok (Redirect "login", d)
  /\ edit_artwork sess req artwork_id d = Ok (Redirect "login", d)
  /\ artwork_settings now sess req artwork_id d = Ok (Redirect "login", d)
  /\ import_artwork now sess req d = Ok (Redirect "login", d).
Proof.
  intros Hout.
  unfold index, transactions_view, search, buy_artwork, delete_artwork_route,
    create_artwork, edit_artwork, artwork_settings, import_artwork.
  rewrite Hout. done.
Qed.
End Visitors.

Section Registration.
Context {werkzeug : Werkzeug} {hashlib : Hashlib} {sqlite : Sqlite}.

Hypothesis sqlite_orders : orders_rows.
Hypothesis generated_has_marker :
  forall password salt, has_scheme_marker (generate_password_hash password salt) = true.
Hypothesis generated_verifies :
  forall password salt,
    check_password_hash (generate_password_hash password salt) password = true.

(** X29.  Registration, first page, logout, login.  A registration under a free
    name, with a password, makes the account and opens its session; the
    first page then shows the balance 1000 and no artwork of the user.
    After a logout the first page sends to the login page.  A login with
    the same form opens the same session and writes nothing, and a second
    registration with it is refused. *)
Theorem register_then_login salt salt' sess sess' req s :
  method req = POST ->
  let username := field "username" [] req in
  let password := field "password" [] req in
  let uid := next_user_id (tables s) in
  username <> [] ->
  password <> [] ->
  bind_text username = Ok username ->
  bind_text (generate_password_hash password salt)
  = Ok (generate_password_hash password salt) ->
  (forall id u, users (tables s) !! id = Some u -> u_username u <> username) ->
  user_ids_fresh (tables s) ->
  (forall id a, artworks (tables s) !! id = Some a -> a_owner_id a <> uid) ->
  in_int64 uid = true ->
  exists s' public,
    let opened := Session (Some username) (Some uid) in
    register salt sess req s = Ok ((Goto "index", opened), s')
    /\ uid ∈ undated s'
    /\ index opened (tables s') = Ok (IndexPage username 1000 [] public)
    /\ index (logout opened).2 (tables s') = Ok (Goto "login")
    /\ login_view salt' sess' req (tables s') = Ok ((Goto "index", opened), tables s')
    /\ register salt' sess' req s' = Ok ((RegisterPage (Some UserAlreadyExists), sess'), s').
Proof.
  intros Hpost username password uid Hu Hp Hname Hhash Hfree Hfresh Hnone Huid.
  destruct (create_user_registers generated_has_marker generated_verifies
              salt salt' username password password s Hname Hhash Hfree Hfresh)
    as (s' & row & Hcreate & Hrow & Hrname & Hbal & Hund & Hexists & Hbalance & Hlogin
        & Hagain).
  fold uid in Hcreate, Hrow, Hund, Hbalance, Hlogin.
  assert (Harts : artworks (tables s') = artworks (tables s)).
  { unfold create_user in Hcreate. rewrite Hname in Hcreate. cbn [bind] in Hcreate.
    destruct (select_user_by_name username (tables s)); [done|].
    rewrite Hhash in Hcreate. cbn [bind] in Hcreate. by simplify_eq. }
  exists s', (select_artworks (fun a => a_is_private a =? 0) 50 (tables s')).
  cbv zeta. split_and!.
  - unfold register. rewrite Hpost. fold username password.
    destruct username as [|c name] eqn:Eu; [done|].
    destruct password as [|c' pw] eqn:Ep; [done|].
    rewrite Hcreate. done.
  - done.
  - unfold index, logged_in. cbn [sess_username]. rewrite Hexists. cbn [negb bind session_user_id sess_user_id].
    rewrite Hbalance. unfold fetch_recent_artworks_for_user, list_public_artworks, bind_int.
    rewrite Huid. change (in_int64 20) with true. change (in_int64 50) with true.
    cbn [bind session_username sess_username].
    destruct (select_artworks_spec sqlite_orders (fun a => a_owner_id a =? uid) 20 (tables s'))
      as (Hrows & _).
    destruct (select_artworks _ 20 _) as [|r own]; [done|]. exfalso.
    destruct (Hrows r) as (Ha & Howner & _); [left|].
    apply Z.eqb_eq in Howner. rewrite Harts in Ha. by destruct (Hnone _ _ Ha).
  - done.
  - unfold login_view. rewrite Hpost. fold username password.
    destruct username as [|c name] eqn:Eu; [done|].
    destruct password as [|c' pw] eqn:Ep; [done|].
    rewrite Hlogin. done.
  - unfold register. rewrite Hpost. fold username password.
    destruct username as [|c name] eqn:Eu; [done|].
    destruct password as [|c' pw] eqn:Ep; [done|].
    rewrite Hagain. done.
Qed.
End Registration.

(** ** [json.loads] after [json.dumps] *)

(** ** Decimal numerals *)

Lemma uint_digits_acc u : forall acc,
  fold_left (fun a c => a * 10 + (Z.of_N c - 48)) (uint_digits u) (Z.pos acc)
  = Z.pos (Pos.of_uint_acc u acc).
Proof.
  induction u; intros acc; cbn [uint_digits fold_left Pos.of_uint_acc]; [done|..];
    rewrite <- IHu; f_equal; lia.
Qed.

Lemma uint_digits_value u : digits_value (uint_digits u) = Z.of_N (Pos.of_uint u).
Proof.
  unfold digits_value. induction u; cbn [uint_digits fold_left Pos.of_uint]; [done|..];
    try (exact IHu); cbn [Z.of_N]; rewrite <- uint_digits_acc; reflexivity.
Qed.

Lemma repr_digits_value p : digits_value (uint_digits (Pos.to_uint p)) = Z.pos p.
Proof. by rewrite uint_digits_value, Unsigned.of_to. Qed.

Lemma to_uint_no_leading_zero p u : Pos.to_uint p <> Decimal.D0 u.
Proof.
  intros Hp.
  assert (Hnorm : Decimal.unorm (Pos.to_uint p) = Pos.to_uint p).
  { rewrite <- Unsigned.to_of, Unsigned.of_to. reflexivity. }
  rewrite Hp, unorm_D0 in Hnorm.
  assert (Hu : u = Decimal.Nil \/ u <> Decimal.Nil) by (destruct u; auto).
  destruct Hu as [->|Hu].
  { by apply (Unsigned.to_uint_nonzero p). }
  pose proof (nb_digits_unorm u Hu) as Hlen.
  rewrite Hnorm in Hlen. cbn in Hlen. lia.
Qed.

Lemma repr_digits_head p :
  exists c ds,
    uint_digits (Pos.to_uint p) = c :: ds
    /\ ((49 <=? c) && (c <=? 57))%N = true
    /\ forallb is_ascii_digit ds = true.
Proof.
  pose proof (to_uint_no_leading_zero p) as Hzero.
  pose proof (Unsigned.to_uint_nonnil p) as Hnil.
  destruct (Pos.to_uint p) as [|u|u|u|u|u|u|u|u|u|u]; [done|by destruct (Hzero u)|..];
    cbn [uint_digits]; eexists _, _; (split; [reflexivity|]); split; try done;
    apply uint_digits_ascii_digits.
Qed.

(** ** Numbers read back *)

Lemma span_digits_app ds rest :
  forallb is_ascii_digit ds = true -> delimited rest ->
  span_digits (ds ++ rest) = (ds, rest).
Proof.
  intros Hds Hrest. induction ds as [|c ds IH]; cbn [app].
  - destruct rest as [|c rest]; [done|]. cbn.
    destruct Hrest as [->|[->| ->]]; done.
  - cbn in Hds. apply andb_true_iff in Hds as [Hc Hds].
    cbn [span_digits]. rewrite Hc, IH; done.
Qed.

Lemma number_frac_delimited rest : delimited rest -> number_frac rest = ([], rest).
Proof.
  destruct rest as [|d [|f rest]]; [done|done|]. intros [->|[->| ->]]; done.
Qed.

Lemma number_exp_delimited rest : delimited rest -> number_exp rest = ([], rest).
Proof. destruct rest as [|e rest]; [done|]. intros [->|[->| ->]]; done. Qed.

Lemma match_number_digits c ds rest :
  ((49 <=? c) && (c <=? 57))%N = true -> forallb is_ascii_digit ds = true ->
  delimited rest ->
  number_int (c :: ds ++ rest) = Some (c :: ds, rest).
Proof.
  intros Hc Hds Hrest. unfold number_int. rewrite Hc. by rewrite span_digits_app.
Qed.

Lemma match_number_repr n rest :
  int_within_limit n = true ->
  delimited rest -> match_number (repr_int n ++ rest) = Ok (JInt n, rest).
Proof.
  unfold int_within_limit. intros Hlimit%Nat.leb_le Hrest.
  unfold match_number. destruct n as [|p|p]; cbn [repr_int Z.abs] in *.
  - cbn [app number_sign]. change (48 =? 45)%N with false. cbv iota.
    unfold number_int. change ((49 <=? 48) && (48 <=? 57))%N with false.
    change (48 =? 48)%N with true. cbv iota.
    rewrite number_frac_delimited, number_exp_delimited by done.
    by replace (INT_MAX_STR_DIGITS <? length [48%N])%nat with false
      by (symmetry; apply Nat.ltb_ge; exact Hlimit).
  - destruct (repr_digits_head p) as (c & ds & Hrepr & Hc & Hds).
    pose proof (repr_digits_value p) as Hvalue.
    change (length (uint_digits (Pos.to_uint p)) <= INT_MAX_STR_DIGITS)%nat in Hlimit.
    rewrite Hrepr in Hvalue, Hlimit |- *.
    cbn [app number_sign].
    replace (c =? 45)%N with false.
    2:{ symmetry. apply N.eqb_neq. apply andb_true_iff in Hc as [?%N.leb_le ?%N.leb_le]. lia. }
    rewrite match_number_digits by done.
    rewrite number_frac_delimited, number_exp_delimited by done.
    replace (INT_MAX_STR_DIGITS <? length (c :: ds))%nat with false
      by (symmetry; apply Nat.ltb_ge; exact Hlimit).
    by rewrite Hvalue.
  - destruct (repr_digits_head p) as (c & ds & Hrepr & Hc & Hds).
    pose proof (repr_digits_value p) as Hvalue.
    change (length (uint_digits (Pos.to_uint p)) <= INT_MAX_STR_DIGITS)%nat in Hlimit.
    rewrite Hrepr in Hvalue, Hlimit |- *.
    cbn [app number_sign]. change (45 =? 45)%N with true. cbv iota.
    rewrite match_number_digits by done.
    rewrite number_frac_delimited, number_exp_delimited by done.
    replace (INT_MAX_STR_DIGITS <? length (c :: ds))%nat with false
      by (symmetry; apply Nat.ltb_ge; exact Hlimit).
    by rewrite Hvalue.
Qed.

Lemma scan_once_minus depth s :
  scan_once depth (45%N :: s)
  = match constant "-Infinity" (JFloat (py "-Infinity")) (45%N :: s) with
    | Some found => Ok found
    | None => match_number (45%N :: s)
    end.
Proof. by destruct depth. Qed.

Lemma scan_once_int depth n rest :
  int_within_limit n = true ->
  delimited rest -> scan_once depth (repr_int n ++ rest) = Ok (JInt n, rest).
Proof.
  intros Hlimit Hrest. rewrite <- (match_number_repr n rest Hlimit Hrest).
  destruct n as [|p|p]; cbn [repr_int].
  - by destruct depth.
  - destruct (repr_digits_head p) as (c & ds & -> & Hc & Hds).
    apply andb_true_iff in Hc as [Hlo%N.leb_le Hhi%N.leb_le].
    cbn [app]. destruct depth; cbn [scan_once];
      repeat match goal with
             | |- context [(c =? ?k)%N] =>
                 replace (c =? k)%N with false by (symmetry; apply N.eqb_neq; lia)
             end; done.
  - destruct (repr_digits_head p) as (c & ds & -> & Hc & Hds).
    apply andb_true_iff in Hc as [Hlo%N.leb_le Hhi%N.leb_le].
    assert (Hconst : forall v, constant "-Infinity" v (45%N :: c :: ds ++ rest) = None).
    { intros v. unfold constant.
      change (py "-Infinity") with (45%N :: 73%N :: py "nfinity"). cbn [strip_prefix].
      change (45 =? 45)%N with true. cbv iota.
      by replace (73 =? c)%N with false by (symmetry; apply N.eqb_neq; lia). }
    cbn [app]. by rewrite scan_once_minus, Hconst.
Qed.

(** ** Documents read back *)

Lemma skip_ws_head c r : is_ws c = false -> skip_ws (c :: r) = c :: r.
Proof. intros Hc. cbn. by rewrite Hc. Qed.

Lemma scan_once_null depth s :
  scan_once depth (110%N :: 117%N :: 108%N :: 108%N :: s) = Ok (JNull, s).
Proof. by destruct depth. Qed.

Lemma scan_once_str depth s rest :
  well_formed s = true ->
  scan_once depth (encode_basestring_ascii s ++ rest) = Ok (JStr s, rest).
Proof.
  intros Hs. unfold encode_basestring_ascii. cbn [app]. rewrite <- app_assoc. cbn [app].
  by rewrite scan_once_string, scanstring_escaped.
Qed.

Lemma make_dict_acc members : forall acc,
  NoDup (map fst (acc ++ members)) ->
  fold_left (fun d kv => dict_set (fst kv) (snd kv) d) members acc = acc ++ members.
Proof.
  induction members as [|[k v] members IH]; intros acc Hdup; cbn [fold_left].
  - by rewrite app_nil_r.
  - assert (Hset : dict_set k v acc = acc ++ [(k, v)]).
    { rewrite map_app in Hdup. apply NoDup_app in Hdup as (_ & Hfresh & _).
      assert (Hk : k ∉ map fst acc).
      { intros Hin. apply (Hfresh k Hin). cbn. left. }
      clear -Hk. induction acc as [|[k' v'] acc IHacc]; [done|]. cbn in *.
      apply not_elem_of_cons in Hk as [Hne Hk]. unfold pystr_eqb.
      rewrite bool_decide_eq_false_2 by done. by rewrite IHacc. }
    cbn [fst snd]. rewrite Hset, IH; rewrite <- app_assoc; done.
Qed.

Lemma make_dict_nodup members : NoDup (map fst members) -> make_dict members = members.
Proof. intros Hdup. unfold make_dict. by rewrite make_dict_acc. Qed.

Lemma join_cons sep (x y : pystr) l : join sep (x :: y :: l) = x ++ sep ++ join sep (y :: l).
Proof. reflexivity. Qed.

Section RoundTrip.
Context {python : Cpython}.

(** What a document starts with: no white space, no closing bracket. *)
Lemma json_dumps_head v :
  plain v = true ->
  exists c r,
    json_dumps v = c :: r
    /\ is_ws c = false /\ (c =? 93)%N = false /\ (c =? 125)%N = false
    /\ (c =? 65279)%N = false.
Proof.
  destruct v as [ | [|] | [|p|p] | lexeme | s | items | members]; cbn [plain json_dumps];
    intros Hv; try done; try (by eexists _, _).
  destruct (repr_digits_head p) as (c & ds & Hrepr & Hc & _). cbn [repr_int]. rewrite Hrepr.
  apply andb_true_iff in Hc as [Hlo%N.leb_le Hhi%N.leb_le].
  exists c, ds. split; [done|]. unfold is_ws.
  repeat match goal with
         | |- context [(c =? ?k)%N] =>
             replace (c =? k)%N with false by (symmetry; apply N.eqb_neq; lia)
         end. done.
Qed.

Lemma join_length (items : list json) :
  Forall (fun x => plain x = true) items ->
  (length items <= length (join (py ", ") (map json_dumps items)))%nat.
Proof.
  induction 1 as [|x items Hx Hitems IH]; [done|].
  destruct (json_dumps_head x Hx) as (c & r & Hd & _).
  destruct items as [|y items]; [cbn [map join]; rewrite Hd; cbn; lia|].
  cbn [map] in *. rewrite join_cons, !length_app, Hd. cbn [length] in *. lia.
Qed.

Lemma array_items_dumps depth items rest :
  items <> [] ->
  Forall (fun x => plain x = true
                   /\ forall rest', delimited rest' ->
                        scan_once depth (json_dumps x ++ rest') = Ok (x, rest')) items ->
  forall n, (length items <= n)%nat ->
    array_items n (scan_once depth)
                (join (py ", ") (map json_dumps items) ++ 93%N :: rest)
    = Ok (items, rest).
Proof.
  intros Hne Hitems. induction Hitems as [|x items [Hx Hscan] Hitems IH]; [done|].
  intros [|n] Hn; [cbn in Hn; lia|]. cbn [array_items].
  destruct items as [|y items].
  - cbn [map join]. rewrite Hscan by (cbn; auto). cbn [bind]. by rewrite skip_ws_head.
  - cbn [map]. rewrite join_cons. change (py ", ") with [44; 32]%N.
    rewrite <- !app_assoc. cbn [app].
    rewrite Hscan by (cbn; auto). cbn [bind]. rewrite skip_ws_head by done.
    cbn [N.eqb Pos.eqb]. change (skip_ws (32%N :: ?s)) with (skip_ws s).
    inversion Hitems as [|? ? [Hy _] _]; subst.
    destruct (json_dumps_head y Hy) as (c & r & Hd & Hws & _).
    assert (Hskip : forall t, skip_ws (join [44; 32]%N (map json_dumps (y :: items)) ++ t)
                              = join [44; 32]%N (map json_dumps (y :: items)) ++ t).
    { intros t. cbn [map]. destruct items as [|z items].
      - cbn [map join]. rewrite Hd. cbn [app]. by rewrite skip_ws_head.
      - cbn [map]. rewrite join_cons, Hd. cbn [app]. by rewrite skip_ws_head. }
    rewrite Hskip. change [44; 32]%N with (py ", "). rewrite IH; [done|done|].
    cbn [length] in *. lia.
Qed.

Definition dumps_member (kv : pystr * json) : pystr :=
  let (k, x) := kv in encode_basestring_ascii k ++ py ": " ++ json_dumps x.

Lemma object_members_dumps depth members rest :
  members <> [] ->
  Forall (fun kv : pystr * json =>
            well_formed (fst kv) = true
            /\ forall rest', delimited rest' ->
                 scan_once depth (json_dumps (snd kv) ++ rest') = Ok (snd kv, rest')
               /\ exists c r, json_dumps (snd kv) = c :: r /\ is_ws c = false) members ->
  forall n, (length members <= n)%nat ->
    object_members n (scan_once depth)
                   (join (py ", ") (map dumps_member members) ++ 125%N :: rest)
    = Ok (members, rest).
Proof.
  intros Hne Hmembers. induction Hmembers as [|[k x] members [Hk Hscan] Hmembers IH]; [done|].
  intros [|n] Hn; [cbn in Hn; lia|]. cbn [fst snd] in *.
  assert (Hone : forall t, delimited t ->
            exists r, (dumps_member (k, x) ++ t) = 34%N :: r
              /\ scanstring r = Ok (k, 58%N :: 32%N :: json_dumps x ++ t)).
  { intros t Ht. unfold dumps_member, encode_basestring_ascii.
    change (py ": ") with [58; 32]%N. cbn [app]. eexists. split; [done|].
    rewrite <- !app_assoc. cbn [app]. by rewrite scanstring_escaped. }
  destruct (Hscan [] I) as (_ & c & r & Hd & Hws).
  destruct members as [|kv members].
  - cbn [map join].
    destruct (Hone (125%N :: rest)) as (r0 & -> & Hkey); [cbn; auto|].
    rewrite object_members_unfold. cbn [N.eqb Pos.eqb negb]. rewrite Hkey. cbn [bind].
    rewrite skip_ws_head by done. cbn [N.eqb Pos.eqb negb].
    change (skip_ws (32%N :: ?s)) with (skip_ws s).
    rewrite Hd. cbn [app]. rewrite skip_ws_head by done.
    change (c :: r ++ 125%N :: rest) with ((c :: r) ++ 125%N :: rest). rewrite <- Hd.
    destruct (Hscan (125%N :: rest)) as [-> _]; [cbn; auto|]. cbn [bind].
    by rewrite skip_ws_head.
  - cbn [map]. rewrite join_cons. change (py ", ") with [44; 32]%N.
    rewrite <- !app_assoc. cbn [app].
    change (dumps_member kv :: map dumps_member members)
      with (map dumps_member (kv :: members)).
    set (tail := join [44; 32]%N (map dumps_member (kv :: members)) ++ 125%N :: rest).
    destruct (Hone (44%N :: 32%N :: tail)) as (r0 & -> & Hkey); [cbn; auto|].
    rewrite object_members_unfold. cbn [N.eqb Pos.eqb negb]. rewrite Hkey. cbn [bind].
    rewrite skip_ws_head by done. cbn [N.eqb Pos.eqb negb].
    change (skip_ws (32%N :: ?s)) with (skip_ws s).
    rewrite Hd. cbn [app]. rewrite skip_ws_head by done.
    change (c :: r ++ 44%N :: 32%N :: tail) with ((c :: r) ++ 44%N :: 32%N :: tail).
    rewrite <- Hd.
    destruct (Hscan (44%N :: 32%N :: tail)) as [-> _]; [cbn; auto|]. cbn [bind].
    rewrite skip_ws_head by done. cbn [N.eqb Pos.eqb].
    change (skip_ws (32%N :: ?s)) with (skip_ws s).
    assert (Hskip : skip_ws tail = tail).
    { subst tail. destruct kv as [k' x'].
      assert (Hq : forall t, skip_ws (dumps_member (k', x') ++ t) = dumps_member (k', x') ++ t)
        by (intros t; unfold dumps_member, encode_basestring_ascii; cbn [app];
            by rewrite skip_ws_head).
      destruct members as [|kv' members]; [cbn [map join]; apply Hq|].
      cbn [map]. rewrite join_cons, <- app_assoc. apply Hq. }
    rewrite Hskip. subst tail. change [44; 32]%N with (py ", ").
    rewrite IH; [done|done|]. cbn [length] in *. lia.
Qed.
End RoundTrip.

Lemma scan_once_array depth r :
  scan_once (S depth) (91%N :: r)
  = match skip_ws r with
    | [] => Raise ValueError
    | c1 :: r1 =>
        if (c1 =? 93)%N then Ok (JArr [], r1)
        else
          let! (vs, rest) := array_items (length (c1 :: r1)) (scan_once depth) (c1 :: r1) in
          Ok (JArr vs, rest)
    end.
Proof. reflexivity. Qed.

Lemma scan_once_object depth r :
  scan_once (S depth) (123%N :: r)
  = match skip_ws r with
    | [] => Raise ValueError
    | c1 :: r1 =>
        if (c1 =? 125)%N then Ok (JObj [], r1)
        else
          let! (ms, rest) :=
            object_members (length (c1 :: r1)) (scan_once depth) (c1 :: r1) in
          Ok (JObj (make_dict ms), rest)
    end.
Proof. reflexivity. Qed.

Lemma json_height_item x (items : list json) :
  x ∈ items ->
  (json_height x <= foldr (fun x acc => Nat.max (json_height x) acc) O items)%nat.
Proof.
  induction items as [|y items IH]; intros Hin; [by apply elem_of_nil in Hin|].
  cbn. apply elem_of_cons in Hin as [->|Hin]; [lia|]. specialize (IH Hin). lia.
Qed.

Lemma json_height_member kv (members : list (pystr * json)) :
  kv ∈ members ->
  (json_height (snd kv)
   <= foldr (fun kv acc => Nat.max (json_height (snd kv)) acc) O members)%nat.
Proof.
  induction members as [|y members IH]; intros Hin; [by apply elem_of_nil in Hin|].
  cbn. apply elem_of_cons in Hin as [->|Hin]; [lia|]. specialize (IH Hin). lia.
Qed.

Section RoundTripValues.
Context {python : Cpython}.

Lemma json_dumps_object members :
  json_dumps (JObj members)
  = 123%N :: join (py ", ") (map dumps_member members) ++ [125%N].
Proof. reflexivity. Qed.

Lemma dumps_member_length (members : list (pystr * json)) :
  (length members <= length (join (py ", ") (map dumps_member members)))%nat.
Proof.
  assert (Hone : forall kv, exists r, dumps_member kv = 34%N :: r).
  { intros [k x]. unfold dumps_member, encode_basestring_ascii. cbn [app]. by eexists. }
  induction members as [|kv members IH]; [done|].
  destruct (Hone kv) as [r Hd].
  destruct members as [|kv' members]; [cbn [map join]; rewrite Hd; cbn; lia|].
  cbn [map] in *. rewrite join_cons, !length_app, Hd. cbn [length] in *. lia.
Qed.

Lemma scan_once_dumps v :
  plain v = true ->
  forall depth rest,
    (json_height v <= depth)%nat -> delimited rest ->
    scan_once depth (json_dumps v ++ rest) = Ok (v, rest).
Proof.
  induction v as [ | [|] | n | lexeme | s | items IH | members IH ] using json_ind';
    intros Hplain depth rest Hdepth Hrest; cbn [plain] in Hplain; try done.
  - apply scan_once_null.
  - apply scan_once_true.
  - apply scan_once_false.
  - by apply scan_once_int.
  - by apply scan_once_str.
  - cbn [json_height] in Hdepth. destruct depth as [|depth]; [lia|].
    cbn [json_dumps app]. rewrite <- app_assoc. cbn [app]. rewrite scan_once_array.
    destruct items as [|x items]; [done|].
    assert (Hitems : Forall (fun x => plain x = true
                         /\ forall rest', delimited rest' ->
                              scan_once depth (json_dumps x ++ rest') = Ok (x, rest'))
                       (x :: items)).
    { apply Forall_forall. intros y Hy. rewrite Forall_forall in IH.
      rewrite forallb_forall in Hplain.
      assert (Hp : plain y = true) by (apply Hplain; by apply list_elem_of_In).
      split; [done|]. intros rest' Hrest'. apply IH; try done.
      pose proof (json_height_item y (x :: items) Hy). lia. }
    assert (Hall : Forall (fun x => plain x = true) (x :: items)).
    { eapply Forall_impl; [exact Hitems|]. by intros y [Hy _]. }
    pose proof (join_length (x :: items) Hall) as Hlen.
    inversion Hall as [|? ? Hx _]; subst.
    destruct (json_dumps_head x Hx) as (c & r & Hd & Hws & Hbracket & _).
    assert (Hbody : exists r', join (py ", ") (map json_dumps (x :: items)) ++ 93%N :: rest
                               = c :: r').
    { cbn [map]. destruct items as [|y items]; [cbn [map join]|cbn [map]; rewrite join_cons];
        rewrite Hd; cbn [app]; by eexists. }
    destruct Hbody as [r' Hbody].
    rewrite Hbody, skip_ws_head, Hbracket by done. rewrite <- Hbody.
    rewrite array_items_dumps; [done|done|done|].
    rewrite length_app. cbn [length] in *. lia.
  - apply andb_true_iff in Hplain as [Hplain Hdup]. apply bool_decide_eq_true_1 in Hdup.
    cbn [json_height] in Hdepth. destruct depth as [|depth]; [lia|].
    rewrite json_dumps_object. cbn [app]. rewrite <- app_assoc. cbn [app].
    rewrite scan_once_object.
    destruct members as [|kv members]; [done|].
    assert (Hmembers : Forall (fun kv : pystr * json =>
                           well_formed (fst kv) = true
                           /\ forall rest', delimited rest' ->
                                scan_once depth (json_dumps (snd kv) ++ rest')
                                = Ok (snd kv, rest')
                                /\ exists c r, json_dumps (snd kv) = c :: r
                                               /\ is_ws c = false)
                         (kv :: members)).
    { apply Forall_forall. intros y Hy. rewrite Forall_forall in IH.
      rewrite forallb_forall in Hplain.
      assert (Hp : well_formed (fst y) && plain (snd y) = true)
        by (apply Hplain; by apply list_elem_of_In).
      apply andb_true_iff in Hp as [Hk Hp].
      split; [done|]. intros rest' Hrest'. split.
      - apply IH; try done. pose proof (json_height_member y (kv :: members) Hy). lia.
      - destruct (json_dumps_head (snd y) Hp) as (c & r & Hd & Hws & _). by exists c, r. }
    pose proof (dumps_member_length (kv :: members)) as Hlen.
    assert (Hbody : exists r',
               join (py ", ") (map dumps_member (kv :: members)) ++ 125%N :: rest
               = 34%N :: r').
    { destruct kv as [k x].
      destruct members as [|kv' members]; [cbn [map join]|cbn [map]; rewrite join_cons];
        unfold dumps_member at 1, encode_basestring_ascii; cbn [app]; by eexists. }
    destruct Hbody as [r' Hbody].
    rewrite Hbody, skip_ws_head by done. change (34 =? 125)%N with false. cbv iota.
    rewrite <- Hbody.
    rewrite object_members_dumps; [|done|done|rewrite length_app; cbn [length] in *; lia].
    cbn [bind]. by rewrite make_dict_nodup.
Qed.

(** X30.  What [json.dumps] writes, [json.loads] reads back: for every value
    without floats, whose integers have no more digits than the interpreter
    converts, whose strings hold Unicode scalar values, whose objects name
    each key once and whose nesting the interpreter's limit allows,
    decoding the encoded text gives the value, and so does
    [load_artwork_settings] on that text. *)
Theorem json_loads_dumps v :
  plain v = true ->
  (json_height v <= recursion_limit)%nat ->
  json_loads (json_dumps v) = Ok v
  /\ load_artwork_settings (JStr (json_dumps v)) = Ok v.
Proof.
  intros Hplain Hdepth.
  destruct (json_dumps_head v Hplain) as (c & r & Hd & Hws & _ & _ & Hbom).
  assert (Hloads : json_loads (json_dumps v) = Ok v).
  { unfold json_loads. rewrite Hd.
    assert (Hscan : scan_once recursion_limit (skip_ws (c :: r)) = Ok (v, [])).
    { rewrite skip_ws_head by done. rewrite <- Hd, <- (app_nil_r (json_dumps v)).
      by apply scan_once_dumps. }
    apply N.eqb_neq in Hbom.
    destruct c as [|p]; [by rewrite Hscan|].
    destruct (decide (p = 65279%positive)) as [->|Hp]; [done|].
    transitivity (let! (v0, rest) := scan_once recursion_limit (skip_ws (N.pos p :: r)) in
                  match skip_ws rest with [] => Ok v0 | _ :: _ => Raise ValueError end).
    - clear -Hp. repeat (destruct p as [p|p|]; try done).
    - by rewrite Hscan. }
  split; [done|]. unfold load_artwork_settings, loads_value. rewrite Hloads, Hd.
  cbn [truthy]. rewrite bool_decide_eq_false_2 by done. done.
Qed.
End RoundTripValues.

(** ** More examples *)

Lemma insert_desc_Permutation {A} (key : A -> timestamp) x l :
  insert_desc key x l ≡ₚ x :: l.
Proof.
  induction l as [|y l IH]; [done|]. cbn.
  destruct (key y <? key x); [done|]. rewrite IH. apply Permutation_swap.
Qed.

Lemma insert_desc_sorted {A} (key : A -> timestamp) x l :
  StronglySorted (fun a b => key b <= key a) l ->
  StronglySorted (fun a b => key b <= key a) (insert_desc key x l).
Proof.
  induction 1 as [|y l Hl IH Hy]; cbn; [repeat constructor|].
  destruct (Z.ltb_spec (key y) (key x)) as [Hlt|Hge].
  - constructor; [by constructor|]. constructor; [lia|].
    eapply Forall_impl; [exact Hy|]. cbn. intros z Hz. lia.
  - constructor; [done|]. rewrite insert_desc_Permutation. by constructor.
Qed.

Lemma sample_sqlite_orders : @orders_rows sample_sqlite.
Proof.
  intros A key rows. cbn. induction rows as [|x rows [IHp IHs]]; cbn.
  - split; [done|constructor].
  - split; [by rewrite insert_desc_Permutation, IHp|by apply insert_desc_sorted].
Qed.

Lemma sample_db_users u id :
  users sample_db !! id = Some u ->
  (id = 1 /\ u = User (py "alice") (py "plain:1$s$wonderland") 1000 0)
  \/ (id = 2 /\ u = User (py "bob") (py "1b9b1b9b1b9b1b9b1b9b1b9b1b9b1b9b") 300 0).
Proof.
  intros Hu. apply elem_of_map_to_list in Hu. vm_compute in Hu.
  apply elem_of_cons in Hu as [Hu|Hu];
    [simplify_eq; (left; split; reflexivity) || (right; split; reflexivity)|].
  apply elem_of_cons in Hu as [Hu|Hu];
    [simplify_eq; (left; split; reflexivity) || (right; split; reflexivity)|].
  by apply elem_of_nil in Hu.
Qed.

Lemma sample_db_balances_nonneg : balances_nonneg sample_db.
Proof.
  intros id u Hu. destruct (sample_db_users u id Hu) as [[_ ->]|[_ ->]]; cbn; lia.
Qed.

Lemma sample_db_usernames_unique : usernames_unique sample_db.
Proof.
  intros id1 id2 u1 u2 H1 H2 Hn.
  destruct (sample_db_users u1 id1 H1) as [[-> ->]|[-> ->]],
           (sample_db_users u2 id2 H2) as [[-> ->]|[-> ->]]; try done.
Qed.

Lemma sample_db_user_ids_fresh : user_ids_fresh sample_db.
Proof.
  intros id u Hu. destruct (sample_db_users u id Hu) as [[-> _]|[-> _]]; cbn; lia.
Qed.


Lemma purchase_artwork_balances_nonneg_witness :
  balances_nonneg (purchased 9 2 1 sample_db).
Proof.
  apply (purchase_artwork_balances_nonneg 9 2 1 sample_db
           (true, "Purchase successful"%string)).
  - exact sample_db_prices_nonneg.
  - exact sample_db_balances_nonneg.
  - vm_compute. reflexivity.
Defined.

Section MoreExamples.
#[local] Existing Instances sample_python sample_urllib sample_ipaddress sample_socket
  sample_requests sample_werkzeug sample_hashlib sample_sqlite.

Lemma sample_generated_has_marker password salt :
  has_scheme_marker (generate_password_hash password salt) = true.
Proof. cbn. apply bool_decide_eq_true_2. set_solver. Qed.

Lemma sample_generated_verifies password salt :
  check_password_hash (generate_password_hash password salt) password = true.
Proof.
  cbn. apply bool_decide_eq_true_2. do 8 apply suffix_cons_r. by apply suffix_app_r.
Qed.

Lemma import_artwork_frame_witness :
  exists r row,
    import_artwork 7 bob_session (import_request "http://example.com/art.json") sample_db
    = Ok (r, Database (users sample_db) (<[3 := row]> (artworks sample_db))
                      (transactions sample_db) (settings_rows sample_db) 3 4)
    /\ a_owner_id row = 2 /\ a_is_private row = 0.
Proof.
  destruct (import_artwork 7 bob_session (import_request "http://example.com/art.json")
              sample_db) as [[r d']|e] eqn:Hrun; [|vm_compute in Hrun; discriminate].
  destruct (import_artwork_frame 7 bob_session
              (import_request "http://example.com/art.json") sample_db r d' Hrun)
    as [Hsame|(row & Hd' & Howner & Hpublic & _)].
  - exfalso. subst d'. vm_compute in Hrun. discriminate.
  - exists r, row. split_and!; [by rewrite Hd'| |exact Hpublic].
    cbn in Howner. by injection Howner as <-.
Defined.

Lemma import_artwork_failures_witness :
  import_artwork 7 bob_session (import_request "http://example.com/missing") sample_db
  = Ok (import_page None (Some (RequestError (OSError (py "connection refused")))) None None,
        sample_db).
Proof.
  destruct (import_artwork_failures 7 bob_session
              (import_request "http://example.com/missing") sample_db 2)
    as [_ Hsafe]; [vm_compute; reflexivity | reflexivity | reflexivity
                  | vm_compute; discriminate | ].
  destruct Hsafe as [Hraise _]; [vm_compute; reflexivity|].
  apply Hraise. vm_compute. reflexivity.
Defined.

Lemma edit_artwork_owner_only_witness :
  exists endpoint,
    edit_artwork bob_session (create_request "1") 1 sample_db
    = Ok (Redirect endpoint, sample_db).
Proof.
  destruct (edit_artwork bob_session (create_request "1") 1 sample_db) as [[r d']|e] eqn:Hrun;
    [|vm_compute in Hrun; discriminate].
  destruct (edit_artwork_owner_only 7 bob_session (create_request "1") 1 sample_db)
    as [Hedit _].
  - intros art Ha. vm_compute in Ha. simplify_eq. cbn. discriminate.
  - destruct (Hedit r d' Hrun) as (-> & endpoint & ->). by exists endpoint.
Defined.

Lemma edit_artwork_frame_witness :
  exists r d',
    edit_artwork alice_session (create_request "75") 1 sample_db = Ok (r, d')
    /\ a_owner_id <$> artworks d' !! 1 = Some 1
    /\ artworks d' !! 2 = artworks sample_db !! 2.
Proof.
  destruct (edit_artwork alice_session (create_request "75") 1 sample_db)
    as [[r d']|e] eqn:Hrun; [|vm_compute in Hrun; discriminate].
  destruct (edit_artwork_frame alice_session (create_request "75") 1 sample_db r d' Hrun)
    as (_ & _ & _ & _ & Hrest & Howner & _).
  exists r, d'. split_and!; [done|by rewrite Howner|by apply Hrest].
Defined.

Lemma create_artwork_description_witness :
  exists d',
    create_artwork 7 alice_session described_request sample_db = Ok (Redirect "index", d')
    /\ edit_artwork alice_session page_request 3 d'
       = Ok (Render (Page "edit_artwork.html" None None None None
                          (Some (JStr (py "red wedge, white circle"))) None), d').
Proof.
  destruct (create_artwork_description 7 alice_session described_request page_request
              sample_db 1 (User (py "alice") (py "plain:1$s$wonderland") 1000 0) 40)
    as (d' & Hcreate & _ & Hedit); evaluated.
  - intros row Hrow. by apply elem_of_nil in Hrow.
  - exists d'. split; [exact Hcreate|].
    etransitivity; [exact Hedit|]. vm_compute. reflexivity.
Defined.

Lemma create_user_keeps_names_unique_witness :
  exists s',
    create_user (py "salt") (py "carol") (py "tower") sample_store
    = Ok ((true, Some 3), s')
    /\ usernames_unique (tables s').
Proof.
  destruct (create_user (py "salt") (py "carol") (py "tower") sample_store)
    as [[r s']|e] eqn:Hrun; [|vm_compute in Hrun; discriminate].
  destruct (create_user_keeps_names_unique (py "salt") (py "carol") (py "tower")
              sample_store r s' Hrun sample_db_usernames_unique sample_db_user_ids_fresh)
    as (Huniq & _).
  exists s'. split; [|exact Huniq]. vm_compute in Hrun. by simplify_eq.
Defined.

Lemma register_then_login_witness :
  exists s',
    register (py "salt") (Session None None) account_request sample_store
    = Ok ((Goto "index", Session (Some (py "carol")) (Some 3)), s')
    /\ login_view (py "pepper") (Session None None) account_request (tables s')
       = Ok ((Goto "index", Session (Some (py "carol")) (Some 3)), tables s').
Proof.
  destruct (register_then_login sample_sqlite_orders sample_generated_has_marker
              sample_generated_verifies (py "salt") (py "pepper") (Session None None)
              (Session None None) account_request sample_store)
    as (s' & public & Hregister & _ & _ & _ & Hlogin & _);
    evaluated.
  - intros id u Hu. destruct (sample_db_users u id Hu) as [[_ ->]|[_ ->]];
      vm_compute; discriminate.
  - exact sample_db_user_ids_fresh.
  - intros id a Ha. apply elem_of_map_to_list in Ha. vm_compute in Ha.
    apply elem_of_cons in Ha as [Ha|Ha]; [simplify_eq; cbn; lia|].
    apply elem_of_cons in Ha as [Ha|Ha]; [simplify_eq; cbn; lia|].
    by apply elem_of_nil in Ha.
  - exists s'. split; [exact Hregister|exact Hlogin].
Defined.


Lemma cleanup_expired_records_purges_witness :
  match users (tables (cleanup_expired_records 1000 7 legacy_store).2) !! 2 with
  | Some u => 580 <= u_created_at u \/ 2 ∈ undated legacy_store \/ u_username u = py "admin"
  | None => True
  end
  /\ match artworks (tables (cleanup_expired_records 8 7 legacy_store).2) !! 1 with
     | Some a => -412 <= a_created_at a
     | None => True
     end.
Proof.
  split.
  - destruct (cleanup_expired_records_purges 1000 7 legacy_store) as (_ & _ & _ & Husers);
      [lia|].
    destruct (users _ !! 2) as [u|] eqn:Hu; [|exact I]. exact (Husers 2 u Hu).
  - destruct (cleanup_expired_records_purges 8 7 legacy_store) as (Harts & _); [lia|].
    destruct (artworks _ !! 1) as [a|] eqn:Ha; [|exact I]. exact (Harts 1 a Ha).
Defined.


Lemma create_user_never_expires_witness :
  exists s',
    create_user (py "salt") (py "carol") (py "tower") sample_store = Ok ((true, Some 3), s')
    /\ is_Some (users (tables (cleanup_expired_records 100000 7 s').2) !! 3).
Proof.
  destruct (create_user (py "salt") (py "carol") (py "tower") sample_store)
    as [[r s']|e] eqn:Hrun; [|vm_compute in Hrun; discriminate].
  assert (r = (true, Some 3)) as -> by (vm_compute in Hrun; by simplify_eq).
  destruct (create_user_never_expires (py "salt") (py "carol") (py "tower") sample_store 3
              s' 100000 7 Hrun) as (Hthere & Hkept & _).
  exists s'. split; [done|]. by rewrite Hkept.
Defined.

Lemma list_public_artworks_public_only_witness :
  exists rows,
    list_public_artworks 50 sample_db = Ok rows
    /\ Z.of_nat (length rows) <= 50
    /\ forall r, r ∈ rows -> a_is_private (r_artwork r) = 0.
Proof.
  destruct (list_public_artworks_public_only sample_sqlite_orders 50 sample_db eq_refl)
    as (rows & Hrun & Hrows & _ & Hlen & _).
  exists rows. split_and!; [exact Hrun|apply Hlen; lia|].
  intros r Hr. by destruct (Hrows r Hr) as (_ & Hpublic & _).
Defined.

Lemma fetch_recent_artworks_for_user_own_witness :
  exists rows,
    fetch_recent_artworks_for_user 1 20 sample_db = Ok rows
    /\ forall r, r ∈ rows -> a_owner_id (r_artwork r) = 1.
Proof.
  destruct (fetch_recent_artworks_for_user_own sample_sqlite_orders 1 20 sample_db
              eq_refl eq_refl) as (rows & Hrun & Hrows & _).
  exists rows. split; [exact Hrun|].
  intros r Hr. by destruct (Hrows r Hr) as (_ & Hown & _).
Defined.

Lemma fetch_transactions_for_user_parties_witness :
  exists rows,
    fetch_transactions_for_user 2 (purchased 9 2 1 sample_db) = Ok rows
    /\ forall row, row ∈ rows ->
         t_buyer_id (x_transaction row) = 2 \/ t_seller_id (x_transaction row) = 2.
Proof.
  destruct (fetch_transactions_for_user_parties sample_sqlite_orders 2
              (purchased 9 2 1 sample_db) eq_refl) as (rows & Hrun & Hrows & _).
  exists rows. split; [exact Hrun|].
  intros row Hrow. by destruct (Hrows row Hrow) as (_ & Hparty & _).
Defined.

Lemma purchase_artwork_in_history_witness :
  exists rows,
    fetch_transactions_for_user 1 (purchased 9 2 1 sample_db) = Ok rows
    /\ TransactionRow (Transaction 2 1 1 250 9) (py "bob") (py "alice") (SqlText (py "Square"))
       ∈ rows.
Proof.
  destruct (purchase_artwork_in_history sample_sqlite_orders 9 2 1 sample_db
              "Purchase successful" (purchased 9 2 1 sample_db)
              (Artwork (SqlText (py "Square")) (py "[]") 250 1 0 [] 5)
              (User (py "bob") (py "1b9b1b9b1b9b1b9b1b9b1b9b1b9b1b9b") 300 0))
    as (_ & Hlisted & _); evaluated.
  destruct (Hlisted (User (py "alice") (py "plain:1$s$wonderland") 1000 0))
    as (_ & rows & Hrun & Hrow); [vm_compute; reflexivity|].
  exists rows. split; [exact Hrun|exact Hrow].
Defined.


Lemma visitor_is_sent_to_login_witness :
  buy_artwork 9 (Session None None) 1 sample_db = Ok (Goto "login", sample_db)
  /\ import_artwork 9 (Session (Some (py "mallory")) (Some 1))
                    (import_request "http://example.com/art.json") sample_db
     = Ok (Redirect "login", sample_db).
Proof.
  split.
  - apply (visitor_is_sent_to_login 9 (Session None None) page_request [] 1 sample_db).
    reflexivity.
  - apply (visitor_is_sent_to_login 9 (Session (Some (py "mallory")) (Some 1))
             (import_request "http://example.com/art.json") [] 1 sample_db).
    vm_compute. reflexivity.
Defined.

Lemma artwork_settings_round_trip_witness :
  exists d',
    artwork_settings 8 alice_session settings_request 1 sample_db = Ok (Redirect "index", d')
    /\ artwork_settings 9 alice_session page_request 1 d'
       = Ok (Render (Page "settings.html" None None None None None
                          (Some (settings_to_save (py "#E41E26,#000000") true false))), d').
Proof.
  destruct (artwork_settings_round_trip 8 9 alice_session settings_request page_request 1
              sample_db (Artwork (SqlText (py "Square")) (py "[]") 250 1 0 [] 5)
              (py "alice") 1) as (d' & Hsave & Hshow);
    evaluated.
  - cbn. lia.
  - exists d'. split; [exact Hsave|]. rewrite Hshow. vm_compute. reflexivity.
Defined.
Lemma json_loads_dumps_witness :
  json_loads (json_dumps sample_shapes) = Ok sample_shapes
  /\ load_artwork_settings (JStr (json_dumps sample_shapes)) = Ok sample_shapes.
Proof.
  apply (json_loads_dumps sample_shapes); [reflexivity|].
  apply Nat2Z.inj_le. vm_compute. discriminate.
Defined.
End MoreExamples.
